(** * go-mockdns: the zone store, the request handler and the record mutators

    A shallow embedding of [Server.ServeDNS], [Server.writeErr],
    [Server.AppendRR], [Server.RemoveRR], [Server.Reset] and [isZoneEmpty]
    of package [mockdns], together with the parts of the Go standard library
    and of [github.com/miekg/dns] they call.  The handler comes twice: as
    the message it computes for a server whose logger is in place, and,
    in [Module logged], with the logger of the server and the writer of the
    call made explicit.

    Go strings are byte strings, modelled by [string] (a list of 8-bit
    [ascii]).  Go maps are modelled by stdpp's [gmap]; reading a missing key
    of a Go map yields the zero value, which is written out with [default].
    Unsigned 16-bit numbers are integers in [Z]; the conversion [uint16(x)]
    is the explicit reduction modulo 2^16. *)

From Stdlib Require Import ZArith Ascii String List Bool Lia.
From stdpp Require Import base option list strings gmap.

Local Open Scope string_scope.
Local Open Scope list_scope.
Local Open Scope Z_scope.

(** ** Package [strings] and [strconv] of the Go standard library *)

Module strs.

(** [strings.HasSuffix(s, suffix)]:
    [len(s) >= len(suffix) && s[len(s)-len(suffix):] == suffix]. *)
Definition HasSuffix (s suffix : string) : bool :=
  (String.length suffix <=? String.length s)%nat &&
  String.eqb
    (substring (String.length s - String.length suffix)
               (String.length suffix) s)
    suffix.

(** Case folding of one byte: 'A'..'Z' become 'a'..'z'. *)
Definition lowerByte (c : ascii) : ascii :=
  let n := nat_of_ascii c in
  if ((65 <=? n) && (n <=? 90))%nat then ascii_of_nat (n + 32) else c.

(** [strings.ToLower] on strings of ASCII bytes, the case of domain names
    in presentation format: the letters 'A'..'Z' are folded and every other
    byte is kept.  On a string with a byte above 0x7F Go decodes UTF-8 and
    maps every rune with [unicode.ToLower]; that half is not modelled, and
    this function keeps such bytes as they are. *)
Fixpoint ToLower (s : string) : string :=
  match s with
  | EmptyString => EmptyString
  | String c rest => String (lowerByte c) (ToLower rest)
  end.

(** [s[:m]] and [s[m+1:]] for the first index [m] holding [sep]
    ([strings.Index] with a one-byte separator); [None] when there is no
    such index. *)
Fixpoint cut (sep : ascii) (s : string) : option (string * string) :=
  match s with
  | EmptyString => None
  | String c rest =>
      if Ascii.eqb c sep then Some (EmptyString, rest)
      else match cut sep rest with
           | Some (a, b) => Some (String c a, b)
           | None => None
           end
  end.

(** [strings.SplitN(s, sep, n)] for a one-byte separator and [n >= 0]: at
    most [n] pieces, the last one being the unsplit remainder. *)
Fixpoint SplitN (s : string) (sep : ascii) (n : nat) : list string :=
  match n with
  | O => []
  | S O => [s]
  | S n' =>
      match cut sep s with
      | None => [s]
      | Some (a, b) => a :: SplitN b sep n'
      end
  end.

Definition digitVal (c : ascii) : option Z :=
  let n := Z.of_nat (nat_of_ascii c) in
  if (48 <=? n) && (n <=? 57) then Some (n - 48) else None.

Fixpoint digits (s : string) (acc : Z) : option Z :=
  match s with
  | EmptyString => Some acc
  | String c rest =>
      match digitVal c with
      | Some d => digits rest (acc * 10 + d)
      | None => None
      end
  end.

Definition minInt : Z := - 2 ^ 63.
Definition maxInt : Z := 2 ^ 63 - 1.

(** [strconv.Atoi] (64-bit [int]): an optional sign followed by one or
    more decimal digits, whose value fits [int]; [None] stands for the
    returned error (syntax or range). *)
Definition Atoi (s : string) : option Z :=
  let '(neg, body) :=
    match s with
    | String "-"%char rest => (true, rest)
    | String "+"%char rest => (false, rest)
    | _ => (false, s)
    end in
  match body with
  | EmptyString => None
  | _ =>
      match digits body 0 with
      | None => None
      | Some v =>
          let v' := if neg then - v else v in
          if (minInt <=? v') && (v' <=? maxInt) then Some v' else None
      end
  end.

End strs.

(** The Go conversion [uint16(x)] of an [int]. *)
Definition uint16 (x : Z) : Z := x mod 65536.

(** ** Package [net] of the Go standard library *)

Module net.

Record MX := { Host : string; Pref : Z }.
(** The field [Host] of [net.NS] is [NS_Host] here. *)
Record NS := { NS_Host : string }.
Record SRV := { Target : string; Port : Z; Priority : Z; Weight : Z }.

(** [net.IP] is a byte slice. *)
Definition IP := list Z.

(** [*net.DNSError], with the two fields the server reads. *)
Record DNSError := { Name : string; IsNotFound : bool }.

End net.

(** Values of the Go interface [error]: a [*net.DNSError], an opaque error
    such as [errors.New(msg)], or an error wrapping another one. *)
Inductive error : Type :=
| ErrDNS (e : net.DNSError)
| ErrString (msg : string)
| ErrWrap (msg : string) (inner : error).

(** [errors.As(err, &dnsErr)] with [dnsErr : *net.DNSError]: the first
    [*net.DNSError] in the chain of wrapped errors. *)
Fixpoint asDNSError (e : error) : option net.DNSError :=
  match e with
  | ErrDNS d => Some d
  | ErrString _ => None
  | ErrWrap _ inner => asDNSError inner
  end.

(** The condition of [writeErr]:
    [errors.As(err, &dnsErr) && dnsErr.IsNotFound]. *)
Definition isNotFound (e : error) : bool :=
  match asDNSError e with
  | Some d => net.IsNotFound d
  | None => false
  end.

(** ** Package [github.com/miekg/dns] *)

Module dns.

Definition TypeA : Z := 1.
Definition TypeNS : Z := 2.
Definition TypeCNAME : Z := 5.
Definition TypeSOA : Z := 6.
Definition TypePTR : Z := 12.
Definition TypeMX : Z := 15.
Definition TypeTXT : Z := 16.
Definition TypeAAAA : Z := 28.
Definition TypeSRV : Z := 33.

Definition ClassINET : Z := 1.
Definition OpcodeQuery : Z := 0.

Definition RcodeSuccess : Z := 0.
Definition RcodeServerFailure : Z := 2.
Definition RcodeNameError : Z := 3.
Definition RcodeNotImplemented : Z := 4.
Definition RcodeRefused : Z := 5.

(** Number of backslashes at the head of a list of bytes. *)
Fixpoint leadingBackslashes (l : list ascii) : nat :=
  match l with
  | "\"%char :: rest => S (leadingBackslashes rest)
  | _ => O
  end.

(** [dns.IsFqdn]: the name ends in a dot that is not escaped, that is,
    one preceded by an even number of backslashes. *)
Definition IsFqdn (s : string) : bool :=
  match rev (list_ascii_of_string s) with
  | "."%char :: before => Nat.even (leadingBackslashes before)
  | _ => false
  end.

(** [dns.Fqdn]: [if IsFqdn(s) { return s }; return s + "."]. *)
Definition Fqdn (s : string) : string :=
  if IsFqdn s then s else s +:+ ".".

Record RR_Header := {
  Name : string;
  Rrtype : Z;
  Class : Z;
  Ttl : Z
}.

(** The resource records the server builds, and [Other] for any further
    [dns.RR] a zone keeps in [Misc]. *)
Inductive RR : Type :=
| A (Hdr : RR_Header) (addr : net.IP)
| AAAA (Hdr : RR_Header) (addr : net.IP)
| CNAME (Hdr : RR_Header) (Target : string)
| MX (Hdr : RR_Header) (Preference : Z) (Mx : string)
| NS (Hdr : RR_Header) (Ns : string)
| SRV (Hdr : RR_Header) (Priority Port Weight : Z) (Target : string)
| TXT (Hdr : RR_Header) (Txt : list string)
| PTR (Hdr : RR_Header) (Ptr : string)
| SOA (Hdr : RR_Header) (Ns Mbox : string)
      (Serial Refresh Retry Expire Minttl : Z)
| Other (Hdr : RR_Header) (rdata : string).

Record Question := {
  Q_Name : string;
  Qtype : Z;
  Qclass : Z
}.

(** [dns.Msg]: the header [MsgHdr] and the four sections.  The question
    section, [Question] in Go, is [Questions] here, [Question] being the
    record of one entry; the name of an entry is [Q_Name]. *)
Record Msg := {
  Id : Z;
  Response : bool;
  Opcode : Z;
  Authoritative : bool;
  Truncated : bool;
  RecursionDesired : bool;
  RecursionAvailable : bool;
  Zero : bool;
  AuthenticatedData : bool;
  CheckingDisabled : bool;
  Rcode : Z;
  Questions : list Question;
  Answer : list RR;
  Ns : list RR;
  Extra : list RR
}.

(** [new(dns.Msg)]: every field at its zero value. *)
Definition newMsg : Msg :=
  {| Id := 0; Response := false; Opcode := 0; Authoritative := false;
     Truncated := false; RecursionDesired := false;
     RecursionAvailable := false; Zero := false;
     AuthenticatedData := false; CheckingDisabled := false; Rcode := 0;
     Questions := []; Answer := []; Ns := []; Extra := [] |}.

(** Field assignments [reply.F = v]. *)
Definition setAuthoritative (v : bool) (m : Msg) : Msg :=
  {| Id := Id m; Response := Response m; Opcode := Opcode m;
     Authoritative := v; Truncated := Truncated m;
     RecursionDesired := RecursionDesired m;
     RecursionAvailable := RecursionAvailable m; Zero := Zero m;
     AuthenticatedData := AuthenticatedData m;
     CheckingDisabled := CheckingDisabled m; Rcode := Rcode m;
     Questions := Questions m; Answer := Answer m; Ns := Ns m;
     Extra := Extra m |}.

Definition setRecursionAvailable (v : bool) (m : Msg) : Msg :=
  {| Id := Id m; Response := Response m; Opcode := Opcode m;
     Authoritative := Authoritative m; Truncated := Truncated m;
     RecursionDesired := RecursionDesired m;
     RecursionAvailable := v; Zero := Zero m;
     AuthenticatedData := AuthenticatedData m;
     CheckingDisabled := CheckingDisabled m; Rcode := Rcode m;
     Questions := Questions m; Answer := Answer m; Ns := Ns m;
     Extra := Extra m |}.

Definition setAuthenticatedData (v : bool) (m : Msg) : Msg :=
  {| Id := Id m; Response := Response m; Opcode := Opcode m;
     Authoritative := Authoritative m; Truncated := Truncated m;
     RecursionDesired := RecursionDesired m;
     RecursionAvailable := RecursionAvailable m; Zero := Zero m;
     AuthenticatedData := v;
     CheckingDisabled := CheckingDisabled m; Rcode := Rcode m;
     Questions := Questions m; Answer := Answer m; Ns := Ns m;
     Extra := Extra m |}.

Definition setRcodeField (v : Z) (m : Msg) : Msg :=
  {| Id := Id m; Response := Response m; Opcode := Opcode m;
     Authoritative := Authoritative m; Truncated := Truncated m;
     RecursionDesired := RecursionDesired m;
     RecursionAvailable := RecursionAvailable m; Zero := Zero m;
     AuthenticatedData := AuthenticatedData m;
     CheckingDisabled := CheckingDisabled m; Rcode := v;
     Questions := Questions m; Answer := Answer m; Ns := Ns m;
     Extra := Extra m |}.

Definition setAnswer (v : list RR) (m : Msg) : Msg :=
  {| Id := Id m; Response := Response m; Opcode := Opcode m;
     Authoritative := Authoritative m; Truncated := Truncated m;
     RecursionDesired := RecursionDesired m;
     RecursionAvailable := RecursionAvailable m; Zero := Zero m;
     AuthenticatedData := AuthenticatedData m;
     CheckingDisabled := CheckingDisabled m; Rcode := Rcode m;
     Questions := Questions m; Answer := v; Ns := Ns m;
     Extra := Extra m |}.

Definition setNs (v : list RR) (m : Msg) : Msg :=
  {| Id := Id m; Response := Response m; Opcode := Opcode m;
     Authoritative := Authoritative m; Truncated := Truncated m;
     RecursionDesired := RecursionDesired m;
     RecursionAvailable := RecursionAvailable m; Zero := Zero m;
     AuthenticatedData := AuthenticatedData m;
     CheckingDisabled := CheckingDisabled m; Rcode := Rcode m;
     Questions := Questions m; Answer := Answer m; Ns := v;
     Extra := Extra m |}.

Definition setExtra (v : list RR) (m : Msg) : Msg :=
  {| Id := Id m; Response := Response m; Opcode := Opcode m;
     Authoritative := Authoritative m; Truncated := Truncated m;
     RecursionDesired := RecursionDesired m;
     RecursionAvailable := RecursionAvailable m; Zero := Zero m;
     AuthenticatedData := AuthenticatedData m;
     CheckingDisabled := CheckingDisabled m; Rcode := Rcode m;
     Questions := Questions m; Answer := Answer m; Ns := Ns m;
     Extra := v |}.

(** [Msg.SetReply(request)]: copies the id, the opcode and, for a
    standard query, the rd and cd bits; marks the message as a response
    with rcode success; keeps the first question of the request.  The
    aa and ra bits and the three record sections are left as they are. *)
Definition SetReply (reply request : Msg) : Msg :=
  let std := Opcode request =? OpcodeQuery in
  {| Id := Id request; Response := true; Opcode := Opcode request;
     Authoritative := Authoritative reply; Truncated := Truncated reply;
     RecursionDesired :=
       if std then RecursionDesired request else RecursionDesired reply;
     RecursionAvailable := RecursionAvailable reply; Zero := Zero reply;
     AuthenticatedData := AuthenticatedData reply;
     CheckingDisabled :=
       if std then CheckingDisabled request else CheckingDisabled reply;
     Rcode := RcodeSuccess;
     Questions :=
       match Questions request with
       | q :: _ => [q]
       | [] => Questions reply
       end;
     Answer := Answer reply; Ns := Ns reply; Extra := Extra reply |}.

(** [Msg.SetRcode(request, rcode)]: [SetReply] followed by
    [dns.Rcode = rcode]. *)
Definition SetRcode (reply request : Msg) (rcode : Z) : Msg :=
  setRcodeField rcode (SetReply reply request).

(** [dns.ResponseWriter], as far as the handler uses it: what [WriteMsg]
    returns for a message, [None] being the nil error. *)
Record ResponseWriter := { WriteMsg : Msg → option error }.

End dns.

(** ** Package [mockdns]: the data model *)

(** Modelled from the spec: the field [Misc] ("mapping from arbitrary
    record-type code to an opaque pre-built list of protocol-library record
    objects"), which [ServeDNS] and [isZoneEmpty] read and which the
    declaration of the struct under src/ does not list.  The other fields
    are those of [type Zone struct]. *)
Record Zone := {
  Err : option error;
  A : list string;
  AAAA : list string;
  TXT : list string;
  PTR : list string;
  CNAME : string;
  MX : list net.MX;
  NS : list net.NS;
  SRV : list net.SRV;
  Misc : gmap Z (list dns.RR)
}.

(** The zero value [Zone{}], which reading a missing key of
    [map[string]Zone] yields. *)
Definition zeroZone : Zone :=
  {| Err := None; A := []; AAAA := []; TXT := []; PTR := [];
     CNAME := EmptyString;
     MX := []; NS := []; SRV := []; Misc := ∅ |}.

(** [type Resolver struct { Zones map[string]Zone ... }]. *)
Record Resolver := { Zones : gmap string Zone }.

(** [type Server struct]: the resolver and the [Authoritative] switch.  The
    lock and the two listeners carry no data of the model.  The exported
    field [Log] is the second field of [LoggedServer] below: [ServeDNS] of a
    [Server] is the handler of a server whose logger is in place and whose
    [Printf] returns, as [NewServer] builds it, and [logged.ServeDNS] is the
    handler for any logger, the nil one included. *)
Record Server := {
  r : Resolver;
  Authoritative : bool
}.

(** A handler call either panics or hands one message to
    [w.WriteMsg]. *)
Inductive outcome : Type :=
| Panics (msg : string)
| Written (reply : dns.Msg).

(** What the [lookup*] methods of the resolver return:
    [(ad, cnames, rname, values, err)]. *)
Record lookupResult (V : Type) := {
  ad : bool;
  cnames : list string;
  rname : string;
  values : list V;
  err : option error
}.
Arguments ad {V} _.
Arguments cnames {V} _.
Arguments rname {V} _.
Arguments values {V} _.
Arguments err {V} _.

(** Modelled from the spec: [notFound], the helper of the resolver that
    builds the NotFound outcome carrying a name; on the Go side a
    [*net.DNSError] with [IsNotFound] set, which is what [writeErr] tests
    for. *)
Definition notFound (host : string) : error :=
  ErrDNS {| net.Name := host; net.IsNotFound := true |}.

(** Modelled from the spec: the failure of a lookup whose alias chain is a
    cycle or too long ("must be treated as a resolution failure, not an
    infinite loop"). *)
Definition errChainTooLong : error := ErrString "CNAME chain too long".

(** The name normalisation of the lookup paths:
    [strings.ToLower(dns.Fqdn(name))]. *)
Definition normalize (name : string) : string :=
  strs.ToLower (dns.Fqdn name).

Definition isEmpty {V : Type} (l : list V) : bool :=
  match l with
  | [] => true
  | _ => false
  end.

Definition failed {V : Type} (chain : list string) (current : string)
    (e : error) : lookupResult V :=
  {| ad := false; cnames := chain; rname := current; values := [];
     err := Some e |}.

(** Modelled from the spec: the loop of the resolution engine (section 4.2,
    step 3), whose Go source (the resolver) is not under src/.  [field]
    selects the record set of the requested type; [fuel] bounds the number
    of zones consulted.
    a. the current name is looked up; absent gives NotFound(current);
    b. a zone with [Err] set gives that error;
    c. a zone with a non-empty [CNAME] and an empty field adds the target to
       the chain and continues from the target;
    d. otherwise the field is returned with the chain and the current name,
       or NotFound(current) when it is empty. *)
Fixpoint walk {V : Type} (field : Zone → list V) (zones : gmap string Zone)
    (fuel : nat) (chain : list string) (current : string) : lookupResult V :=
  match fuel with
  | O => failed chain current errChainTooLong
  | S fuel' =>
      match zones !! current with
      | None => failed chain current (notFound current)
      | Some z =>
          match Err z with
          | Some e => failed chain current e
          | None =>
              if negb (String.eqb (CNAME z) EmptyString) && isEmpty (field z)
              then walk field zones fuel' (chain ++ [CNAME z]) (CNAME z)
              else if isEmpty (field z)
              then failed chain current (notFound current)
              else {| ad := false; cnames := chain; rname := current;
                      values := field z; err := None |}
          end
      end
  end.

Section Handler.

(** The largest number of aliases a lookup follows; the spec asks for a
    bound and leaves its value open. *)
Variable maxChain : nat.

(** [net.ParseIP] of the Go standard library; [None] is its [nil]. *)
Variable ParseIP : string → option net.IP.

(** Modelled from the spec: [lookup(name, type)] of section 4.2, steps 1
    and 3, for a type other than CNAME. *)
Definition lookup {V : Type} (field : Zone → list V) (rs : Resolver)
    (name : string) : lookupResult V :=
  walk field (Zones rs) (S maxChain) [] (normalize name).

Definition lookupA := lookup A.
Definition lookupAAAA := lookup AAAA.
Definition lookupMX := lookup MX.
Definition lookupNS := lookup NS.
Definition lookupSRV := lookup SRV.
Definition lookupTXT := lookup TXT.

(** The records of one family for the merge: the values of a successful
    lookup, none after NotFound. *)
Definition family (res : lookupResult string) : list string :=
  match err res with
  | None => values res
  | Some _ => []
  end.

(** An error of a family lookup other than NotFound. *)
Definition hardError (res : lookupResult string) : option error :=
  match err res with
  | Some e => if isNotFound e then None else Some e
  | None => None
  end.

(** Modelled from the spec: the address lookup requesting both families
    (section 4.2: "merge A and AAAA results when both families are
    requested, and fail with NotFound only if both families individually
    have no records (at least one non-empty family yields success even if
    the other family is absent)"; section 9: the [Err] of the zone fails
    the whole lookup).  Returns the addresses or the error. *)
Definition lookupHost (rs : Resolver) (host : string)
    : list string * option error :=
  let ra := lookupA rs host in
  let r6 := lookupAAAA rs host in
  let addrs := family ra ++ family r6 in
  if isEmpty addrs then
    match hardError ra, hardError r6 with
    | Some e, _ => ([], Some e)
    | None, Some e => ([], Some e)
    | None, None => ([], Some (notFound (normalize host)))
    end
  else (addrs, None).

(** The placeholder SOA record of [writeErr] and of the SOA case. *)
Definition mkSOA (name : string) : dns.RR :=
  dns.SOA
    {| dns.Name := name; dns.Rrtype := dns.TypeSOA;
       dns.Class := dns.ClassINET; dns.Ttl := 9999 |}
    "localhost." "hostmaster.localhost." 1 900 900 1800 60.

(** [Server.writeErr]: the message handed to [w.WriteMsg].  The answer
    section is left as it is (the assignment [reply.Answer = nil] is
    commented out in the source). *)
Definition writeErr (reply : dns.Msg) (e : error) : dns.Msg :=
  let reply := dns.setRcodeField dns.RcodeServerFailure reply in
  let reply := dns.setRecursionAvailable false reply in
  let reply := dns.setExtra [] reply in
  match asDNSError e with
  | Some dnsErr =>
      if net.IsNotFound dnsErr then
        let reply := dns.setRcodeField dns.RcodeNameError reply in
        let reply := dns.setRecursionAvailable true reply in
        dns.setNs [mkSOA (net.Name dnsErr)] reply
      else reply
  | None => reply
  end.

Definition mkCname (name cname : string) : dns.RR :=
  dns.CNAME
    {| dns.Name := name; dns.Rrtype := dns.TypeCNAME;
       dns.Class := dns.ClassINET; dns.Ttl := 9999 |}
    cname.

(** [splitTXT]: the pieces [s[i*255 : min(len(s), (i+1)*255)]] for
    [i = 0 .. len(s)/255]. *)
Definition splitTXT (s : string) : list string :=
  let maxLen := 255%nat in
  let len := String.length s in
  map (fun i : nat =>
         substring (i * maxLen)
                   (Nat.min len ((i + 1) * maxLen) - i * maxLen) s)
      (seq 0 (len / maxLen + 1)).

(** [appendCNAMEs]: one CNAME record per name of the chain, the first
    owned by [rname], each later one by the target before it. *)
Fixpoint appendCNAMEs (answer : list dns.RR) (cnames : list string)
    (rname : string) : list dns.RR :=
  match cnames with
  | [] => answer
  | cname :: rest =>
      appendCNAMEs (answer ++ [mkCname rname cname]) rest cname
  end.

Definition hdr (name : string) (rrtype : Z) : dns.RR_Header :=
  {| dns.Name := name; dns.Rrtype := rrtype;
     dns.Class := dns.ClassINET; dns.Ttl := 9999 |}.

(** The loops [for _, v := range values { reply.Answer = append(...) }];
    [None] when building a record panics. *)
Fixpoint appendEach {V : Type} (mk : V → option dns.RR)
    (answer : list dns.RR) (vs : list V) : option (list dns.RR) :=
  match vs with
  | [] => Some answer
  | v :: rest =>
      match mk v with
      | None => None
      | Some rr => appendEach mk (answer ++ [rr]) rest
      end
  end.

(** The body shared by the cases A, AAAA, MX, NS, SRV and TXT of the
    switch: the ad bit and the chain are put into the reply, an error goes
    to [writeErr], otherwise one record per value is appended. *)
Definition serveLookup {V : Type} (reply : dns.Msg) (res : lookupResult V)
    (mk : string → V → option dns.RR) : outcome :=
  let reply := dns.setAuthenticatedData (ad res) reply in
  let reply :=
    dns.setAnswer (appendCNAMEs (dns.Answer reply) (cnames res) (rname res))
                  reply in
  match err res with
  | Some e => Written (writeErr reply e)
  | None =>
      match appendEach (mk (rname res)) (dns.Answer reply) (values res) with
      | None => Panics "ServeDNS: malformed IP in records"
      | Some answer => Written (dns.setAnswer answer reply)
      end
  end.

Definition mkA (rname addr : string) : option dns.RR :=
  match ParseIP addr with
  | None => None
  | Some parsed => Some (dns.A (hdr rname dns.TypeA) parsed)
  end.

Definition mkAAAA (rname addr : string) : option dns.RR :=
  match ParseIP addr with
  | None => None
  | Some parsed => Some (dns.AAAA (hdr rname dns.TypeAAAA) parsed)
  end.

Definition mkMX (rname : string) (mx : net.MX) : option dns.RR :=
  Some (dns.MX (hdr rname dns.TypeMX) (net.Pref mx) (net.Host mx)).

Definition mkNS (rname : string) (ns : net.NS) : option dns.RR :=
  Some (dns.NS (hdr rname dns.TypeNS) (net.NS_Host ns)).

Definition mkSRV (rname : string) (srv : net.SRV) : option dns.RR :=
  Some (dns.SRV (hdr rname dns.TypeSRV) (net.Priority srv) (net.Port srv)
                (net.Weight srv) (net.Target srv)).

Definition mkTXT (rname txt : string) : option dns.RR :=
  Some (dns.TXT (hdr rname dns.TypeTXT) (splitTXT txt)).

Definition mkPTR (qname name : string) : dns.RR :=
  dns.PTR (hdr qname dns.TypePTR) name.

(** The [switch q.Qtype] of [ServeDNS], from a reply whose header is
    set. *)
Definition serveQuestion (s : Server) (reply : dns.Msg)
    (q : dns.Question) (qname : string) : outcome :=
  let qtype := dns.Qtype q in
  let name := dns.Q_Name q in
  if qtype =? dns.TypeA then
    serveLookup reply (lookupA (r s) qname) mkA
  else if qtype =? dns.TypeAAAA then
    serveLookup reply (lookupAAAA (r s) name) mkAAAA
  else if qtype =? dns.TypeMX then
    serveLookup reply (lookupMX (r s) name) mkMX
  else if qtype =? dns.TypeNS then
    serveLookup reply (lookupNS (r s) name) mkNS
  else if qtype =? dns.TypeSRV then
    serveLookup reply (lookupSRV (r s) name) mkSRV
  else if qtype =? dns.TypeCNAME then
    let rname := strs.ToLower (dns.Fqdn name) in
    match Zones (r s) !! rname with
    | None => Written (writeErr reply (notFound rname))
    | Some rzone =>
        if String.eqb (CNAME rzone) EmptyString
        then Written (writeErr reply (notFound rname))
        else Written (dns.setAnswer
                        (dns.Answer reply ++ [mkCname rname (CNAME rzone)])
                        reply)
    end
  else if qtype =? dns.TypeTXT then
    serveLookup reply (lookupTXT (r s) name) mkTXT
  else if qtype =? dns.TypePTR then
    match Zones (r s) !! name with
    | None => Written (writeErr reply (notFound name))
    | Some rzone =>
        Written (dns.setAnswer
                   (dns.Answer reply ++ map (mkPTR name) (PTR rzone))
                   reply)
    end
  else if qtype =? dns.TypeSOA then
    Written (dns.setAnswer [mkSOA name] reply)
  else
    match Zones (r s) !! name with
    | None => Written (writeErr reply (notFound name))
    | Some rzone =>
        Written (dns.setAnswer
                   (dns.Answer reply ++ default [] (Misc rzone !! qtype))
                   reply)
    end.

(** The header of the reply to a standard query: [reply.SetReply(m)], the
    ra bit set, and for an authoritative server the aa bit set and the ra
    bit cleared. *)
Definition replyHeader (s : Server) (m : dns.Msg) : dns.Msg :=
  let reply := dns.SetReply dns.newMsg m in
  let reply := dns.setRecursionAvailable true reply in
  if Authoritative s
  then dns.setRecursionAvailable false (dns.setAuthoritative true reply)
  else reply.

(** [Server.ServeDNS]. *)
Definition ServeDNS (s : Server) (m : dns.Msg) : outcome :=
  if negb (dns.Opcode m =? dns.OpcodeQuery) then
    Written (dns.SetRcode dns.newMsg m dns.RcodeRefused)
  else
    let reply := replyHeader s m in
    match dns.Questions m with
    | [] => Panics "index out of range [0] with length 0"
    | q :: _ =>
        let qname := strs.ToLower (dns.Fqdn (dns.Q_Name q)) in
        if negb (dns.Qclass q =? dns.ClassINET) then
          Written (dns.SetRcode reply m dns.RcodeNotImplemented)
        else serveQuestion s reply q qname
    end.

End Handler.

(** ** Package [mockdns]: the mutators of the zone store *)

(** Field assignments [zone.F = v]. *)
Definition setA (v : list string) (zone : Zone) : Zone :=
  {| Err := Err zone; A := v; AAAA := AAAA zone; TXT := TXT zone;
     PTR := PTR zone; CNAME := CNAME zone; MX := MX zone; NS := NS zone;
     SRV := SRV zone; Misc := Misc zone |}.

Definition setAAAA (v : list string) (zone : Zone) : Zone :=
  {| Err := Err zone; A := A zone; AAAA := v; TXT := TXT zone;
     PTR := PTR zone; CNAME := CNAME zone; MX := MX zone; NS := NS zone;
     SRV := SRV zone; Misc := Misc zone |}.

Definition setTXT (v : list string) (zone : Zone) : Zone :=
  {| Err := Err zone; A := A zone; AAAA := AAAA zone; TXT := v;
     PTR := PTR zone; CNAME := CNAME zone; MX := MX zone; NS := NS zone;
     SRV := SRV zone; Misc := Misc zone |}.

Definition setPTR (v : list string) (zone : Zone) : Zone :=
  {| Err := Err zone; A := A zone; AAAA := AAAA zone; TXT := TXT zone;
     PTR := v; CNAME := CNAME zone; MX := MX zone; NS := NS zone;
     SRV := SRV zone; Misc := Misc zone |}.

Definition setCNAME (v : string) (zone : Zone) : Zone :=
  {| Err := Err zone; A := A zone; AAAA := AAAA zone; TXT := TXT zone;
     PTR := PTR zone; CNAME := v; MX := MX zone; NS := NS zone;
     SRV := SRV zone; Misc := Misc zone |}.

Definition setMX (v : list net.MX) (zone : Zone) : Zone :=
  {| Err := Err zone; A := A zone; AAAA := AAAA zone; TXT := TXT zone;
     PTR := PTR zone; CNAME := CNAME zone; MX := v; NS := NS zone;
     SRV := SRV zone; Misc := Misc zone |}.

Definition setNS (v : list net.NS) (zone : Zone) : Zone :=
  {| Err := Err zone; A := A zone; AAAA := AAAA zone; TXT := TXT zone;
     PTR := PTR zone; CNAME := CNAME zone; MX := MX zone; NS := v;
     SRV := SRV zone; Misc := Misc zone |}.

Definition setSRV (v : list net.SRV) (zone : Zone) : Zone :=
  {| Err := Err zone; A := A zone; AAAA := AAAA zone; TXT := TXT zone;
     PTR := PTR zone; CNAME := CNAME zone; MX := MX zone; NS := NS zone;
     SRV := v; Misc := Misc zone |}.
(** [s.r.Zones = zones]. *)
Definition setZones (zones : gmap string Zone) (s : Server) : Server :=
  {| r := {| Zones := zones |}; Authoritative := Authoritative s |}.

(** The key both mutators use:
    [if !strings.HasSuffix(name, ".") { name = name + "." }]. *)
Definition dotName (name : string) : string :=
  if strs.HasSuffix name "." then name else name +:+ ".".

(** [s.r.Zones[name] = zone; return nil]. *)
Definition store (s : Server) (name : string) (zone : Zone)
    : Server * option error :=
  (setZones (<[name := zone]> (Zones (r s))) s, None).

(** [return errors.New(msg)], the store being left as it was. *)
Definition reject (s : Server) (msg : string) : Server * option error :=
  (s, Some (ErrString msg)).

(** [Server.AppendRR]: the server after the call and the returned error
    ([None] is [nil]). *)
Definition AppendRR (s : Server) (name : string) (rrType : Z)
    (rrData : string) : Server * option error :=
  let name := dotName name in
  let zone := default zeroZone (Zones (r s) !! name) in
  if rrType =? dns.TypeA then
    store s name (setA (A zone ++ [rrData]) zone)
  else if rrType =? dns.TypeAAAA then
    store s name (setAAAA (AAAA zone ++ [rrData]) zone)
  else if rrType =? dns.TypeTXT then
    store s name (setTXT (TXT zone ++ [rrData]) zone)
  else if rrType =? dns.TypePTR then
    store s name (setPTR (PTR zone ++ [rrData]) zone)
  else if rrType =? dns.TypeCNAME then
    store s name (setCNAME rrData zone)
  else if rrType =? dns.TypeMX then
    match strs.SplitN rrData " " 2 with
    | [p0; p1] =>
        match strs.Atoi p0 with
        | None => reject s "invalid MX priority"
        | Some pref =>
            let mx := {| net.Host := p1; net.Pref := uint16 pref |} in
            store s name (setMX (MX zone ++ [mx]) zone)
        end
    | _ => reject s "invalid MX rrData format"
    end
  else if rrType =? dns.TypeNS then
    store s name (setNS (NS zone ++ [{| net.NS_Host := rrData |}]) zone)
  else if rrType =? dns.TypeSRV then
    match strs.SplitN rrData " " 4 with
    | [p0; p1; p2; p3] =>
        match strs.Atoi p0 with
        | None => reject s "invalid SRV priority"
        | Some priority =>
            match strs.Atoi p1 with
            | None => reject s "invalid SRV priority"
            | Some weight =>
                match strs.Atoi p2 with
                | None => reject s "invalid SRV port"
                | Some port =>
                    let srv :=
                      {| net.Target := p3; net.Port := uint16 port;
                         net.Priority := uint16 priority;
                         net.Weight := uint16 weight |} in
                    store s name (setSRV (SRV zone ++ [srv]) zone)
                end
            end
        end
    | _ => reject s "invalid SRV rrData format"
    end
  else reject s "RR type not supported".

(** [isZoneEmpty]. *)
Definition isZoneEmpty (zone : Zone) : bool :=
  (length (A zone) =? 0)%nat &&
  (length (AAAA zone) =? 0)%nat &&
  (length (TXT zone) =? 0)%nat &&
  (length (PTR zone) =? 0)%nat &&
  String.eqb (CNAME zone) EmptyString &&
  (length (MX zone) =? 0)%nat &&
  (length (NS zone) =? 0)%nat &&
  (length (SRV zone) =? 0)%nat &&
  (size (Misc zone) =? 0)%nat.

(** The [switch rrType] of [RemoveRR]: the record set of the type is
    cleared; any other type leaves the zone as it is. *)
Definition clearType (rrType : Z) (zone : Zone) : Zone :=
  if rrType =? dns.TypeA then setA [] zone
  else if rrType =? dns.TypeAAAA then setAAAA [] zone
  else if rrType =? dns.TypeTXT then setTXT [] zone
  else if rrType =? dns.TypePTR then setPTR [] zone
  else if rrType =? dns.TypeCNAME then setCNAME EmptyString zone
  else if rrType =? dns.TypeMX then setMX [] zone
  else if rrType =? dns.TypeNS then setNS [] zone
  else if rrType =? dns.TypeSRV then setSRV [] zone
  else zone.

(** [Server.RemoveRR]. *)
Definition RemoveRR (s : Server) (name : string) (rrType : Z) : Server :=
  let name := dotName name in
  let zone := default zeroZone (Zones (r s) !! name) in
  let zone := clearType rrType zone in
  if isZoneEmpty zone
  then setZones (delete name (Zones (r s))) s
  else setZones (<[name := zone]> (Zones (r s))) s.

(** [Server.Reset]: [s.r.Zones = make(map[string]Zone)]. *)
Definition Reset (s : Server) : Server := setZones ∅ s.

(** [NewServer(zones, authoritative)], without the listeners. *)
Definition NewServer (zones : gmap string Zone) (authoritative : bool)
    : Server :=
  {| r := {| Zones := zones |}; Authoritative := authoritative |}.

(** [msg.SetQuestion(name, qtype)] on a new message, as the tests build
    their queries: one question of class INET, recursion desired. *)
Definition query (id : Z) (name : string) (qtype : Z) : dns.Msg :=
  {| dns.Id := id; dns.Response := false; dns.Opcode := dns.OpcodeQuery;
     dns.Authoritative := false; dns.Truncated := false;
     dns.RecursionDesired := true; dns.RecursionAvailable := false;
     dns.Zero := false; dns.AuthenticatedData := false;
     dns.CheckingDisabled := false; dns.Rcode := 0;
     dns.Questions :=
       [{| dns.Q_Name := name; dns.Qtype := qtype;
           dns.Qclass := dns.ClassINET |}];
     dns.Answer := []; dns.Ns := []; dns.Extra := [] |}.

(** ** The handler with the logger of the server and the writer of the
    call *)

(** [type Logger interface { Printf(f string, args ...interface{}) }], as
    the handler uses it: the nil interface, on which a call panics, or a
    value whose [Printf] returns, such as the [log.New(os.Stderr, ...)]
    that [NewServer] installs. *)
Inductive Logger : Type :=
| nilLogger
| someLogger.

(** [type Server struct] with its exported field [Log]. *)
Record LoggedServer := {
  server : Server;
  Log : Logger
}.

(** [NewServerWithLogger(zones, l, authoritative)], without the listeners:
    [l] is stored as it is given, nil included. *)
Definition NewServerWithLogger (zones : gmap string Zone) (l : Logger)
    (authoritative : bool) : LoggedServer :=
  {| server := NewServer zones authoritative; Log := l |}.

(** What a call of the handler does: it returns after handing one message
    to [w.WriteMsg], or panics before any message is handed over, or panics
    after one was. *)
Inductive run : Type :=
| Returns (sent : dns.Msg)
| PanicsUnsent (msg : string)
| PanicsSent (sent : dns.Msg) (msg : string).

(** How a case of the switch ends: with a [return] after [writeErr] or in a
    panic, or at the end of the switch with the reply it built. *)
Inductive switched : Type :=
| Returned (ran : run)
| Falls (reply : dns.Msg).

(** The run-time error of a method call on a nil interface. *)
Definition nilDereference : string :=
  "invalid memory address or nil pointer dereference".

(** The run that an outcome of [ServeDNS] above stands for. *)
Definition runOf (o : outcome) : run :=
  match o with
  | Written reply => Returns reply
  | Panics msg => PanicsUnsent msg
  end.

Module logged.

Section Handler.

Variable maxChain : nat.
Variable ParseIP : string → option net.IP.

(** The [w dns.ResponseWriter] of the call. *)
Variable w : dns.ResponseWriter.

(** [s.Log.Printf(...)], then the rest of the call. *)
Definition Printf (l : Logger) (rest : run) : run :=
  match l with
  | nilLogger => PanicsUnsent nilDereference
  | someLogger => rest
  end.

(** [if err := w.WriteMsg(reply); err != nil { s.Log.Printf(...) }], the
    end of a call of [ServeDNS]. *)
Definition writeMsg (l : Logger) (reply : dns.Msg) : run :=
  match dns.WriteMsg w reply with
  | None => Returns reply
  | Some _ =>
      match l with
      | nilLogger => PanicsSent reply nilDereference
      | someLogger => Returns reply
      end
  end.

(** [Server.writeErr] with its log call: the message is the one of
    [writeErr] above; an error that is not a NotFound DNS error is logged
    before the message is handed to [w.WriteMsg], whose result is
    dropped. *)
Definition writeErr (l : Logger) (reply : dns.Msg) (e : error) : run :=
  if isNotFound e
  then Returns (writeErr reply e)
  else Printf l (Returns (writeErr reply e)).

(** The body of the cases A, AAAA, MX, NS, SRV and TXT. *)
Definition serveLookup {V : Type} (l : Logger) (reply : dns.Msg)
    (res : lookupResult V) (mk : string → V → option dns.RR) : switched :=
  let reply := dns.setAuthenticatedData (ad res) reply in
  let reply :=
    dns.setAnswer (appendCNAMEs (dns.Answer reply) (cnames res) (rname res))
                  reply in
  match err res with
  | Some e => Returned (writeErr l reply e)
  | None =>
      match appendEach (mk (rname res)) (dns.Answer reply) (values res) with
      | None => Returned (PanicsUnsent "ServeDNS: malformed IP in records")
      | Some answer => Falls (dns.setAnswer answer reply)
      end
  end.

(** The [switch q.Qtype] of [ServeDNS]. *)
Definition serveQuestion (s : LoggedServer) (reply : dns.Msg)
    (q : dns.Question) (qname : string) : switched :=
  let qtype := dns.Qtype q in
  let name := dns.Q_Name q in
  let rs := r (server s) in
  if qtype =? dns.TypeA then
    serveLookup (Log s) reply (lookupA maxChain rs qname) (mkA ParseIP)
  else if qtype =? dns.TypeAAAA then
    serveLookup (Log s) reply (lookupAAAA maxChain rs name) (mkAAAA ParseIP)
  else if qtype =? dns.TypeMX then
    serveLookup (Log s) reply (lookupMX maxChain rs name) mkMX
  else if qtype =? dns.TypeNS then
    serveLookup (Log s) reply (lookupNS maxChain rs name) mkNS
  else if qtype =? dns.TypeSRV then
    serveLookup (Log s) reply (lookupSRV maxChain rs name) mkSRV
  else if qtype =? dns.TypeCNAME then
    let rname := strs.ToLower (dns.Fqdn name) in
    match Zones rs !! rname with
    | None => Returned (writeErr (Log s) reply (notFound rname))
    | Some rzone =>
        if String.eqb (CNAME rzone) EmptyString
        then Returned (writeErr (Log s) reply (notFound rname))
        else Falls (dns.setAnswer
                      (dns.Answer reply ++ [mkCname rname (CNAME rzone)])
                      reply)
    end
  else if qtype =? dns.TypeTXT then
    serveLookup (Log s) reply (lookupTXT maxChain rs name) mkTXT
  else if qtype =? dns.TypePTR then
    match Zones rs !! name with
    | None => Returned (writeErr (Log s) reply (notFound name))
    | Some rzone =>
        Falls (dns.setAnswer
                 (dns.Answer reply ++ map (mkPTR name) (PTR rzone))
                 reply)
    end
  else if qtype =? dns.TypeSOA then
    Falls (dns.setAnswer [mkSOA name] reply)
  else
    match Zones rs !! name with
    | None => Returned (writeErr (Log s) reply (notFound name))
    | Some rzone =>
        Falls (dns.setAnswer
                 (dns.Answer reply ++ default [] (Misc rzone !! qtype))
                 reply)
    end.

(** [Server.ServeDNS]: after the switch the reply is logged
    ([s.Log.Printf("DNS TRACE %v", reply.String())]) and written. *)
Definition ServeDNS (s : LoggedServer) (m : dns.Msg) : run :=
  if negb (dns.Opcode m =? dns.OpcodeQuery) then
    writeMsg (Log s) (dns.SetRcode dns.newMsg m dns.RcodeRefused)
  else
    let reply := replyHeader (server s) m in
    match dns.Questions m with
    | [] => PanicsUnsent "index out of range [0] with length 0"
    | q :: _ =>
        let qname := strs.ToLower (dns.Fqdn (dns.Q_Name q)) in
        if negb (dns.Qclass q =? dns.ClassINET) then
          writeMsg (Log s) (dns.SetRcode reply m dns.RcodeNotImplemented)
        else
          match serveQuestion s reply q qname with
          | Returned ran => ran
          | Falls reply => Printf (Log s) (writeMsg (Log s) reply)
          end
    end.

End Handler.

End logged.

(** ** Instances for the closed examples *)

(** The dotted-decimal half of [net.ParseIP]: four decimal fields between 0
    and 255, none empty, none with a leading zero; the result is the 16-byte
    form.  It stands for [ParseIP] in the closed examples, none of which
    holds an IPv6 literal. *)
Definition ipv4Field (f : string) : option Z :=
  match f with
  | EmptyString => None
  | String "0"%char (String _ _) => None
  | _ =>
      match strs.digits f 0 with
      | Some v => if (String.length f <=? 3)%nat && (v <=? 255) then Some v
                  else None
      | None => None
      end
  end.

Definition ParseIPv4 (s : string) : option net.IP :=
  match strs.SplitN s "." 5 with
  | [f0; f1; f2; f3] =>
      match ipv4Field f0, ipv4Field f1, ipv4Field f2, ipv4Field f3 with
      | Some a, Some b, Some c, Some d =>
          Some [0; 0; 0; 0; 0; 0; 0; 0; 0; 0; 255; 255; a; b; c; d]
      | _, _, _, _ => None
      end
  | _ => None
  end.

(** The alias bound of the closed examples. *)
Definition exampleChain : nat := 16.

(** The three zones of [TestServer_FollowCNAMEs], with the TXT value of the
    end-to-end scenario of the spec. *)
Definition chainZones : gmap string Zone :=
  <["foo.io." := setCNAME "bar.io." zeroZone]>
    (<["bar.io." := setCNAME "example.org." zeroZone]>
       (<["example.org." := setTXT ["hello"] zeroZone]> ∅)).

(** The zone a Go map read [s.r.Zones[name]] yields. *)
Definition zoneAt (s : Server) (name : string) : Zone :=
  default zeroZone (Zones (r s) !! name).

(** ** Vocabulary of the statements *)

(** A reply is an error reply when [writeErr] produced it: its rcode is
    name-error or server-failure. *)
Definition errorRcode (rcode : Z) : bool :=
  (rcode =? dns.RcodeNameError) || (rcode =? dns.RcodeServerFailure).

(** What a case of the switch keeps of the header it starts from. *)
Definition keepsFlags (reply0 : dns.Msg) (o : outcome) : Prop :=
  match o with
  | Panics _ => True
  | Written reply =>
      dns.Authoritative reply = dns.Authoritative reply0 ∧
      (errorRcode (dns.Rcode reply) = true ∨
       dns.Rcode reply = dns.Rcode reply0 ∧
       dns.RecursionAvailable reply = dns.RecursionAvailable reply0)
  end.

(** The shape of a NotFound response for [name], from a header without
    records. *)
Definition isNotFoundReply (reply : dns.Msg) (name : string) : Prop :=
  dns.Rcode reply = dns.RcodeNameError ∧
  dns.Answer reply = [] ∧
  dns.Ns reply = [mkSOA name].

(** The chain, the name and the error a lookup hands to the handler. *)
Definition summary {V : Type} (res : lookupResult V)
    : list string * string * option error :=
  (cnames res, rname res, err res).

(** The lookup [ServeDNS] performs for a question, case by case of its
    switch: the resolver method of the types A, AAAA, MX, NS, SRV and TXT,
    the direct reads of the store of the types CNAME, PTR and of the
    [default] case, and no lookup at all for SOA. *)
Definition lookupOutcome (maxChain : nat) (s : Server) (q : dns.Question)
    : list string * string * option error :=
  let qtype := dns.Qtype q in
  let name := dns.Q_Name q in
  if qtype =? dns.TypeA then
    summary (lookupA maxChain (r s) (normalize name))
  else if qtype =? dns.TypeAAAA then
    summary (lookupAAAA maxChain (r s) name)
  else if qtype =? dns.TypeMX then
    summary (lookupMX maxChain (r s) name)
  else if qtype =? dns.TypeNS then
    summary (lookupNS maxChain (r s) name)
  else if qtype =? dns.TypeSRV then
    summary (lookupSRV maxChain (r s) name)
  else if qtype =? dns.TypeCNAME then
    match Zones (r s) !! normalize name with
    | None => ([], normalize name, Some (notFound (normalize name)))
    | Some rzone =>
        if String.eqb (CNAME rzone) EmptyString
        then ([], normalize name, Some (notFound (normalize name)))
        else ([], normalize name, None)
    end
  else if qtype =? dns.TypeTXT then
    summary (lookupTXT maxChain (r s) name)
  else if qtype =? dns.TypePTR then
    match Zones (r s) !! name with
    | None => ([], name, Some (notFound name))
    | Some _ => ([], name, None)
    end
  else if qtype =? dns.TypeSOA then ([], name, None)
  else
    match Zones (r s) !! name with
    | None => ([], name, Some (notFound name))
    | Some _ => ([], name, None)
    end.

(** The types the handler resolves through the resolver. *)
Definition engineType (qtype : Z) : bool :=
  (qtype =? dns.TypeA) || (qtype =? dns.TypeAAAA) ||
  (qtype =? dns.TypeMX) || (qtype =? dns.TypeNS) ||
  (qtype =? dns.TypeSRV) || (qtype =? dns.TypeTXT).

(** The store key such a lookup consults first.  For type A the handler
    passes the normalised name, which the resolver normalises again. *)
Definition engineKey (q : dns.Question) : string :=
  if dns.Qtype q =? dns.TypeA
  then normalize (normalize (dns.Q_Name q))
  else normalize (dns.Q_Name q).

(** The reply [writeErr] gets from a case that went through a lookup. *)
Definition errorReply (s : Server) (m : dns.Msg) (adbit : bool)
    (chain : list string) (rn : string) (e : error) : dns.Msg :=
  writeErr
    (dns.setAnswer (appendCNAMEs [] chain rn)
       (dns.setAuthenticatedData adbit (replyHeader s m))) e.

(** A record of a zone, of any of the multi-valued types. *)
Inductive rdata : Type :=
| RText (text : string)
| RMX (mx : net.MX)
| RNS (ns : net.NS)
| RSRV (srv : net.SRV).

(** The record set of a type in a zone, in stored order. *)
Definition recordsOf (rrType : Z) (zone : Zone) : list rdata :=
  if rrType =? dns.TypeA then map RText (A zone)
  else if rrType =? dns.TypeAAAA then map RText (AAAA zone)
  else if rrType =? dns.TypeTXT then map RText (TXT zone)
  else if rrType =? dns.TypePTR then map RText (PTR zone)
  else if rrType =? dns.TypeMX then map RMX (MX zone)
  else if rrType =? dns.TypeNS then map RNS (NS zone)
  else if rrType =? dns.TypeSRV then map RSRV (SRV zone)
  else [].

(** The types whose field of [Zone] is a slice. *)
Definition multiValued (rrType : Z) : bool :=
  (rrType =? dns.TypeA) || (rrType =? dns.TypeAAAA) ||
  (rrType =? dns.TypeTXT) || (rrType =? dns.TypePTR) ||
  (rrType =? dns.TypeMX) || (rrType =? dns.TypeNS) ||
  (rrType =? dns.TypeSRV).

(** The record a textual value denotes: the text itself for A, AAAA, TXT
    and PTR, a host for NS, "<preference> <host>" for MX and
    "<priority> <weight> <port> <target>" for SRV, the numbers converted
    to [uint16]. *)
Definition parseRData (rrType : Z) (rrData : string) : option rdata :=
  if (rrType =? dns.TypeA) || (rrType =? dns.TypeAAAA) ||
     (rrType =? dns.TypeTXT) || (rrType =? dns.TypePTR)
  then Some (RText rrData)
  else if rrType =? dns.TypeNS then Some (RNS {| net.NS_Host := rrData |})
  else if rrType =? dns.TypeMX then
    match strs.cut " " rrData with
    | Some (pref, host) =>
        match strs.Atoi pref with
        | Some n => Some (RMX {| net.Host := host; net.Pref := uint16 n |})
        | None => None
        end
    | None => None
    end
  else if rrType =? dns.TypeSRV then
    match strs.cut " " rrData with
    | Some (p0, rest0) =>
        match strs.cut " " rest0 with
        | Some (p1, rest1) =>
            match strs.cut " " rest1 with
            | Some (p2, target) =>
                match strs.Atoi p0, strs.Atoi p1, strs.Atoi p2 with
                | Some priority, Some weight, Some port =>
                    Some (RSRV {| net.Target := target;
                                  net.Port := uint16 port;
                                  net.Priority := uint16 priority;
                                  net.Weight := uint16 weight |})
                | _, _, _ => None
                end
            | None => None
            end
        | None => None
        end
    | None => None
    end
  else None.

(** Whether a byte occurs in a string. *)
Fixpoint hasByte (b : ascii) (s : string) : bool :=
  match s with
  | EmptyString => false
  | String c rest => Ascii.eqb c b || hasByte b rest
  end.

(** A zone with every field empty. *)
Definition noRecords (zone : Zone) : Prop :=
  A zone = [] ∧ AAAA zone = [] ∧ TXT zone = [] ∧ PTR zone = [] ∧
  CNAME zone = EmptyString ∧ MX zone = [] ∧ NS zone = [] ∧ SRV zone = [] ∧
  Misc zone = ∅.

(** A zone that holds no record: every record list and the [CNAME] field
    are empty, and so is every list [Misc] keeps under a type code. *)
Definition holdsNoRecord (zone : Zone) : Prop :=
  A zone = [] ∧ AAAA zone = [] ∧ TXT zone = [] ∧ PTR zone = [] ∧
  CNAME zone = EmptyString ∧ MX zone = [] ∧ NS zone = [] ∧ SRV zone = [] ∧
  ∀ rrType rrs, Misc zone !! rrType = Some rrs → rrs = [].

(** A store without an entry that [isZoneEmpty] calls empty. *)
Definition pruned (zones : gmap string Zone) : Prop :=
  ∀ k zone, zones !! k = Some zone → isZoneEmpty zone = false.

(** The store key a query consults first: the key of the resolver for the
    types it resolves, the lowercase FQDN form of the name for CNAME, and
    the name as the question spells it for PTR and the [default] case. *)
Definition queryKey (q : dns.Question) : string :=
  if engineType (dns.Qtype q) then engineKey q
  else if dns.Qtype q =? dns.TypeCNAME then normalize (dns.Q_Name q)
  else dns.Q_Name q.

(** A case of the switch ends in the handler with the logger as it does in
    [ServeDNS] above: at the end of the switch with the same reply, in
    [writeErr] with the same reply and error, or in the same panic. *)
Definition sameEnd (l : Logger) (sw : switched) (o : outcome) : Prop :=
  (∃ reply, sw = Falls reply ∧ o = Written reply) ∨
  (∃ reply e,
      sw = Returned (logged.writeErr l reply e) ∧
      o = Written (writeErr reply e)) ∨
  (∃ msg, sw = Returned (PanicsUnsent msg) ∧ o = Panics msg).

(** The concatenation of a list of strings, in order. *)
Definition concatAll (l : list string) : string :=
  fold_right String.append EmptyString l.

(** The piece of index [i] of [splitTXT]. *)
Definition piece (s : string) (i : nat) : string :=
  substring (i * 255)
            (Nat.min (String.length s) ((i + 1) * 255) - i * 255) s.

(** The header [rr.Header()] of a resource record. *)
Definition rrHeader (rr : dns.RR) : dns.RR_Header :=
  match rr with
  | dns.A h _ | dns.AAAA h _ | dns.CNAME h _ | dns.MX h _ _ | dns.NS h _
  | dns.SRV h _ _ _ _ | dns.TXT h _ | dns.PTR h _
  | dns.SOA h _ _ _ _ _ _ _ | dns.Other h _ => h
  end.

(** The types the switch of [ServeDNS] names; every other type falls into
    its [default] case. *)
Definition namedType (qtype : Z) : bool :=
  engineType qtype || (qtype =? dns.TypeCNAME) || (qtype =? dns.TypePTR) ||
  (qtype =? dns.TypeSOA).

(** The types [AppendRR] and [RemoveRR] name. *)
Definition mutableType (rrType : Z) : bool :=
  multiValued rrType || (rrType =? dns.TypeCNAME).

(** The envelope of a reply: what [SetReply] copies from the request. *)
Definition answers (m reply : dns.Msg) : Prop :=
  dns.Id reply = dns.Id m ∧
  dns.Response reply = true ∧
  dns.Opcode reply = dns.Opcode m ∧
  dns.Questions reply = take 1 (dns.Questions m).

(** A record the server builds itself: class INET, the fixed TTL, and the
    given type. *)
Definition synthesized (rrtype : Z) (rr : dns.RR) : Prop :=
  dns.Class (rrHeader rr) = dns.ClassINET ∧
  dns.Ttl (rrHeader rr) = 9999 ∧
  dns.Rrtype (rrHeader rr) = rrtype.

(** The records of a reply are of the server's making, for a query of type
    [qtype]. *)
Definition ownRecords (qtype : Z) (reply : dns.Msg) : Prop :=
  Forall (λ rr, synthesized dns.TypeCNAME rr ∨ synthesized qtype rr)
         (dns.Answer reply) ∧
  Forall (synthesized dns.TypeSOA) (dns.Ns reply).

(** The zone [AppendRR] of a type stores, from the zone it found: the
    record set of the type with one record added, or the [CNAME] field
    assigned. *)
Inductive appended (zone : Zone) : Z → Zone → Prop :=
| appended_A d : appended zone dns.TypeA (setA (A zone ++ [d]) zone)
| appended_AAAA d :
    appended zone dns.TypeAAAA (setAAAA (AAAA zone ++ [d]) zone)
| appended_TXT d : appended zone dns.TypeTXT (setTXT (TXT zone ++ [d]) zone)
| appended_PTR d : appended zone dns.TypePTR (setPTR (PTR zone ++ [d]) zone)
| appended_CNAME d : appended zone dns.TypeCNAME (setCNAME d zone)
| appended_MX mx : appended zone dns.TypeMX (setMX (MX zone ++ [mx]) zone)
| appended_NS ns : appended zone dns.TypeNS (setNS (NS zone ++ [ns]) zone)
| appended_SRV srv :
    appended zone dns.TypeSRV (setSRV (SRV zone ++ [srv]) zone).

Definition backslash : ascii := ascii_of_nat 92.

Definition isDot (a : ascii) : bool := Ascii.eqb a ".".

(** ** Further instances for the closed examples *)

(** The message a handler call wrote. *)
Definition replyOf (o : outcome) : dns.Msg :=
  match o with
  | Written reply => reply
  | Panics _ => dns.newMsg
  end.

Definition cnameQuestion (name : string) : dns.Question :=
  {| dns.Q_Name := name; dns.Qtype := dns.TypeCNAME;
     dns.Qclass := dns.ClassINET |}.

(** A zone that simulates a failure and is an alias as well, and an alias
    of it. *)
Definition boom : error := ErrString "boom".

Definition failingZones : gmap string Zone :=
  <["foo.io." :=
      {| Err := Some boom; A := []; AAAA := []; TXT := []; PTR := [];
         CNAME := "bar.io."; MX := []; NS := []; SRV := []; Misc := ∅ |}]>
    (<["www.io." := setCNAME "foo.io." zeroZone]> ∅).

(** The zone of [TestServer_Authoritative]: an alias whose target is not in
    the store. *)
Definition danglingZones : gmap string Zone :=
  <["www.example.org." := setCNAME "foo.bar.com." zeroZone]> ∅.

(** The zone of the combined address lookup of the spec. *)
Definition dualZone : Zone := setAAAA ["::1"] (setA ["1.2.3.4"] zeroZone).

Definition dualZones : gmap string Zone := <["example.org." := dualZone]> ∅.

(** A message with an opcode other than the standard query (NOTIFY). *)
Definition notifyMsg : dns.Msg :=
  {| dns.Id := 9; dns.Response := false; dns.Opcode := 4;
     dns.Authoritative := false; dns.Truncated := false;
     dns.RecursionDesired := false; dns.RecursionAvailable := false;
     dns.Zero := false; dns.AuthenticatedData := false;
     dns.CheckingDisabled := false; dns.Rcode := 0;
     dns.Questions := [cnameQuestion "foo.io."];
     dns.Answer := []; dns.Ns := []; dns.Extra := [] |}.

(** A standard query without a question. *)
Definition emptyQuery : dns.Msg :=
  {| dns.Id := 3; dns.Response := false; dns.Opcode := dns.OpcodeQuery;
     dns.Authoritative := false; dns.Truncated := false;
     dns.RecursionDesired := true; dns.RecursionAvailable := false;
     dns.Zero := false; dns.AuthenticatedData := false;
     dns.CheckingDisabled := false; dns.Rcode := 0;
     dns.Questions := []; dns.Answer := []; dns.Ns := []; dns.Extra := [] |}.

(** The server of [TestServer_MutateRR], and its MX subtest. *)
Definition emptyServer : Server := NewServer ∅ true.

Definition mxOnce : Server :=
  fst (AppendRR emptyServer "foo.io" dns.TypeMX "19 bar.io.").

Definition mxTwice : Server :=
  fst (AppendRR mxOnce "foo.io" dns.TypeMX "23 zoom.io.").

(** The server of the A/AAAA subtest after its first [AppendRR]. *)
Definition oneRecord : Server :=
  fst (AppendRR emptyServer "foo.io" dns.TypeA "192.168.2.19").

(** The record and the zone of [TestServer_LookupTLSA] (type TLSA is 52),
    the rdata being kept as text. *)
Definition tlsaRecord : dns.RR :=
  dns.Other {| dns.Name := "example.org."; dns.Rrtype := 52;
               dns.Class := dns.ClassINET; dns.Ttl := 9999 |}
            "3 1 1 aaaaaa".

Definition tlsaZones : gmap string Zone :=
  <["example.org." :=
      {| Err := None; A := []; AAAA := []; TXT := []; PTR := [];
         CNAME := EmptyString; MX := []; NS := []; SRV := [];
         Misc := <[52 := [tlsaRecord]]> ∅ |}]> ∅.

(** The reverse zone of the PTR subtest of [TestServer_MutateRR]. *)
Definition ptrServer : Server :=
  fst (AppendRR
         (fst (AppendRR emptyServer "19.2.168.192.in-addr.arpa." dns.TypePTR
                 "bar.io."))
         "19.2.168.192.in-addr.arpa." dns.TypePTR "zoom.io.").

(** A standard query of class CHAOS. *)
Definition chaosQuery : dns.Msg :=
  {| dns.Id := 11; dns.Response := false; dns.Opcode := dns.OpcodeQuery;
     dns.Authoritative := false; dns.Truncated := false;
     dns.RecursionDesired := true; dns.RecursionAvailable := false;
     dns.Zero := false; dns.AuthenticatedData := false;
     dns.CheckingDisabled := false; dns.Rcode := 0;
     dns.Questions :=
       [{| dns.Q_Name := "version.bind."; dns.Qtype := dns.TypeTXT;
           dns.Qclass := 3 |}];
     dns.Answer := []; dns.Ns := []; dns.Extra := [] |}.

Definition question (name : string) (qtype : Z) : dns.Question :=
  {| dns.Q_Name := name; dns.Qtype := qtype; dns.Qclass := dns.ClassINET |}.

(** A failing zone that keeps one A record. *)
Definition failingARecord : Zone :=
  {| Err := Some boom; A := ["192.168.2.19"]; AAAA := []; TXT := [];
     PTR := []; CNAME := EmptyString; MX := []; NS := []; SRV := [];
     Misc := ∅ |}.

Definition failingAServer : Server :=
  NewServer (<["foo.io." := failingARecord]> ∅) false.

(** The server of the MX subtest with an A record added under the same
    name. *)
Definition mixedServer : Server :=
  fst (AppendRR mxTwice "foo.io" dns.TypeA "192.168.2.19").

(** A zone with one A record whose [Misc] keeps the type code of TLSA with
    no record under it. *)
Definition hollowZone : Zone :=
  {| Err := None; A := ["192.168.2.19"]; AAAA := []; TXT := []; PTR := [];
     CNAME := EmptyString; MX := []; NS := []; SRV := [];
     Misc := <[52 := []]> ∅ |}.

Definition hollowServer : Server :=
  NewServer (<["foo.io." := hollowZone]> ∅) true.

(** The server after an [AppendRR] of an empty CNAME target. *)
Definition blankServer : Server :=
  fst (AppendRR emptyServer "foo.io" dns.TypeCNAME EmptyString).

(** A writer whose [WriteMsg] succeeds and one whose [WriteMsg] fails. *)
Definition okWriter : dns.ResponseWriter := {| dns.WriteMsg := λ _, None |}.

Definition brokenWriter : dns.ResponseWriter :=
  {| dns.WriteMsg := λ _, Some (ErrString "broken pipe") |}.

(** ** Properties *)

(** Evaluates the comparisons of closed type, class and rcode numbers. *)
Ltac eval_eqb :=
  repeat match goal with
    | |- context [Z.eqb ?a ?b] =>
        let v := eval vm_compute in (Z.eqb a b) in
        match v with true => idtac | false => idtac end;
        progress change (Z.eqb a b) with v
    end.

Section HandlerProperties.

Variable maxChain : nat.
Variable ParseIP : string → option net.IP.

(** *** The header flags *)

Lemma writeErr_Authoritative reply e :
  dns.Authoritative (writeErr reply e) = dns.Authoritative reply.
Proof.
  unfold writeErr. destruct (asDNSError e) as [d|]; [|reflexivity].
  destruct (net.IsNotFound d); reflexivity.
Qed.

Lemma writeErr_Answer reply e :
  dns.Answer (writeErr reply e) = dns.Answer reply.
Proof.
  unfold writeErr. destruct (asDNSError e) as [d|]; [|reflexivity].
  destruct (net.IsNotFound d); reflexivity.
Qed.

Lemma writeErr_Rcode reply e :
  dns.Rcode (writeErr reply e) =
  if isNotFound e then dns.RcodeNameError else dns.RcodeServerFailure.
Proof.
  unfold writeErr, isNotFound. destruct (asDNSError e) as [d|]; [|reflexivity].
  destruct (net.IsNotFound d); reflexivity.
Qed.

Lemma writeErr_RecursionAvailable reply e :
  dns.RecursionAvailable (writeErr reply e) = isNotFound e.
Proof.
  unfold writeErr, isNotFound. destruct (asDNSError e) as [d|]; [|reflexivity].
  destruct (net.IsNotFound d); reflexivity.
Qed.

Lemma writeErr_notFound reply e d :
  asDNSError e = Some d → net.IsNotFound d = true →
  writeErr reply e =
  dns.setNs [mkSOA (net.Name d)]
    (dns.setRecursionAvailable true
       (dns.setRcodeField dns.RcodeNameError
          (dns.setExtra []
             (dns.setRecursionAvailable false
                (dns.setRcodeField dns.RcodeServerFailure reply))))).
Proof. intros Hd Hnf. unfold writeErr. rewrite Hd, Hnf. reflexivity. Qed.

Lemma writeErr_failure reply e :
  isNotFound e = false →
  writeErr reply e =
  dns.setExtra []
    (dns.setRecursionAvailable false
       (dns.setRcodeField dns.RcodeServerFailure reply)).
Proof.
  unfold writeErr, isNotFound. destruct (asDNSError e) as [d|]; [|reflexivity].
  intros ->. reflexivity.
Qed.

Lemma writeErr_errorRcode reply e :
  errorRcode (dns.Rcode (writeErr reply e)) = true.
Proof. rewrite writeErr_Rcode. destruct (isNotFound e); reflexivity. Qed.

Lemma writeErr_keepsFlags reply0 reply e :
  dns.Authoritative reply = dns.Authoritative reply0 →
  keepsFlags reply0 (Written (writeErr reply e)).
Proof.
  intros Haa. split.
  - rewrite writeErr_Authoritative. exact Haa.
  - left. apply writeErr_errorRcode.
Qed.

Lemma serveLookup_keepsFlags {V : Type} reply (res : lookupResult V) mk :
  keepsFlags reply (serveLookup reply res mk).
Proof.
  unfold serveLookup. destruct (err res) as [e|].
  - apply writeErr_keepsFlags. reflexivity.
  - destruct (appendEach _ _ _); simpl; auto.
Qed.

Lemma serveQuestion_keepsFlags s reply q qname :
  keepsFlags reply (serveQuestion maxChain ParseIP s reply q qname).
Proof.
  unfold serveQuestion.
  repeat match goal with
    | |- context [if ?b then _ else _] => destruct b
    | |- keepsFlags _ (serveLookup _ _ _) => apply serveLookup_keepsFlags
    | |- keepsFlags _ (Written (writeErr _ _)) =>
        apply writeErr_keepsFlags; reflexivity
    | |- context [match ?o with Some _ => _ | None => _ end] => destruct o
    end; simpl; auto.
Qed.

Lemma replyHeader_flags s m :
  dns.Authoritative (replyHeader s m) = Authoritative s ∧
  dns.RecursionAvailable (replyHeader s m) = negb (Authoritative s) ∧
  dns.Rcode (replyHeader s m) = dns.RcodeSuccess ∧
  dns.Answer (replyHeader s m) = [] ∧
  dns.Ns (replyHeader s m) = [] ∧
  dns.Extra (replyHeader s m) = [].
Proof. unfold replyHeader. destruct (Authoritative s); repeat split. Qed.


(** *** The question section *)

(** C10.  A message with the standard query opcode and an empty question
    section makes the handler panic at [m.Question[0]]: nothing is
    written, whatever the server holds. *)
Theorem ServeDNS_empty_question_panics s m :
  dns.Opcode m = dns.OpcodeQuery →
  dns.Questions m = [] →
  ServeDNS maxChain ParseIP s m = Panics "index out of range [0] with length 0".
Proof.
  intros Hop Hq. unfold ServeDNS.
  rewrite Hop, Hq. reflexivity.
Qed.

(** *** Queries of type CNAME *)

(** The CNAME case of the switch. *)
Lemma ServeDNS_CNAME_case s m q qs :
  dns.Opcode m = dns.OpcodeQuery →
  dns.Questions m = q :: qs →
  dns.Qclass q = dns.ClassINET →
  dns.Qtype q = dns.TypeCNAME →
  ∃ reply,
    ServeDNS maxChain ParseIP s m = Written reply ∧
    match Zones (r s) !! normalize (dns.Q_Name q) with
    | None => isNotFoundReply reply (normalize (dns.Q_Name q))
    | Some zone =>
        if String.eqb (CNAME zone) EmptyString
        then isNotFoundReply reply (normalize (dns.Q_Name q))
        else dns.Rcode reply = dns.RcodeSuccess ∧
             dns.Answer reply =
             [mkCname (normalize (dns.Q_Name q)) (CNAME zone)]
    end.
Proof.
  intros Hop Hq Hclass Htype.
  unfold ServeDNS, serveQuestion.
  rewrite Hop, Hq, Hclass, Htype. eval_eqb. cbv iota beta. simpl negb.
  cbv iota. fold (normalize (dns.Q_Name q)).
  destruct (replyHeader_flags s m) as (_ & _ & Hrc & Hans & _ & _).
  assert (Hnf : isNotFoundReply
                  (writeErr (replyHeader s m)
                            (notFound (normalize (dns.Q_Name q))))
                  (normalize (dns.Q_Name q))).
  { erewrite writeErr_notFound by reflexivity.
    repeat split. simpl. exact Hans. }
  destruct (Zones (r s) !! normalize (dns.Q_Name q)) as [zone|].
  - destruct (String.eqb (CNAME zone) EmptyString).
    + eexists; split; [reflexivity | exact Hnf].
    + eexists; split; [reflexivity |].
      simpl. rewrite Hans. split; [exact Hrc | reflexivity].
  - eexists; split; [reflexivity | exact Hnf].
Qed.

(** C1.  A query of type CNAME is answered from the [CNAME] field of the
    zone stored under the queried name itself: one CNAME record holding
    that field, whatever the rest of the store holds (the target is not
    looked up), and NotFound when the zone is absent or the field is
    empty.  For the chain foo.io. -> bar.io. -> example.org. the answer to
    a CNAME query of foo.io is the single record with target bar.io. *)
Theorem ServeDNS_CNAME_query :
  (∀ s m q qs,
      dns.Opcode m = dns.OpcodeQuery →
      dns.Questions m = q :: qs →
      dns.Qclass q = dns.ClassINET →
      dns.Qtype q = dns.TypeCNAME →
      ∃ reply,
        ServeDNS maxChain ParseIP s m = Written reply ∧
        match Zones (r s) !! normalize (dns.Q_Name q) with
        | None => isNotFoundReply reply (normalize (dns.Q_Name q))
        | Some zone =>
            if String.eqb (CNAME zone) EmptyString
            then isNotFoundReply reply (normalize (dns.Q_Name q))
            else dns.Rcode reply = dns.RcodeSuccess ∧
                 dns.Answer reply =
                 [mkCname (normalize (dns.Q_Name q)) (CNAME zone)]
        end) ∧
  (∀ authoritative id,
      ∃ reply,
        ServeDNS maxChain ParseIP (NewServer chainZones authoritative)
                 (query id "foo.io" dns.TypeCNAME) = Written reply ∧
        dns.Rcode reply = dns.RcodeSuccess ∧
        dns.Answer reply = [mkCname "foo.io." "bar.io."]).
Proof.
  split; [exact ServeDNS_CNAME_case |].
  intros authoritative id.
  destruct (ServeDNS_CNAME_case
              (NewServer chainZones authoritative)
              (query id "foo.io" dns.TypeCNAME)
              {| dns.Q_Name := "foo.io"; dns.Qtype := dns.TypeCNAME;
                 dns.Qclass := dns.ClassINET |} []
              eq_refl eq_refl eq_refl eq_refl) as (reply & Hw & Hr).
  exists reply. split; [exact Hw |]. exact Hr.
Qed.

(** *** Every response to a standard query *)

(** C2, as the code has it.  In every response to a message with the
    standard query opcode the aa bit is the [Authoritative] setting of
    the server, also in the NXDOMAIN and SERVFAIL responses; the ra bit is
    its negation in every response whose rcode is neither name-error nor
    server-failure, that is, in every response [writeErr] did not
    produce. *)
Theorem ServeDNS_flags s m reply :
  dns.Opcode m = dns.OpcodeQuery →
  ServeDNS maxChain ParseIP s m = Written reply →
  dns.Authoritative reply = Authoritative s ∧
  (errorRcode (dns.Rcode reply) = false →
   dns.RecursionAvailable reply = negb (Authoritative s)).
Proof.
  intros Hop. unfold ServeDNS. rewrite Hop. eval_eqb. cbv iota beta.
  simpl negb. cbv iota.
  destruct (replyHeader_flags s m) as (Haa & Hra & Hrc & _).
  destruct (dns.Questions m) as [|q qs]; [discriminate |].
  destruct (negb (dns.Qclass q =? dns.ClassINET)).
  - intros [= <-]. simpl. auto.
  - intros Hw.
    pose proof (serveQuestion_keepsFlags s (replyHeader s m) q
                  (strs.ToLower (dns.Fqdn (dns.Q_Name q)))) as Hk.
    rewrite Hw in Hk. destruct Hk as [Hk1 Hk2].
    split; [congruence |].
    intros Hne. destruct Hk2 as [Hk2 | [_ Hk2]]; congruence.
Qed.

(** *** Lookup errors *)

Lemma appendCNAMEs_length answer chain rn :
  length (appendCNAMEs answer chain rn) = (length answer + length chain)%nat.
Proof.
  revert answer rn.
  induction chain as [|c chain IH]; intros answer rn; simpl.
  - lia.
  - rewrite IH, length_app. simpl. lia.
Qed.

Lemma errorReply_notFound s m adbit chain rn e :
  isNotFound e = true →
  ∃ dnsErr,
    asDNSError e = Some dnsErr ∧
    dns.Rcode (errorReply s m adbit chain rn e) = dns.RcodeNameError ∧
    dns.Ns (errorReply s m adbit chain rn e) = [mkSOA (net.Name dnsErr)] ∧
    dns.Answer (errorReply s m adbit chain rn e) = appendCNAMEs [] chain rn.
Proof.
  unfold isNotFound. intros Hnf.
  destruct (asDNSError e) as [d|] eqn:Hd; [|discriminate].
  exists d. unfold errorReply.
  rewrite (writeErr_notFound _ _ _ Hd Hnf). repeat split.
Qed.

Lemma errorReply_failure s m adbit chain rn e :
  isNotFound e = false →
  dns.Rcode (errorReply s m adbit chain rn e) = dns.RcodeServerFailure ∧
  dns.Ns (errorReply s m adbit chain rn e) = [] ∧
  dns.Extra (errorReply s m adbit chain rn e) = [] ∧
  dns.Answer (errorReply s m adbit chain rn e) = appendCNAMEs [] chain rn.
Proof.
  intros Hnf. unfold errorReply. rewrite (writeErr_failure _ _ Hnf).
  destruct (replyHeader_flags s m) as (_ & _ & _ & _ & Hns & _).
  repeat split. simpl. exact Hns.
Qed.

Lemma serveLookup_error {V : Type} s m (res : lookupResult V) mk chain rn e :
  summary res = (chain, rn, Some e) →
  serveLookup (replyHeader s m) res mk =
  Written (errorReply s m (ad res) chain rn e).
Proof.
  unfold summary. intros [= <- <- Herr]. unfold serveLookup, errorReply.
  rewrite Herr.
  destruct (replyHeader_flags s m) as (_ & _ & _ & Hans & _).
  simpl dns.Answer. rewrite Hans. reflexivity.
Qed.

(** Every lookup error reaches [writeErr] with the chain in the answer
    section. *)
Lemma ServeDNS_lookup_error s m q qs chain rn e :
  dns.Opcode m = dns.OpcodeQuery →
  dns.Questions m = q :: qs →
  dns.Qclass q = dns.ClassINET →
  lookupOutcome maxChain s q = (chain, rn, Some e) →
  ∃ adbit,
    ServeDNS maxChain ParseIP s m =
    Written (errorReply s m adbit chain rn e).
Proof.
  intros Hop Hq Hclass. unfold ServeDNS, serveQuestion, lookupOutcome.
  rewrite Hop, Hq, Hclass. eval_eqb. cbv iota beta. simpl negb. cbv iota.
  fold (normalize (dns.Q_Name q)).
  assert (Hdirect : ∀ name,
    Written (writeErr (replyHeader s m) (notFound name)) =
    Written (errorReply s m (dns.AuthenticatedData (replyHeader s m))
               [] name (notFound name))).
  { intros name. unfold errorReply. simpl appendCNAMEs.
    destruct (replyHeader_flags s m) as (_ & _ & _ & Hans & _).
    rewrite <- Hans. destruct (replyHeader s m). reflexivity. }
  repeat match goal with
    | |- context [if Z.eqb ?a ?b then _ else _] => destruct (Z.eqb a b)
    end;
    try (intros Hsum; eexists; apply serveLookup_error; exact Hsum).
  - destruct (Zones (r s) !! normalize (dns.Q_Name q)) as [zone|].
    + destruct (String.eqb (CNAME zone) EmptyString); [|discriminate].
      intros [= <- <- <-]. eexists. apply Hdirect.
    + intros [= <- <- <-]. eexists. apply Hdirect.
  - destruct (Zones (r s) !! dns.Q_Name q); [discriminate |].
    intros [= <- <- <-]. eexists. apply Hdirect.
  - discriminate.
  - destruct (Zones (r s) !! dns.Q_Name q); [discriminate |].
    intros [= <- <- <-]. eexists. apply Hdirect.
Qed.

(** C4.  When the lookup of a query ends in NotFound, the response has
    rcode name-error, its authority section is the synthesized SOA record
    named after the error, and its answer section holds the CNAME records
    of the chain the lookup walked before it failed, one per alias. *)
Theorem ServeDNS_NotFound s m q qs chain rn e :
  dns.Opcode m = dns.OpcodeQuery →
  dns.Questions m = q :: qs →
  dns.Qclass q = dns.ClassINET →
  lookupOutcome maxChain s q = (chain, rn, Some e) →
  isNotFound e = true →
  ∃ reply dnsErr,
    ServeDNS maxChain ParseIP s m = Written reply ∧
    asDNSError e = Some dnsErr ∧
    dns.Rcode reply = dns.RcodeNameError ∧
    dns.Ns reply = [mkSOA (net.Name dnsErr)] ∧
    dns.Answer reply = appendCNAMEs [] chain rn ∧
    length (dns.Answer reply) = length chain.
Proof.
  intros Hop Hq Hclass Hsum Hnf.
  destruct (ServeDNS_lookup_error s m q qs chain rn e Hop Hq Hclass Hsum)
    as [adbit Hw].
  destruct (errorReply_notFound s m adbit chain rn e Hnf)
    as (d & Hd & Hrc & Hns & Hans).
  exists (errorReply s m adbit chain rn e), d.
  repeat split; try assumption.
  rewrite Hans, appendCNAMEs_length. reflexivity.
Qed.

(** *** Zones with a configured error *)

Lemma walk_Err {V : Type} (field : Zone → list V) zones fuel chain current
    zone e :
  zones !! current = Some zone →
  Err zone = Some e →
  walk field zones (S fuel) chain current = failed chain current e.
Proof. intros Hz He. simpl. rewrite Hz, He. reflexivity. Qed.

Lemma lookupOutcome_Err s q zone e :
  engineType (dns.Qtype q) = true →
  Zones (r s) !! engineKey q = Some zone →
  Err zone = Some e →
  lookupOutcome maxChain s q = ([], engineKey q, Some e).
Proof.
  unfold engineType, engineKey, lookupOutcome, summary.
  unfold lookupA, lookupAAAA, lookupMX, lookupNS, lookupSRV, lookupTXT, lookup.
  intros Hty Hz He.
  destruct (Z.eqb_spec (dns.Qtype q) dns.TypeA) as [_|_];
    [rewrite (walk_Err _ _ _ _ _ _ _ Hz He); reflexivity |].
  destruct (Z.eqb_spec (dns.Qtype q) dns.TypeAAAA) as [_|_];
    [rewrite (walk_Err _ _ _ _ _ _ _ Hz He); reflexivity |].
  destruct (Z.eqb_spec (dns.Qtype q) dns.TypeMX) as [_|_];
    [rewrite (walk_Err _ _ _ _ _ _ _ Hz He); reflexivity |].
  destruct (Z.eqb_spec (dns.Qtype q) dns.TypeNS) as [_|_];
    [rewrite (walk_Err _ _ _ _ _ _ _ Hz He); reflexivity |].
  destruct (Z.eqb_spec (dns.Qtype q) dns.TypeSRV) as [_|_];
    [rewrite (walk_Err _ _ _ _ _ _ _ Hz He); reflexivity |].
  destruct (Z.eqb_spec (dns.Qtype q) dns.TypeTXT) as [Htxt|_];
    [| discriminate].
  rewrite Htxt. eval_eqb. cbv iota.
  rewrite (walk_Err _ _ _ _ _ _ _ Hz He). reflexivity.
Qed.

(** C5: the code does not bear the claim out.  The cases CNAME, PTR and
    [default] of the switch take the zone from the store and answer from
    its fields without reading [Err].  For a zone with [Err] set, a CNAME
    query is answered with rcode success and the CNAME record of the zone,
    a PTR query with rcode success and its PTR records, and a query of a
    type the switch does not name with rcode success and the records
    [Misc] keeps for the type: none of them is answered with
    server-failure and an empty answer section. *)
Theorem ServeDNS_ignores_Err s m q qs zone e :
  dns.Opcode m = dns.OpcodeQuery →
  dns.Questions m = q :: qs →
  dns.Qclass q = dns.ClassINET →
  Err zone = Some e →
  (dns.Qtype q = dns.TypeCNAME →
   Zones (r s) !! normalize (dns.Q_Name q) = Some zone →
   CNAME zone ≠ EmptyString →
   ∃ reply,
     ServeDNS maxChain ParseIP s m = Written reply ∧
     dns.Rcode reply = dns.RcodeSuccess ∧
     dns.Answer reply = [mkCname (normalize (dns.Q_Name q)) (CNAME zone)]) ∧
  (dns.Qtype q = dns.TypePTR →
   Zones (r s) !! dns.Q_Name q = Some zone →
   ∃ reply,
     ServeDNS maxChain ParseIP s m = Written reply ∧
     dns.Rcode reply = dns.RcodeSuccess ∧
     dns.Answer reply = map (mkPTR (dns.Q_Name q)) (PTR zone)) ∧
  (namedType (dns.Qtype q) = false →
   Zones (r s) !! dns.Q_Name q = Some zone →
   ∃ reply,
     ServeDNS maxChain ParseIP s m = Written reply ∧
     dns.Rcode reply = dns.RcodeSuccess ∧
     dns.Answer reply = default [] (Misc zone !! dns.Qtype q)).
Proof.
  intros Hop Hq Hclass _.
  destruct (replyHeader_flags s m) as (_ & _ & Hrc & Hans & _ & _).
  split; [| split].
  - intros Hty Hz Hcname.
    destruct (ServeDNS_CNAME_case s m q qs Hop Hq Hclass Hty)
      as (reply & Hw & Hr).
    rewrite Hz in Hr.
    destruct (String.eqb_spec (CNAME zone) EmptyString); [contradiction |].
    exists reply. split; [exact Hw | exact Hr].
  - intros Hty Hz. unfold ServeDNS, serveQuestion.
    rewrite Hop, Hq, Hclass, Hty. eval_eqb. cbv iota beta. simpl negb.
    cbv iota. rewrite Hz.
    eexists. split; [reflexivity |]. simpl. rewrite Hans. auto.
  - intros Hty Hz. unfold ServeDNS, serveQuestion.
    rewrite Hop, Hq, Hclass. eval_eqb. cbv iota beta. simpl negb. cbv iota.
    unfold namedType, engineType in Hty.
    repeat (apply orb_false_elim in Hty as [Hty ?]).
    repeat match goal with
      | H : (dns.Qtype q =? _) = false |- _ => rewrite H; clear H
      end.
    rewrite Hz.
    eexists. split; [reflexivity |]. simpl. rewrite Hans. auto.
Qed.

(** *** The address lookup for both families *)

Lemma walk_direct {V : Type} (field : Zone → list V) zones fuel chain
    current zone :
  zones !! current = Some zone →
  Err zone = None →
  field zone ≠ [] →
  walk field zones (S fuel) chain current =
  {| ad := false; cnames := chain; rname := current;
     values := field zone; err := None |}.
Proof.
  intros Hz He Hne. simpl. rewrite Hz, He.
  destruct (field zone) as [|v vs]; [congruence |].
  simpl. rewrite andb_false_r. reflexivity.
Qed.

Lemma family_direct (field : Zone → list string) rs host zone :
  Zones rs !! normalize host = Some zone →
  Err zone = None →
  field zone ≠ [] →
  family (lookup maxChain field rs host) = field zone.
Proof.
  intros Hz He Hne. unfold lookup.
  rewrite (walk_direct _ _ _ _ _ _ Hz He Hne). reflexivity.
Qed.

Lemma isEmpty_app_false_l {V : Type} (l1 l2 : list V) :
  l1 ≠ [] → isEmpty (l1 ++ l2) = false.
Proof. destruct l1; [congruence | reflexivity]. Qed.

Lemma isEmpty_app_false_r {V : Type} (l1 l2 : list V) :
  l2 ≠ [] → isEmpty (l1 ++ l2) = false.
Proof. destruct l1, l2; try congruence; reflexivity. Qed.

(** C3.  For a zone stored under the looked-up name, with no configured
    error: the lookup of both address families succeeds as soon as one of
    [A] and [AAAA] is non-empty, it returns the [A] records followed by the
    [AAAA] records when both are non-empty, and it fails with NotFound
    only when both record sets of the zone are empty. *)
Theorem lookupHost_merges rs host zone :
  Zones rs !! normalize host = Some zone →
  Err zone = None →
  (A zone ≠ [] ∨ AAAA zone ≠ [] →
   ∃ addrs, lookupHost maxChain rs host = (addrs, None) ∧ addrs ≠ []) ∧
  (A zone ≠ [] → AAAA zone ≠ [] →
   lookupHost maxChain rs host = (A zone ++ AAAA zone, None)) ∧
  (∀ addrs e,
      lookupHost maxChain rs host = (addrs, Some e) →
      isNotFound e = true →
      A zone = [] ∧ AAAA zone = []).
Proof.
  intros Hz He.
  assert (Hsucc : A zone ≠ [] ∨ AAAA zone ≠ [] →
    isEmpty (family (lookupA maxChain rs host) ++
             family (lookupAAAA maxChain rs host)) = false).
  { intros [Ha | Ha].
    - apply isEmpty_app_false_l. unfold lookupA.
      rewrite (family_direct A rs host zone Hz He Ha). exact Ha.
    - apply isEmpty_app_false_r. unfold lookupAAAA.
      rewrite (family_direct AAAA rs host zone Hz He Ha). exact Ha. }
  repeat split.
  - intros Hor. unfold lookupHost. rewrite (Hsucc Hor).
    eexists; split; [reflexivity |].
    intros Hnil. specialize (Hsucc Hor). rewrite Hnil in Hsucc. discriminate.
  - intros Ha H6. unfold lookupHost. rewrite (Hsucc (or_introl Ha)).
    unfold lookupA, lookupAAAA.
    rewrite (family_direct A rs host zone Hz He Ha).
    rewrite (family_direct AAAA rs host zone Hz He H6). reflexivity.
  - destruct (A zone) as [|a l] eqn:Ha; [reflexivity |].
    exfalso. unfold lookupHost in H.
    rewrite Hsucc in H by (left; congruence). discriminate.
  - destruct (AAAA zone) as [|a l] eqn:Ha; [reflexivity |].
    exfalso. unfold lookupHost in H.
    rewrite Hsucc in H by (right; congruence). discriminate.
Qed.

End HandlerProperties.

(** ** The mutators *)

Lemma SplitN_2 s sep :
  strs.SplitN s sep 2 =
  match strs.cut sep s with
  | None => [s]
  | Some (a, b) => [a; b]
  end.
Proof. simpl. destruct (strs.cut sep s) as [[a b]|]; reflexivity. Qed.

Lemma SplitN_4 s sep :
  strs.SplitN s sep 4 =
  match strs.cut sep s with
  | None => [s]
  | Some (a0, r0) =>
      match strs.cut sep r0 with
      | None => [a0; r0]
      | Some (a1, r1) =>
          match strs.cut sep r1 with
          | None => [a0; a1; r1]
          | Some (a2, r2) => [a0; a1; a2; r2]
          end
      end
  end.
Proof.
  simpl. destruct (strs.cut sep s) as [[a0 r0]|]; [|reflexivity].
  destruct (strs.cut sep r0) as [[a1 r1]|]; [|reflexivity].
  destruct (strs.cut sep r1) as [[a2 r2]|]; reflexivity.
Qed.

(** [cut] splits at the first occurrence of the separator. *)
Lemma cut_intro sep a b :
  hasByte sep a = false →
  strs.cut sep (a +:+ String sep b) = Some (a, b).
Proof.
  induction a as [|c a IH]; simpl.
  - intros _. rewrite Ascii.eqb_refl. reflexivity.
  - intros Hno. apply orb_false_elim in Hno as [Hc Hno].
    rewrite Hc, (IH Hno). reflexivity.
Qed.

Lemma cut_elim sep s a b :
  strs.cut sep s = Some (a, b) →
  s = a +:+ String sep b ∧ hasByte sep a = false.
Proof.
  revert a. induction s as [|c s IH]; intros a; simpl; [discriminate |].
  destruct (Ascii.eqb_spec c sep) as [-> | Hne].
  - intros [= <- <-]. split; reflexivity.
  - destruct (strs.cut sep s) as [[a' b']|]; [|discriminate].
    intros [= <- <-]. destruct (IH a' eq_refl) as [-> Hno].
    split; [reflexivity |]. simpl.
    destruct (Ascii.eqb_spec c sep); [contradiction | exact Hno].
Qed.

Lemma zoneAt_insert s name zone :
  zoneAt (setZones (<[name := zone]> (Zones (r s))) s) name = zone.
Proof. unfold zoneAt. simpl. rewrite lookup_insert_eq. reflexivity. Qed.

Lemma Zones_insert s name zone :
  Zones (r (setZones (<[name := zone]> (Zones (r s))) s)) !! name = Some zone.
Proof. simpl. apply lookup_insert_eq. Qed.

(** Closes the case of [AppendRR_appends] in which the value is stored. *)
Ltac stored :=
  intros _ [= <-]; eexists; split; [reflexivity |];
  rewrite zoneAt_insert, Zones_insert;
  split; [reflexivity |]; split; [| reflexivity];
  simpl; rewrite ?map_app; reflexivity.

(** One successful [AppendRR] of a multi-valued type adds the record the
    value denotes at the end of the record set of the type. *)
Lemma AppendRR_appends s name rrType rrData s1 :
  multiValued rrType = true →
  AppendRR s name rrType rrData = (s1, None) →
  ∃ v,
    parseRData rrType rrData = Some v ∧
    Zones (r s1) !! dotName name = Some (zoneAt s1 (dotName name)) ∧
    recordsOf rrType (zoneAt s1 (dotName name)) =
    recordsOf rrType (zoneAt s (dotName name)) ++ [v] ∧
    Err (zoneAt s1 (dotName name)) = Err (zoneAt s (dotName name)).
Proof.
  unfold multiValued, AppendRR, parseRData, recordsOf, store, reject.
  fold (zoneAt s (dotName name)).
  destruct (Z.eqb_spec rrType dns.TypeA) as [-> | _];
    [eval_eqb; cbv iota; simpl orb; cbv iota; stored |].
  destruct (Z.eqb_spec rrType dns.TypeAAAA) as [-> | _];
    [eval_eqb; cbv iota; simpl orb; cbv iota; stored |].
  destruct (Z.eqb_spec rrType dns.TypeTXT) as [-> | _];
    [eval_eqb; cbv iota; simpl orb; cbv iota; stored |].
  destruct (Z.eqb_spec rrType dns.TypePTR) as [-> | _];
    [eval_eqb; cbv iota; simpl orb; cbv iota; stored |].
  simpl orb. cbv iota.
  destruct (Z.eqb_spec rrType dns.TypeCNAME) as [-> | _]; [discriminate |].
  destruct (Z.eqb_spec rrType dns.TypeMX) as [-> | _].
  { eval_eqb. cbv iota. rewrite SplitN_2.
    destruct (strs.cut " " rrData) as [[p0 p1]|]; [| discriminate].
    destruct (strs.Atoi p0) as [pref|]; [| discriminate]. stored. }
  destruct (Z.eqb_spec rrType dns.TypeNS) as [-> | _].
  { eval_eqb. cbv iota. stored. }
  destruct (Z.eqb_spec rrType dns.TypeSRV) as [-> | _]; [| discriminate].
  rewrite SplitN_4.
  destruct (strs.cut " " rrData) as [[p0 r0]|]; [| discriminate].
  destruct (strs.cut " " r0) as [[p1 r1]|]; [| discriminate].
  destruct (strs.cut " " r1) as [[p2 p3]|]; [| discriminate].
  destruct (strs.Atoi p0) as [priority|]; [| discriminate].
  destruct (strs.Atoi p1) as [weight|]; [| discriminate].
  destruct (strs.Atoi p2) as [port|]; [| discriminate].
  stored.
Qed.


(** C7, as the code has it.  [AppendRR] of type MX stores the value when it
    is a decimal integer (in the sense of [strconv.Atoi]), a space and a
    host, and returns an error for every other value; of type SRV, when it
    is three such integers and a target separated by single spaces, and an
    error otherwise.  A number that parses is never rejected for its size:
    what is stored is the number reduced modulo 65536. *)
Theorem AppendRR_format s name rrData :
  (∀ pref host n,
      rrData = pref +:+ " " +:+ host →
      hasByte " " pref = false →
      strs.Atoi pref = Some n →
      AppendRR s name dns.TypeMX rrData =
      store s (dotName name)
        (setMX (MX (zoneAt s (dotName name)) ++
                [{| net.Host := host; net.Pref := n mod 65536 |}])
           (zoneAt s (dotName name)))) ∧
  ((∀ pref host,
       rrData = pref +:+ " " +:+ host →
       hasByte " " pref = false →
       strs.Atoi pref = None) →
   ∃ msg, AppendRR s name dns.TypeMX rrData = (s, Some (ErrString msg))) ∧
  (∀ p0 p1 p2 target n0 n1 n2,
      rrData = p0 +:+ " " +:+ p1 +:+ " " +:+ p2 +:+ " " +:+ target →
      hasByte " " p0 = false →
      hasByte " " p1 = false →
      hasByte " " p2 = false →
      strs.Atoi p0 = Some n0 →
      strs.Atoi p1 = Some n1 →
      strs.Atoi p2 = Some n2 →
      AppendRR s name dns.TypeSRV rrData =
      store s (dotName name)
        (setSRV (SRV (zoneAt s (dotName name)) ++
                 [{| net.Target := target; net.Port := n2 mod 65536;
                     net.Priority := n0 mod 65536;
                     net.Weight := n1 mod 65536 |}])
           (zoneAt s (dotName name)))) ∧
  ((∀ p0 p1 p2 target,
       rrData = p0 +:+ " " +:+ p1 +:+ " " +:+ p2 +:+ " " +:+ target →
       hasByte " " p0 = false →
       hasByte " " p1 = false →
       hasByte " " p2 = false →
       strs.Atoi p0 = None ∨ strs.Atoi p1 = None ∨ strs.Atoi p2 = None) →
   ∃ msg, AppendRR s name dns.TypeSRV rrData = (s, Some (ErrString msg))).
Proof.
  unfold AppendRR, reject. fold (zoneAt s (dotName name)). eval_eqb.
  cbv iota. rewrite SplitN_2, SplitN_4. repeat split.
  - intros pref host n -> Hno Hn.
    change (pref +:+ " " +:+ host) with (pref +:+ String " " host).
    rewrite (cut_intro _ _ _ Hno), Hn. reflexivity.
  - intros Hbad.
    destruct (strs.cut " " rrData) as [[p0 p1]|] eqn:Hcut; [| eauto].
    destruct (cut_elim _ _ _ _ Hcut) as [Heq Hno].
    rewrite (Hbad p0 p1 Heq Hno). eauto.
  - intros p0 p1 p2 target n0 n1 n2 -> H0 H1 H2 Hn0 Hn1 Hn2.
    change (p0 +:+ " " +:+ p1 +:+ " " +:+ p2 +:+ " " +:+ target)
      with (p0 +:+ String " " (p1 +:+ String " " (p2 +:+ String " " target))).
    rewrite (cut_intro _ _ _ H0), (cut_intro _ _ _ H1), (cut_intro _ _ _ H2).
    rewrite Hn0, Hn1, Hn2. reflexivity.
  - intros Hbad.
    destruct (strs.cut " " rrData) as [[p0 r0]|] eqn:Hc0; [| eauto].
    destruct (strs.cut " " r0) as [[p1 r1]|] eqn:Hc1; [| eauto].
    destruct (strs.cut " " r1) as [[p2 p3]|] eqn:Hc2; [| eauto].
    destruct (cut_elim _ _ _ _ Hc0) as [E0 H0].
    destruct (cut_elim _ _ _ _ Hc1) as [E1 H1].
    destruct (cut_elim _ _ _ _ Hc2) as [E2 H2].
    assert (Hform : rrData =
                    p0 +:+ " " +:+ p1 +:+ " " +:+ p2 +:+ " " +:+ p3).
    { rewrite E0, E1, E2. reflexivity. }
    destruct (Hbad p0 p1 p2 p3 Hform H0 H1 H2) as [Hn | [Hn | Hn]].
    + rewrite Hn. eauto.
    + rewrite Hn. destruct (strs.Atoi p0); eauto.
    + rewrite Hn. destruct (strs.Atoi p0); [| eauto].
      destruct (strs.Atoi p1); eauto.
Qed.

Lemma walk_absent {V : Type} (field : Zone → list V) zones fuel chain
    current :
  zones !! current = None →
  walk field zones (S fuel) chain current =
  failed chain current (notFound current).
Proof. intros Hz. simpl. rewrite Hz. reflexivity. Qed.

Lemma length_eqb_0 {V : Type} (l : list V) :
  (length l =? 0)%nat = true ↔ l = [].
Proof. destruct l; simpl; split; congruence. Qed.

(** [isZoneEmpty] holds of the zones with every field empty, and of no
    other. *)
Lemma isZoneEmpty_noRecords zone :
  isZoneEmpty zone = true ↔ noRecords zone.
Proof.
  unfold isZoneEmpty, noRecords.
  rewrite !andb_true_iff, !length_eqb_0, String.eqb_eq, Nat.eqb_eq.
  rewrite (map_size_empty_iff (Misc zone)). tauto.
Qed.

Lemma length_append_dot (name : string) :
  String.length (name +:+ ".") = S (String.length name).
Proof. induction name as [|c name IH]; simpl; [| rewrite IH]; reflexivity. Qed.

Lemma substring_last_dot (name : string) :
  substring (String.length name) 1 (name +:+ ".") = ".".
Proof. induction name as [|c name IH]; simpl; [reflexivity | exact IH]. Qed.

Lemma HasSuffix_dotName name : strs.HasSuffix (dotName name) "." = true.
Proof.
  unfold dotName. destruct (strs.HasSuffix name ".") eqn:Hs; [exact Hs |].
  unfold strs.HasSuffix. rewrite length_append_dot. simpl String.length.
  replace (S (String.length name) - 1)%nat with (String.length name) by lia.
  rewrite substring_last_dot. reflexivity.
Qed.



Lemma RemoveRR_other_keys s name rrType k :
  k ≠ dotName name →
  Zones (r (RemoveRR s name rrType)) !! k = Zones (r s) !! k.
Proof.
  intros Hk. unfold RemoveRR.
  destruct (isZoneEmpty _); cbn [Zones r setZones].
  - apply lookup_delete_ne. congruence.
  - apply lookup_insert_ne. congruence.
Qed.


(** ** Closed instances *)

Lemma ServeDNS_empty_question_panics_witness :
  ServeDNS exampleChain ParseIPv4 (NewServer chainZones true) emptyQuery =
  Panics "index out of range [0] with length 0".
Proof.
  apply (ServeDNS_empty_question_panics exampleChain ParseIPv4
           (NewServer chainZones true) emptyQuery); reflexivity.
Defined.

Lemma ServeDNS_CNAME_query_witness :
  ∃ reply,
    ServeDNS exampleChain ParseIPv4 (NewServer chainZones false)
             (query 7 "Bar.IO" dns.TypeCNAME) = Written reply ∧
    dns.Rcode reply = dns.RcodeSuccess ∧
    dns.Answer reply = [mkCname "bar.io." "example.org."].
Proof.
  destruct (proj1 (ServeDNS_CNAME_query exampleChain ParseIPv4)
              (NewServer chainZones false)
              (query 7 "Bar.IO" dns.TypeCNAME)
              (cnameQuestion "Bar.IO") []
              eq_refl eq_refl eq_refl eq_refl) as (reply & Hw & Hr).
  exists reply. split; [exact Hw | exact Hr].
Defined.

(** C2 fails on the code: an authoritative server answers a query for a
    missing name with the ra bit set; a recursive server answers a query
    for a failing zone with the ra bit cleared; and the response to a
    message with another opcode carries no aa bit, authoritative or not. *)
Lemma ServeDNS_flags_counterexample :
  (Authoritative (NewServer ∅ true) = true ∧
   dns.Rcode
     (replyOf (ServeDNS exampleChain ParseIPv4 (NewServer ∅ true)
                 (query 1 "nope.io" dns.TypeCNAME))) = dns.RcodeNameError ∧
   dns.RecursionAvailable
     (replyOf (ServeDNS exampleChain ParseIPv4 (NewServer ∅ true)
                 (query 1 "nope.io" dns.TypeCNAME))) = true) ∧
  (Authoritative (NewServer failingZones false) = false ∧
   dns.Rcode
     (replyOf (ServeDNS exampleChain ParseIPv4 (NewServer failingZones false)
                 (query 2 "foo.io" dns.TypeTXT))) = dns.RcodeServerFailure ∧
   dns.RecursionAvailable
     (replyOf (ServeDNS exampleChain ParseIPv4 (NewServer failingZones false)
                 (query 2 "foo.io" dns.TypeTXT))) = false) ∧
  (Authoritative (NewServer chainZones true) = true ∧
   dns.Rcode
     (replyOf (ServeDNS exampleChain ParseIPv4 (NewServer chainZones true)
                 notifyMsg)) = dns.RcodeRefused ∧
   dns.Authoritative
     (replyOf (ServeDNS exampleChain ParseIPv4 (NewServer chainZones true)
                 notifyMsg)) = false).
Proof. repeat split. Qed.

Lemma ServeDNS_flags_witness :
  dns.Authoritative
    (replyOf (ServeDNS exampleChain ParseIPv4 (NewServer chainZones true)
                (query 1 "foo.io" dns.TypeTXT))) = true ∧
  (errorRcode
     (dns.Rcode
        (replyOf (ServeDNS exampleChain ParseIPv4 (NewServer chainZones true)
                    (query 1 "foo.io" dns.TypeTXT)))) = false →
   dns.RecursionAvailable
     (replyOf (ServeDNS exampleChain ParseIPv4 (NewServer chainZones true)
                 (query 1 "foo.io" dns.TypeTXT))) = false).
Proof.
  apply (ServeDNS_flags exampleChain ParseIPv4 (NewServer chainZones true)
           (query 1 "foo.io" dns.TypeTXT)); reflexivity.
Defined.

Lemma lookupHost_merges_witness :
  lookupHost exampleChain {| Zones := dualZones |} "example.org" =
  (["1.2.3.4"; "::1"], None).
Proof.
  destruct (lookupHost_merges exampleChain {| Zones := dualZones |}
              "example.org" dualZone eq_refl eq_refl) as (_ & Hboth & _).
  apply Hboth; discriminate.
Defined.

Lemma ServeDNS_NotFound_witness :
  ∃ reply dnsErr,
    ServeDNS exampleChain ParseIPv4 (NewServer danglingZones true)
             (query 5 "www.example.org." dns.TypeNS) = Written reply ∧
    asDNSError (notFound "foo.bar.com.") = Some dnsErr ∧
    dns.Rcode reply = dns.RcodeNameError ∧
    dns.Ns reply = [mkSOA (net.Name dnsErr)] ∧
    dns.Answer reply = appendCNAMEs [] ["foo.bar.com."] "foo.bar.com." ∧
    length (dns.Answer reply) = length ["foo.bar.com."].
Proof.
  apply (ServeDNS_NotFound exampleChain ParseIPv4
           (NewServer danglingZones true)
           (query 5 "www.example.org." dns.TypeNS)
           {| dns.Q_Name := "www.example.org."; dns.Qtype := dns.TypeNS;
              dns.Qclass := dns.ClassINET |} []
           ["foo.bar.com."] "foo.bar.com." (notFound "foo.bar.com."));
    reflexivity.
Defined.

Lemma ServeDNS_ignores_Err_witness :
  Err <$> (failingZones !! "foo.io.") = Some (Some boom) ∧
  ∃ reply,
    ServeDNS exampleChain ParseIPv4 (NewServer failingZones false)
             (query 1 "foo.io" dns.TypeCNAME) = Written reply ∧
    dns.Rcode reply = dns.RcodeSuccess ∧
    dns.Answer reply = [mkCname "foo.io." "bar.io."].
Proof.
  split; [reflexivity |].
  apply (proj1 (ServeDNS_ignores_Err exampleChain ParseIPv4
                  (NewServer failingZones false)
                  (query 1 "foo.io" dns.TypeCNAME)
                  (cnameQuestion "foo.io") []
                  {| Err := Some boom; A := []; AAAA := []; TXT := [];
                     PTR := []; CNAME := "bar.io."; MX := []; NS := [];
                     SRV := []; Misc := ∅ |} boom
                  eq_refl eq_refl eq_refl eq_refl));
    [reflexivity | reflexivity | discriminate].
Defined.


(** C7 fails on the code: a preference of 65536 is stored as 0 and a
    preference of -1 as 65535, and the SRV numbers are reduced in the same
    way; no error is returned. *)
Lemma AppendRR_format_counterexample :
  (snd (AppendRR emptyServer "example.org" dns.TypeMX
          "65536 mail.example.org.") = None ∧
   MX (zoneAt (fst (AppendRR emptyServer "example.org" dns.TypeMX
                      "65536 mail.example.org.")) "example.org.") =
   [{| net.Host := "mail.example.org."; net.Pref := 0 |}]) ∧
  (snd (AppendRR emptyServer "example.org" dns.TypeMX
          "-1 mail.example.org.") = None ∧
   MX (zoneAt (fst (AppendRR emptyServer "example.org" dns.TypeMX
                      "-1 mail.example.org.")) "example.org.") =
   [{| net.Host := "mail.example.org."; net.Pref := 65535 |}]) ∧
  (snd (AppendRR emptyServer "_http._tcp.foo.io." dns.TypeSRV
          "65536 -1 70000 bar.io.") = None ∧
   SRV (zoneAt (fst (AppendRR emptyServer "_http._tcp.foo.io." dns.TypeSRV
                       "65536 -1 70000 bar.io.")) "_http._tcp.foo.io.") =
   [{| net.Target := "bar.io."; net.Port := 4464; net.Priority := 0;
       net.Weight := 65535 |}]).
Proof. repeat split. Qed.

Lemma AppendRR_format_witness :
  AppendRR emptyServer "example.org" dns.TypeMX "10 mail.example.org." =
  store emptyServer "example.org."
    (setMX [{| net.Host := "mail.example.org."; net.Pref := 10 |}] zeroZone) ∧
  (∃ msg, AppendRR emptyServer "example.org" dns.TypeMX "ten mail." =
          (emptyServer, Some (ErrString msg))).
Proof.
  destruct (AppendRR_format emptyServer "example.org" "10 mail.example.org.")
    as (Hok & _).
  destruct (AppendRR_format emptyServer "example.org" "ten mail.")
    as (_ & Hbad & _).
  split.
  - exact (Hok "10" "mail.example.org." 10 eq_refl eq_refl eq_refl).
  - apply Hbad. intros pref host Heq Hno.
    assert (Hcut : strs.cut " " "ten mail." = Some (pref, host)).
    { rewrite Heq. apply cut_intro. exact Hno. }
    injection Hcut as <- <-. reflexivity.
Defined.



(** ** Further properties: the helpers of the handler *)

Lemma substring_split (s : string) (a b : nat) :
  substring 0 a s +:+ substring a b s = substring 0 (a + b) s.
Proof.
  revert a b. induction s as [|c s IH]; intros [|a] b.
  - destruct b; reflexivity.
  - reflexivity.
  - destruct b; reflexivity.
  - change (String c (substring 0 a s +:+ substring a b s) =
            String c (substring 0 (a + b) s)).
    rewrite IH. reflexivity.
Qed.

Lemma substring_whole (s : string) : substring 0 (String.length s) s = s.
Proof. induction s as [|c s IH]; simpl; [| rewrite IH]; reflexivity. Qed.

Lemma substring_length (s : string) (n m : nat) :
  String.length (substring n m s) = Nat.min m (String.length s - n).
Proof.
  revert n m. induction s as [|c s IH]; intros [|n] [|m]; simpl;
    try reflexivity; rewrite IH; try reflexivity.
  rewrite Nat.sub_0_r. reflexivity.
Qed.

Lemma append_empty_r (x : string) : x +:+ EmptyString = x.
Proof.
  induction x as [|c x IH]; [reflexivity |].
  change (String c (x +:+ EmptyString) = String c x).
  rewrite IH. reflexivity.
Qed.

Lemma append_assoc (x y z : string) : (x +:+ y) +:+ z = x +:+ (y +:+ z).
Proof.
  induction x as [|c x IH]; [reflexivity |].
  change (String c ((x +:+ y) +:+ z) = String c (x +:+ (y +:+ z))).
  rewrite IH. reflexivity.
Qed.

Lemma concatAll_app (l1 l2 : list string) :
  concatAll (l1 ++ l2) = concatAll l1 +:+ concatAll l2.
Proof.
  induction l1 as [|x l1 IH]; [reflexivity |].
  change (x +:+ concatAll (l1 ++ l2) =
          (x +:+ concatAll l1) +:+ concatAll l2).
  rewrite IH, append_assoc. reflexivity.
Qed.

Lemma splitTXT_pieces s :
  splitTXT s = map (piece s) (seq 0 (String.length s / 255 + 1)).
Proof. reflexivity. Qed.

Lemma concat_pieces s n :
  (n * 255 ≤ String.length s)%nat →
  concatAll (map (piece s) (seq 0 (S n))) =
  substring 0 (Nat.min (String.length s) (S n * 255)) s.
Proof.
  induction n as [|n IH]; intros Hn.
  - unfold concatAll, piece. cbn [seq map fold_right].
    rewrite append_empty_r. simpl Nat.mul. rewrite Nat.sub_0_r.
    reflexivity.
  - rewrite seq_S, map_app, concatAll_app, IH by lia.
    unfold concatAll at 1. cbn [map fold_right].
    rewrite append_empty_r. unfold piece. simpl Nat.add.
    replace (Nat.min (String.length s) (S n * 255)) with (S n * 255)%nat
      by lia.
    rewrite substring_split. f_equal. lia.
Qed.

Lemma concat_all_pieces s :
  concatAll (map (piece s) (seq 0 (String.length s / 255 + 1))) = s.
Proof.
  pose proof (Nat.Div0.div_mod (String.length s) 255) as Hdm.
  assert (Hlt : (String.length s mod 255 < 255)%nat)
    by (apply Nat.mod_upper_bound; discriminate).
  replace (String.length s / 255 + 1)%nat with (S (String.length s / 255))
    by lia.
  remember (String.length s / 255)%nat as q eqn:Hq.
  remember (String.length s mod 255)%nat as rest eqn:Hrest.
  clear Hq Hrest.
  rewrite concat_pieces by lia.
  replace (Nat.min (String.length s) (S q * 255))
    with (String.length s) by lia.
  apply substring_whole.
Qed.

(** X1.  Every TXT value is the concatenation of the pieces [splitTXT] cuts it
    into. *)
Theorem splitTXT_concat s : concatAll (splitTXT s) = s.
Proof.
  rewrite splitTXT_pieces.
  apply concat_all_pieces.
Qed.

Lemma map_seq_const (g : nat → nat) (v n : nat) :
  (∀ i, (i < n)%nat → g i = v) → map g (seq 0 n) = repeat v n.
Proof.
  induction n as [|n IH]; intros Hg; [reflexivity |].
  rewrite seq_S, map_app, IH by (intros i Hi; apply Hg; lia).
  simpl. rewrite (Hg n) by lia. rewrite repeat_cons. reflexivity.
Qed.

(** X2.  [splitTXT] cuts a value of [n] bytes into [n / 255] pieces of 255
    bytes followed by one piece of [n mod 255] bytes: no piece is longer than
    a character string of the wire format allows, and the last piece is empty
    when [n] is a multiple of 255, in particular for the empty value. *)
Theorem splitTXT_lengths s :
  map String.length (splitTXT s) =
  repeat 255%nat (String.length s / 255) ++ [(String.length s mod 255)%nat].
Proof.
  rewrite splitTXT_pieces.
  pose proof (Nat.Div0.div_mod (String.length s) 255) as Hdm.
  assert (Hlt : (String.length s mod 255 < 255)%nat)
    by (apply Nat.mod_upper_bound; discriminate).
  replace (String.length s / 255 + 1)%nat with (S (String.length s / 255))
    by lia.
  remember (String.length s / 255)%nat as q eqn:Hq.
  remember (String.length s mod 255)%nat as rest eqn:Hrest.
  clear Hq Hrest.
  rewrite seq_S, !map_app, map_map. f_equal.
  - apply map_seq_const. intros i Hi. unfold piece.
    rewrite substring_length. lia.
  - simpl. unfold piece. rewrite substring_length. f_equal. lia.
Qed.

(** X3.  [appendCNAMEs] keeps the records it is given and adds one CNAME
    record per name of the chain, in order: the first is owned by [rname] and
    each later one by the target of the record before it. *)
Theorem appendCNAMEs_chain answer cnames rname :
  appendCNAMEs answer cnames rname =
  answer ++ zip_with mkCname (rname :: cnames) cnames.
Proof.
  revert answer rname.
  induction cnames as [|c cnames IH]; intros answer rname.
  - simpl. rewrite app_nil_r. reflexivity.
  - simpl appendCNAMEs. rewrite IH, <- app_assoc. reflexivity.
Qed.

(** ** Further properties: the handler *)

Section MoreHandlerProperties.

Variable maxChain : nat.
Variable ParseIP : string → option net.IP.

Lemma setAuthenticatedData_id reply :
  dns.setAuthenticatedData (dns.AuthenticatedData reply) reply = reply.
Proof. destruct reply. reflexivity. Qed.

(** What the switch does to the reply it starts from: it sets the ad bit
    and the answer section, and on a lookup error hands the result to
    [writeErr]. *)
Lemma serveQuestion_shape s reply0 q qname reply :
  serveQuestion maxChain ParseIP s reply0 q qname = Written reply →
  ∃ adbit answer,
    reply = dns.setAnswer answer (dns.setAuthenticatedData adbit reply0) ∨
    ∃ e, reply = writeErr (dns.setAnswer answer
                             (dns.setAuthenticatedData adbit reply0)) e.
Proof.
  assert (Hlookup : ∀ (V : Type) (res : lookupResult V) mk,
             serveLookup reply0 res mk = Written reply →
             ∃ adbit answer,
               reply = dns.setAnswer answer
                         (dns.setAuthenticatedData adbit reply0) ∨
               ∃ e, reply = writeErr (dns.setAnswer answer
                                        (dns.setAuthenticatedData adbit
                                           reply0)) e).
  { intros V res mk. unfold serveLookup.
    destruct (err res) as [e|].
    - intros [= <-]. eexists _, _. right. eexists. reflexivity.
    - destruct (appendEach _ _ _) as [answer|]; [| discriminate].
      intros [= <-]. exists (ad res), answer. left. reflexivity. }
  assert (Hok : ∀ answer,
             Written (dns.setAnswer answer reply0) = Written reply →
             ∃ adbit answer',
               reply = dns.setAnswer answer'
                         (dns.setAuthenticatedData adbit reply0) ∨
               ∃ e, reply = writeErr (dns.setAnswer answer'
                                        (dns.setAuthenticatedData adbit
                                           reply0)) e).
  { intros answer [= <-]. exists (dns.AuthenticatedData reply0), answer.
    left. rewrite setAuthenticatedData_id. reflexivity. }
  assert (Herr : ∀ e,
             Written (writeErr reply0 e) = Written reply →
             ∃ adbit answer,
               reply = dns.setAnswer answer
                         (dns.setAuthenticatedData adbit reply0) ∨
               ∃ e', reply = writeErr (dns.setAnswer answer
                                         (dns.setAuthenticatedData adbit
                                            reply0)) e').
  { intros e [= <-].
    exists (dns.AuthenticatedData reply0), (dns.Answer reply0).
    right. exists e. rewrite setAuthenticatedData_id.
    destruct reply0. reflexivity. }
  unfold serveQuestion.
  repeat match goal with
    | |- context [if Z.eqb ?a ?b then _ else _] => destruct (Z.eqb a b)
    end;
    try apply Hlookup;
    repeat match goal with
      | |- context [match ?o with Some _ => _ | None => _ end] => destruct o
      | |- context [if ?b then _ else _] => destruct b
      end;
    first [apply Hok | apply Herr].
Qed.

Lemma writeErr_envelope reply e :
  dns.Id (writeErr reply e) = dns.Id reply ∧
  dns.Response (writeErr reply e) = dns.Response reply ∧
  dns.Opcode (writeErr reply e) = dns.Opcode reply ∧
  dns.Questions (writeErr reply e) = dns.Questions reply ∧
  dns.RecursionDesired (writeErr reply e) = dns.RecursionDesired reply ∧
  dns.CheckingDisabled (writeErr reply e) = dns.CheckingDisabled reply.
Proof.
  unfold writeErr. destruct (asDNSError e) as [d|]; [| repeat split].
  destruct (net.IsNotFound d); repeat split.
Qed.

(** X4.  Every response carries the id and the opcode of the request, the
    response bit, and the first question of the request and no other; a
    response to a standard query also repeats its rd and cd bits. *)
Theorem ServeDNS_answers_request s m reply :
  ServeDNS maxChain ParseIP s m = Written reply →
  answers m reply ∧
  (dns.Opcode m = dns.OpcodeQuery →
   dns.RecursionDesired reply = dns.RecursionDesired m ∧
   dns.CheckingDisabled reply = dns.CheckingDisabled m).
Proof.
  unfold ServeDNS.
  destruct (Z.eqb_spec (dns.Opcode m) dns.OpcodeQuery) as [Hop | Hop];
    cbv [negb].
  - assert (Hhdr : answers m (replyHeader s m) ∧
                   dns.RecursionDesired (replyHeader s m) =
                   dns.RecursionDesired m ∧
                   dns.CheckingDisabled (replyHeader s m) =
                   dns.CheckingDisabled m).
    { unfold replyHeader, answers, dns.SetReply. rewrite Hop. eval_eqb.
      destruct (Authoritative s), (dns.Questions m); repeat split. }
    destruct Hhdr as ((Hid & Hresp & Hopc & Hq) & Hrd & Hcd).
    destruct (dns.Questions m) as [|q qs] eqn:Hqs; [discriminate |].
    destruct (dns.Qclass q =? dns.ClassINET).
    + intros Hw. apply serveQuestion_shape in Hw
        as (adbit & answer & [-> | [e ->]]).
      * unfold answers in *. simpl. rewrite Hqs. intuition.
      * destruct (writeErr_envelope
                    (dns.setAnswer answer
                       (dns.setAuthenticatedData adbit (replyHeader s m))) e)
          as (E1 & E2 & E3 & E4 & E5 & E6).
        unfold answers in *. rewrite E1, E2, E3, E4, E5, E6. simpl.
        rewrite Hqs. intuition.
    + intros [= <-]. unfold dns.SetRcode, dns.SetReply, answers.
      rewrite Hqs, Hop. eval_eqb. repeat split.
  - intros [= <-]. split; [| contradiction].
    unfold dns.SetRcode, answers, dns.SetReply. simpl.
    destruct (dns.Questions m); repeat split.
Qed.

(** X5.  A message whose opcode is not the standard query is answered with
    rcode refused, no flag and no record, whatever the server holds and
    whatever its question section is, an empty one included. *)
Theorem ServeDNS_refuses_other_opcodes s m :
  dns.Opcode m ≠ dns.OpcodeQuery →
  ∃ reply,
    ServeDNS maxChain ParseIP s m = Written reply ∧
    dns.Rcode reply = dns.RcodeRefused ∧
    dns.Authoritative reply = false ∧
    dns.RecursionAvailable reply = false ∧
    dns.Answer reply = [] ∧ dns.Ns reply = [] ∧ dns.Extra reply = [].
Proof.
  intros Hop. unfold ServeDNS.
  destruct (Z.eqb_spec (dns.Opcode m) dns.OpcodeQuery); [contradiction |].
  eexists. split; [reflexivity |]. repeat split.
Qed.

(** X6.  A standard query whose first question is not of class INET is
    answered with rcode not-implemented and no record, whatever its type and
    whatever the server holds. *)
Theorem ServeDNS_other_class s m q qs :
  dns.Opcode m = dns.OpcodeQuery →
  dns.Questions m = q :: qs →
  dns.Qclass q ≠ dns.ClassINET →
  ∃ reply,
    ServeDNS maxChain ParseIP s m = Written reply ∧
    dns.Rcode reply = dns.RcodeNotImplemented ∧
    dns.Answer reply = [] ∧ dns.Ns reply = [] ∧ dns.Extra reply = [].
Proof.
  intros Hop Hq Hclass. unfold ServeDNS. rewrite Hop, Hq. eval_eqb.
  cbv iota. simpl negb. cbv iota.
  destruct (Z.eqb_spec (dns.Qclass q) dns.ClassINET); [contradiction |].
  simpl negb. cbv iota.
  destruct (replyHeader_flags s m) as (_ & _ & _ & Hans & Hns & Hex).
  eexists. split; [reflexivity |]. simpl. auto.
Qed.

(** X7.  A query of type SOA is always answered with rcode success and the
    placeholder SOA record, owned by the name as the question spells it,
    whatever the server holds. *)
Theorem ServeDNS_SOA s m q qs :
  dns.Opcode m = dns.OpcodeQuery →
  dns.Questions m = q :: qs →
  dns.Qclass q = dns.ClassINET →
  dns.Qtype q = dns.TypeSOA →
  ∃ reply,
    ServeDNS maxChain ParseIP s m = Written reply ∧
    dns.Rcode reply = dns.RcodeSuccess ∧
    dns.Answer reply = [mkSOA (dns.Q_Name q)] ∧
    dns.Ns reply = [].
Proof.
  intros Hop Hq Hclass Hty. unfold ServeDNS, serveQuestion.
  rewrite Hop, Hq, Hclass, Hty. eval_eqb. cbv iota beta. simpl negb.
  cbv iota.
  destruct (replyHeader_flags s m) as (_ & _ & Hrc & _ & Hns & _).
  eexists. split; [reflexivity |]. simpl. auto.
Qed.

(** X8.  A query of type PTR reads the zone stored under the name exactly as
    the question spells it (no case folding, no dot added). A zone there gives
    rcode success and one PTR record per entry of its [PTR] field, in order,
    also when there is none; no zone there gives NotFound. *)
Theorem ServeDNS_PTR s m q qs :
  dns.Opcode m = dns.OpcodeQuery →
  dns.Questions m = q :: qs →
  dns.Qclass q = dns.ClassINET →
  dns.Qtype q = dns.TypePTR →
  ∃ reply,
    ServeDNS maxChain ParseIP s m = Written reply ∧
    match Zones (r s) !! dns.Q_Name q with
    | Some zone =>
        dns.Rcode reply = dns.RcodeSuccess ∧
        dns.Answer reply = map (mkPTR (dns.Q_Name q)) (PTR zone) ∧
        dns.Ns reply = []
    | None => isNotFoundReply reply (dns.Q_Name q)
    end.
Proof.
  intros Hop Hq Hclass Hty. unfold ServeDNS, serveQuestion.
  rewrite Hop, Hq, Hclass, Hty. eval_eqb. cbv iota beta. simpl negb.
  cbv iota.
  destruct (replyHeader_flags s m) as (_ & _ & Hrc & Hans & Hns & _).
  destruct (Zones (r s) !! dns.Q_Name q) as [zone|].
  - eexists. split; [reflexivity |]. simpl. rewrite Hans. auto.
  - eexists. split; [reflexivity |].
    erewrite writeErr_notFound by reflexivity. repeat split. exact Hans.
Qed.

(** X9.  A query of a type the switch does not name is answered from [Misc]:
    the records the zone, stored under the name as the question spells it,
    keeps for that type code, as they are; none when the zone keeps nothing
    for the code, still with rcode success; NotFound when there is no zone. *)
Theorem ServeDNS_Misc s m q qs :
  dns.Opcode m = dns.OpcodeQuery →
  dns.Questions m = q :: qs →
  dns.Qclass q = dns.ClassINET →
  namedType (dns.Qtype q) = false →
  ∃ reply,
    ServeDNS maxChain ParseIP s m = Written reply ∧
    match Zones (r s) !! dns.Q_Name q with
    | Some zone =>
        dns.Rcode reply = dns.RcodeSuccess ∧
        dns.Answer reply = default [] (Misc zone !! dns.Qtype q) ∧
        dns.Ns reply = []
    | None => isNotFoundReply reply (dns.Q_Name q)
    end.
Proof.
  intros Hop Hq Hclass Hty. unfold ServeDNS, serveQuestion.
  rewrite Hop, Hq, Hclass. eval_eqb. cbv iota beta. simpl negb. cbv iota.
  unfold namedType, engineType in Hty.
  repeat (apply orb_false_elim in Hty as [Hty ?]).
  repeat match goal with
    | H : (dns.Qtype q =? _) = false |- _ => rewrite H; clear H
    end.
  destruct (replyHeader_flags s m) as (_ & _ & Hrc & Hans & Hns & _).
  destruct (Zones (r s) !! dns.Q_Name q) as [zone|].
  - eexists. split; [reflexivity |]. simpl. rewrite Hans. auto.
  - eexists. split; [reflexivity |].
    erewrite writeErr_notFound by reflexivity. repeat split. exact Hans.
Qed.

(** X10.  The additional section of every response is empty, and its authority
    section is empty unless the rcode is name-error, in which case it is one
    placeholder SOA record. *)
Theorem ServeDNS_sections s m reply :
  ServeDNS maxChain ParseIP s m = Written reply →
  dns.Extra reply = [] ∧
  (dns.Rcode reply = dns.RcodeNameError ∧
   (∃ name, dns.Ns reply = [mkSOA name]) ∨
   dns.Rcode reply ≠ dns.RcodeNameError ∧ dns.Ns reply = []).
Proof.
  unfold ServeDNS.
  destruct (negb (dns.Opcode m =? dns.OpcodeQuery)).
  { intros [= <-]. split; [reflexivity |]. right. split; [discriminate |].
    reflexivity. }
  destruct (replyHeader_flags s m) as (_ & _ & Hrc & _ & Hns & Hex).
  destruct (dns.Questions m) as [|q qs]; [discriminate |].
  destruct (negb (dns.Qclass q =? dns.ClassINET)).
  { intros [= <-]. simpl. split; [exact Hex |]. right.
    split; [discriminate | exact Hns]. }
  intros Hw. apply serveQuestion_shape in Hw
    as (adbit & answer & [-> | [e ->]]).
  - simpl. split; [exact Hex |]. right. rewrite Hrc, Hns.
    split; [discriminate | reflexivity].
  - unfold writeErr. destruct (asDNSError e) as [d|].
    + destruct (net.IsNotFound d); simpl.
      * split; [reflexivity |]. left. split; [reflexivity | eauto].
      * split; [reflexivity |]. right. split; [discriminate | exact Hns].
    + simpl. split; [reflexivity |]. right.
      split; [discriminate | exact Hns].
Qed.

Lemma walk_values_stored {V : Type} (field : Zone → list V) zones fuel chain
    current :
  err (walk field zones fuel chain current) = None →
  ∃ name zone,
    zones !! name = Some zone ∧
    values (walk field zones fuel chain current) = field zone.
Proof.
  revert chain current.
  induction fuel as [|fuel IH]; intros chain current; simpl; [discriminate |].
  destruct (zones !! current) as [zone|] eqn:Hz; [| discriminate].
  destruct (Err zone); [discriminate |].
  destruct (negb (String.eqb (CNAME zone) EmptyString) &&
            isEmpty (field zone)); [apply IH |].
  destruct (isEmpty (field zone)); [discriminate |].
  intros _. exists current, zone. split; [exact Hz | reflexivity].
Qed.

Lemma appendEach_is_Some {V : Type} (mk : V → option dns.RR) answer vs :
  (∀ v, v ∈ vs → is_Some (mk v)) → is_Some (appendEach mk answer vs).
Proof.
  revert answer. induction vs as [|v vs IH]; intros answer Hmk; simpl.
  - eauto.
  - destruct (Hmk v) as [rr ->]; [left |].
    apply IH. intros v' Hv'. apply Hmk. right. exact Hv'.
Qed.

Lemma serveLookup_writes {V : Type} reply (res : lookupResult V) mk :
  (err res = None → ∀ v, v ∈ values res → is_Some (mk (rname res) v)) →
  ∃ reply', serveLookup reply res mk = Written reply'.
Proof.
  intros Hmk. unfold serveLookup. destruct (err res); [eauto |].
  destruct (appendEach_is_Some (mk (rname res))
              (dns.Answer
                 (dns.setAnswer
                    (appendCNAMEs
                       (dns.Answer (dns.setAuthenticatedData (ad res) reply))
                       (cnames res) (rname res))
                    (dns.setAuthenticatedData (ad res) reply)))
              (values res) (Hmk eq_refl)) as [answer ->].
  eauto.
Qed.

(** With a question in the message and stored addresses that parse,
    [ServeDNS] above ends in [w.WriteMsg]. *)
Lemma ServeDNS_reaches_WriteMsg s m :
  dns.Questions m ≠ [] →
  (∀ name zone addr,
      Zones (r s) !! name = Some zone →
      addr ∈ A zone ∨ addr ∈ AAAA zone →
      is_Some (ParseIP addr)) →
  ∃ reply, ServeDNS maxChain ParseIP s m = Written reply.
Proof.
  intros Hq Hparse. unfold ServeDNS.
  destruct (negb (dns.Opcode m =? dns.OpcodeQuery)); [eauto |].
  destruct (dns.Questions m) as [|q qs]; [contradiction |].
  destruct (negb (dns.Qclass q =? dns.ClassINET)); [eauto |].
  unfold serveQuestion.
  repeat match goal with
    | |- context [if Z.eqb ?a ?b then _ else _] => destruct (Z.eqb a b)
    end;
    try solve [apply serveLookup_writes; intros _ v _;
               unfold mkMX, mkNS, mkSRV, mkTXT; eauto];
    try solve [repeat match goal with
                 | |- context [match ?o with Some _ => _ | None => _ end] =>
                     destruct o
                 | |- context [if ?b then _ else _] => destruct b
                 end; eauto].
  - apply serveLookup_writes. intros Herr v Hv. unfold mkA.
    unfold lookupA, lookup in *.
    destruct (walk_values_stored _ _ _ _ _ Herr) as (name & zone & Hz & Hval).
    rewrite Hval in Hv.
    destruct (Hparse name zone v Hz (or_introl Hv)) as [ip ->]. eauto.
  - apply serveLookup_writes. intros Herr v Hv. unfold mkAAAA.
    unfold lookupAAAA, lookup in *.
    destruct (walk_values_stored _ _ _ _ _ Herr) as (name & zone & Hz & Hval).
    rewrite Hval in Hv.
    destruct (Hparse name zone v Hz (or_intror Hv)) as [ip ->]. eauto.
Qed.

Lemma logged_serveLookup_sameEnd {V : Type} l reply (res : lookupResult V) mk :
  sameEnd l (logged.serveLookup l reply res mk) (serveLookup reply res mk).
Proof.
  unfold sameEnd, logged.serveLookup, serveLookup.
  destruct (err res) as [e|]; [right; left; eauto |].
  destruct (appendEach _ _ _) as [answer|]; [left | right; right]; eauto.
Qed.

Lemma logged_serveQuestion_sameEnd s reply q qname :
  sameEnd (Log s)
    (logged.serveQuestion maxChain ParseIP s reply q qname)
    (serveQuestion maxChain ParseIP (server s) reply q qname).
Proof.
  unfold logged.serveQuestion, serveQuestion.
  repeat match goal with
    | |- context [if Z.eqb ?a ?b then _ else _] => destruct (Z.eqb a b)
    end;
    try apply logged_serveLookup_sameEnd;
    repeat match goal with
      | |- context [match ?o with Some _ => _ | None => _ end] => destruct o
      | |- context [if ?b then _ else _] => destruct b
      end;
    unfold sameEnd; eauto 6.
Qed.

Lemma logged_writeErr_nil reply e :
  logged.writeErr nilLogger reply e =
  if isNotFound e then Returns (writeErr reply e)
  else PanicsUnsent nilDereference.
Proof. reflexivity. Qed.

Lemma writeErr_isNotFound reply e :
  isNotFound e = true → dns.Rcode (writeErr reply e) = dns.RcodeNameError.
Proof.
  unfold isNotFound. destruct (asDNSError e) as [d|] eqn:Hd; [| discriminate].
  intros Hnf. rewrite (writeErr_notFound reply e d Hd Hnf). reflexivity.
Qed.

(** X11.  When the handler panics, the logger of the server and the writer of
    the call taken in.  With a logger in place the handler does what
    [ServeDNS] above says, whatever [w.WriteMsg] returns: it panics only on a
    message without a question or on a stored address [net.ParseIP] rejects,
    and otherwise returns after handing its reply to the writer.  With a nil
    [Log], which [NewServerWithLogger] stores as it is given, the handler
    returns only from the replies it does not log, refused and not-implemented
    if the write succeeds and name-error; where [ServeDNS] above writes a reply
    with rcode success or server-failure, it panics before writing. *)
Theorem ServeDNS_writes w s m :
  (Log s = someLogger →
   logged.ServeDNS maxChain ParseIP w s m =
   runOf (ServeDNS maxChain ParseIP (server s) m)) ∧
  (Log s = someLogger →
   dns.Questions m ≠ [] →
   (∀ name zone addr,
       Zones (r (server s)) !! name = Some zone →
       addr ∈ A zone ∨ addr ∈ AAAA zone →
       is_Some (ParseIP addr)) →
   ∃ reply, logged.ServeDNS maxChain ParseIP w s m = Returns reply) ∧
  (Log s = nilLogger →
   ∀ reply,
     logged.ServeDNS maxChain ParseIP w s m = Returns reply →
     dns.Rcode reply = dns.RcodeNameError ∨
     dns.WriteMsg w reply = None ∧
     (dns.Rcode reply = dns.RcodeRefused ∨
      dns.Rcode reply = dns.RcodeNotImplemented)) ∧
  (Log s = nilLogger →
   ∀ reply,
     ServeDNS maxChain ParseIP (server s) m = Written reply →
     dns.Rcode reply = dns.RcodeSuccess ∨
     dns.Rcode reply = dns.RcodeServerFailure →
     logged.ServeDNS maxChain ParseIP w s m = PanicsUnsent nilDereference).
Proof.
  assert (Hsame : Log s = someLogger →
            logged.ServeDNS maxChain ParseIP w s m =
            runOf (ServeDNS maxChain ParseIP (server s) m)).
  { intros Hlog. unfold logged.ServeDNS, ServeDNS, logged.writeMsg.
    rewrite Hlog.
    destruct (negb (dns.Opcode m =? dns.OpcodeQuery)).
    { destruct (dns.WriteMsg w _); reflexivity. }
    destruct (dns.Questions m) as [|q qs]; [reflexivity |].
    destruct (negb (dns.Qclass q =? dns.ClassINET)).
    { destruct (dns.WriteMsg w _); reflexivity. }
    pose proof (logged_serveQuestion_sameEnd s (replyHeader (server s) m) q
                  (strs.ToLower (dns.Fqdn (dns.Q_Name q)))) as Hend.
    rewrite Hlog in Hend.
    destruct Hend as [(reply & -> & ->) | [(reply & e & -> & ->) |
                                           (msg & -> & ->)]].
    - simpl. destruct (dns.WriteMsg w reply); reflexivity.
    - unfold logged.writeErr. destruct (isNotFound e); reflexivity.
    - reflexivity. }
  split; [exact Hsame |]. split; [| split].
  - intros Hlog Hq Hparse. rewrite (Hsame Hlog).
    destruct (ServeDNS_reaches_WriteMsg (server s) m Hq Hparse)
      as [reply ->].
    exists reply. reflexivity.
  - intros Hlog reply.
    unfold logged.ServeDNS, logged.writeMsg. rewrite Hlog.
    destruct (negb (dns.Opcode m =? dns.OpcodeQuery)).
    { destruct (dns.WriteMsg w _) eqn:Hw; [discriminate |].
      intros [= <-]. right. split; [exact Hw | left; reflexivity]. }
    destruct (dns.Questions m) as [|q qs]; [discriminate |].
    destruct (negb (dns.Qclass q =? dns.ClassINET)).
    { destruct (dns.WriteMsg w _) eqn:Hw; [discriminate |].
      intros [= <-]. right. split; [exact Hw | right; reflexivity]. }
    pose proof (logged_serveQuestion_sameEnd s (replyHeader (server s) m) q
                  (strs.ToLower (dns.Fqdn (dns.Q_Name q)))) as Hend.
    rewrite Hlog in Hend.
    destruct Hend as [(reply' & -> & _) | [(reply' & e & -> & _) |
                                           (msg & -> & _)]].
    + discriminate.
    + rewrite logged_writeErr_nil.
      destruct (isNotFound e) eqn:Hnf; [| discriminate].
      intros [= <-]. left. apply writeErr_isNotFound, Hnf.
    + discriminate.
  - intros Hlog reply.
    unfold logged.ServeDNS, ServeDNS. rewrite Hlog.
    destruct (negb (dns.Opcode m =? dns.OpcodeQuery)).
    { intros [= <-] [Hrc | Hrc]; discriminate Hrc. }
    destruct (dns.Questions m) as [|q qs]; [discriminate |].
    destruct (negb (dns.Qclass q =? dns.ClassINET)).
    { intros [= <-] [Hrc | Hrc]; discriminate Hrc. }
    pose proof (logged_serveQuestion_sameEnd s (replyHeader (server s) m) q
                  (strs.ToLower (dns.Fqdn (dns.Q_Name q)))) as Hend.
    rewrite Hlog in Hend.
    destruct Hend as [(reply' & -> & ->) | [(reply' & e & -> & ->) |
                                            (msg & -> & ->)]].
    + intros _ _. reflexivity.
    + rewrite logged_writeErr_nil. intros [= <-] Hrc.
      destruct (isNotFound e) eqn:Hnf; [| reflexivity].
      rewrite (writeErr_isNotFound reply' e Hnf) in Hrc.
      destruct Hrc as [Hrc | Hrc]; discriminate Hrc.
    + discriminate.
Qed.

Lemma appendCNAMEs_Forall (P : dns.RR → Prop) answer cnames rname :
  Forall P answer →
  (∀ owner target, P (mkCname owner target)) →
  Forall P (appendCNAMEs answer cnames rname).
Proof.
  intros Hans Hmk. revert answer rname Hans.
  induction cnames as [|c cnames IH]; intros answer rname Hans; simpl.
  - exact Hans.
  - apply IH. apply Forall_app. split; [exact Hans |].
    constructor; [apply Hmk | constructor].
Qed.

Lemma appendEach_Forall {V : Type} (P : dns.RR → Prop)
    (mk : V → option dns.RR) answer vs out :
  appendEach mk answer vs = Some out →
  Forall P answer →
  (∀ v rr, mk v = Some rr → P rr) →
  Forall P out.
Proof.
  intros Hout Hans Hmk. revert answer Hout Hans.
  induction vs as [|v vs IH]; intros answer Hout Hans; simpl in Hout.
  - injection Hout as <-. exact Hans.
  - destruct (mk v) as [rr|] eqn:Hv; [| discriminate].
    apply (IH (answer ++ [rr]) Hout). apply Forall_app.
    split; [exact Hans |]. constructor; [eapply Hmk, Hv | constructor].
Qed.

Lemma writeErr_ownRecords qtype reply e :
  ownRecords qtype reply → ownRecords qtype (writeErr reply e).
Proof.
  intros [Hans Hns]. unfold ownRecords. rewrite writeErr_Answer.
  split; [exact Hans |]. unfold writeErr.
  destruct (asDNSError e) as [d|]; [| exact Hns].
  destruct (net.IsNotFound d); [| exact Hns].
  simpl. constructor; [repeat split | constructor].
Qed.

Lemma serveLookup_ownRecords {V : Type} qtype reply0 (res : lookupResult V)
    mk reply :
  ownRecords qtype reply0 →
  (∀ name v rr, mk name v = Some rr → synthesized qtype rr) →
  serveLookup reply0 res mk = Written reply →
  ownRecords qtype reply.
Proof.
  intros [Hans Hns] Hmk. unfold serveLookup.
  assert (Hchain :
    Forall (λ rr, synthesized dns.TypeCNAME rr ∨ synthesized qtype rr)
      (appendCNAMEs (dns.Answer (dns.setAuthenticatedData (ad res) reply0))
         (cnames res) (rname res))).
  { apply appendCNAMEs_Forall; [exact Hans |].
    intros owner target. left. repeat split. }
  destruct (err res) as [e|].
  - intros [= <-]. apply writeErr_ownRecords. split; [exact Hchain |].
    exact Hns.
  - destruct (appendEach _ _ _) as [answer|] eqn:Hout; [| discriminate].
    intros [= <-]. split; [| exact Hns]. simpl.
    apply (appendEach_Forall _ _ _ _ _ Hout Hchain).
    intros v rr Hv. right. eapply Hmk, Hv.
Qed.

(** X12.  Every record of a response to a query of a type the switch names is
    of the server's making: class INET and TTL 9999 throughout, the answer
    records of type CNAME or of the queried type, the authority records of
    type SOA. (Only the records of [Misc] are passed on as stored.) *)
Theorem ServeDNS_synthesized s m q qs reply :
  dns.Questions m = q :: qs →
  namedType (dns.Qtype q) = true →
  ServeDNS maxChain ParseIP s m = Written reply →
  ownRecords (dns.Qtype q) reply.
Proof.
  intros Hq Hnamed. unfold ServeDNS. rewrite Hq.
  destruct (negb (dns.Opcode m =? dns.OpcodeQuery)).
  { intros [= <-]. split; constructor. }
  destruct (replyHeader_flags s m) as (_ & _ & _ & Hans & Hns & _).
  assert (Hhdr : ownRecords (dns.Qtype q) (replyHeader s m)).
  { unfold ownRecords. rewrite Hans, Hns. split; constructor. }
  destruct (negb (dns.Qclass q =? dns.ClassINET)).
  { intros [= <-]. unfold ownRecords. simpl. rewrite Hans, Hns.
    split; constructor. }
  revert Hnamed. unfold namedType, engineType, serveQuestion.
  destruct (Z.eqb_spec (dns.Qtype q) dns.TypeA) as [Hty|_].
  { intros _. apply serveLookup_ownRecords; [exact Hhdr |].
    intros name v rr. unfold mkA. destruct (ParseIP v); [| discriminate].
    intros [= <-]. rewrite Hty. repeat split. }
  destruct (Z.eqb_spec (dns.Qtype q) dns.TypeAAAA) as [Hty|_].
  { intros _. apply serveLookup_ownRecords; [exact Hhdr |].
    intros name v rr. unfold mkAAAA. destruct (ParseIP v); [| discriminate].
    intros [= <-]. rewrite Hty. repeat split. }
  destruct (Z.eqb_spec (dns.Qtype q) dns.TypeMX) as [Hty|_].
  { intros _. apply serveLookup_ownRecords; [exact Hhdr |].
    intros name v rr [= <-]. rewrite Hty. repeat split. }
  destruct (Z.eqb_spec (dns.Qtype q) dns.TypeNS) as [Hty|_].
  { intros _. apply serveLookup_ownRecords; [exact Hhdr |].
    intros name v rr [= <-]. rewrite Hty. repeat split. }
  destruct (Z.eqb_spec (dns.Qtype q) dns.TypeSRV) as [Hty|_].
  { intros _. apply serveLookup_ownRecords; [exact Hhdr |].
    intros name v rr [= <-]. rewrite Hty. repeat split. }
  destruct (Z.eqb_spec (dns.Qtype q) dns.TypeCNAME) as [Hty|_].
  { intros _.
    destruct (Zones (r s) !! strs.ToLower (dns.Fqdn (dns.Q_Name q)))
      as [zone|].
    - destruct (String.eqb (CNAME zone) EmptyString).
      + intros [= <-]. apply writeErr_ownRecords, Hhdr.
      + intros [= <-]. unfold ownRecords. simpl. rewrite Hans, Hns.
        split; [| constructor].
        constructor; [left; repeat split | constructor].
    - intros [= <-]. apply writeErr_ownRecords, Hhdr. }
  destruct (Z.eqb_spec (dns.Qtype q) dns.TypeTXT) as [Hty|_].
  { intros _. apply serveLookup_ownRecords; [exact Hhdr |].
    intros name v rr [= <-]. rewrite Hty. repeat split. }
  destruct (Z.eqb_spec (dns.Qtype q) dns.TypePTR) as [Hty|_].
  { intros _. destruct (Zones (r s) !! dns.Q_Name q) as [zone|].
    - intros [= <-]. unfold ownRecords. simpl. rewrite Hans, Hns.
      split; [| constructor]. simpl. apply Forall_forall.
      intros rr Hin. apply list_elem_of_In, in_map_iff in Hin
        as (name & <- & _).
      right. rewrite Hty. repeat split.
    - intros [= <-]. apply writeErr_ownRecords, Hhdr. }
  destruct (Z.eqb_spec (dns.Qtype q) dns.TypeSOA) as [Hty|_];
    [| discriminate].
  intros _ [= <-]. unfold ownRecords. simpl. rewrite Hns.
  split; [| constructor].
  constructor; [right; rewrite Hty; repeat split | constructor].
Qed.

Lemma lookupOutcome_absent s q :
  engineType (dns.Qtype q) = true →
  Zones (r s) !! engineKey q = None →
  lookupOutcome maxChain s q =
  ([], engineKey q, Some (notFound (engineKey q))).
Proof.
  unfold engineType, engineKey, lookupOutcome, summary.
  unfold lookupA, lookupAAAA, lookupMX, lookupNS, lookupSRV, lookupTXT, lookup.
  intros Hty Hz.
  destruct (Z.eqb_spec (dns.Qtype q) dns.TypeA) as [_|_];
    [rewrite (walk_absent _ _ _ _ _ Hz); reflexivity |].
  destruct (Z.eqb_spec (dns.Qtype q) dns.TypeAAAA) as [_|_];
    [rewrite (walk_absent _ _ _ _ _ Hz); reflexivity |].
  destruct (Z.eqb_spec (dns.Qtype q) dns.TypeMX) as [_|_];
    [rewrite (walk_absent _ _ _ _ _ Hz); reflexivity |].
  destruct (Z.eqb_spec (dns.Qtype q) dns.TypeNS) as [_|_];
    [rewrite (walk_absent _ _ _ _ _ Hz); reflexivity |].
  destruct (Z.eqb_spec (dns.Qtype q) dns.TypeSRV) as [_|_];
    [rewrite (walk_absent _ _ _ _ _ Hz); reflexivity |].
  destruct (Z.eqb_spec (dns.Qtype q) dns.TypeTXT) as [Htxt|_];
    [| discriminate].
  rewrite Htxt. eval_eqb. cbv iota.
  rewrite (walk_absent _ _ _ _ _ Hz). reflexivity.
Qed.

Lemma lookupOutcome_empty s q :
  Zones (r s) = ∅ →
  dns.Qtype q ≠ dns.TypeSOA →
  ∃ name, lookupOutcome maxChain s q = ([], name, Some (notFound name)).
Proof.
  intros Hempty Hsoa. unfold lookupOutcome, summary.
  unfold lookupA, lookupAAAA, lookupMX, lookupNS, lookupSRV, lookupTXT, lookup.
  rewrite Hempty.
  repeat match goal with
    | |- context [if Z.eqb ?a ?b then _ else _] =>
        destruct (Z.eqb_spec a b)
    end;
    try contradiction;
    try (rewrite walk_absent by apply lookup_empty);
    rewrite ?lookup_empty; eexists; reflexivity.
Qed.

(** X14.  [Reset] empties the store and keeps the [Authoritative] setting:
    from then on every standard query of class INET and of a type other than
    SOA is answered with NotFound and an empty answer section. *)
Theorem Reset_forgets s m q qs :
  dns.Opcode m = dns.OpcodeQuery →
  dns.Questions m = q :: qs →
  dns.Qclass q = dns.ClassINET →
  dns.Qtype q ≠ dns.TypeSOA →
  Zones (r (Reset s)) = ∅ ∧
  Authoritative (Reset s) = Authoritative s ∧
  ∃ reply name,
    ServeDNS maxChain ParseIP (Reset s) m = Written reply ∧
    isNotFoundReply reply name.
Proof.
  intros Hop Hq Hclass Hsoa. split; [reflexivity |]. split; [reflexivity |].
  destruct (lookupOutcome_empty (Reset s) q eq_refl Hsoa) as [name Hout].
  destruct (ServeDNS_lookup_error maxChain ParseIP (Reset s) m q qs
              [] name (notFound name) Hop Hq Hclass Hout) as [adbit Hw].
  destruct (errorReply_notFound (Reset s) m adbit [] name (notFound name)
              eq_refl) as (d & [= <-] & Hrc & Hns & Hans).
  eexists _, name. split; [exact Hw |]. repeat split; assumption.
Qed.

(** X15.  [isZoneEmpty] does not look at [Err]. When [RemoveRR] takes the last
    records of a zone that simulates a failure, the zone goes with them:
    queries that were answered with server-failure are answered with
    name-error afterwards. *)
Theorem RemoveRR_drops_Err s name rrType zone e m q qs :
  dns.Opcode m = dns.OpcodeQuery →
  dns.Questions m = q :: qs →
  dns.Qclass q = dns.ClassINET →
  engineType (dns.Qtype q) = true →
  engineKey q = dotName name →
  Zones (r s) !! dotName name = Some zone →
  Err zone = Some e →
  isNotFound e = false →
  noRecords (clearType rrType zone) →
  (∃ reply,
      ServeDNS maxChain ParseIP s m = Written reply ∧
      dns.Rcode reply = dns.RcodeServerFailure) ∧
  (∃ reply,
      ServeDNS maxChain ParseIP (RemoveRR s name rrType) m = Written reply ∧
      dns.Rcode reply = dns.RcodeNameError).
Proof.
  intros Hop Hq Hclass Hty Hkey Hz He Hnf Hnone. split.
  - rewrite <- Hkey in Hz.
    pose proof (lookupOutcome_Err maxChain s q zone e Hty Hz He) as Hout.
    destruct (ServeDNS_lookup_error maxChain ParseIP s m q qs _ _ _
                Hop Hq Hclass Hout) as [adbit Hw].
    destruct (errorReply_failure s m adbit [] (engineKey q) e Hnf)
      as (Hrc & _).
    eauto.
  - assert (Hgone : Zones (r (RemoveRR s name rrType)) !! engineKey q = None).
    { rewrite Hkey. unfold RemoveRR. rewrite Hz. simpl default.
      apply isZoneEmpty_noRecords in Hnone. rewrite Hnone.
      cbn [Zones r setZones]. apply lookup_delete_eq. }
    pose proof (lookupOutcome_absent (RemoveRR s name rrType) q Hty Hgone)
      as Hout.
    destruct (ServeDNS_lookup_error maxChain ParseIP _ m q qs _ _ _
                Hop Hq Hclass Hout) as [adbit Hw].
    destruct (errorReply_notFound (RemoveRR s name rrType) m adbit []
                (engineKey q) (notFound (engineKey q)) eq_refl)
      as (d & _ & Hrc & _).
    eauto.
Qed.

Lemma appendEach_total {V : Type} (mk : V → option dns.RR) (f : V → dns.RR)
    answer vs :
  (∀ v, mk v = Some (f v)) →
  appendEach mk answer vs = Some (answer ++ map f vs).
Proof.
  intros Hmk. revert answer.
  induction vs as [|v vs IH]; intros answer; simpl.
  - rewrite app_nil_r. reflexivity.
  - rewrite Hmk, IH, <- app_assoc. reflexivity.
Qed.

(** X13.  A TXT query whose lookup succeeds is answered with the CNAME records
    of the chain followed by one TXT record per value, in the order of the
    lookup, each owned by the name the lookup ended at and holding the pieces
    of [splitTXT]; the pieces of each record concatenate to the value, so
    cutting a long value changes nothing of its text. *)
Theorem ServeDNS_TXT_answer s m q qs :
  dns.Opcode m = dns.OpcodeQuery →
  dns.Questions m = q :: qs →
  dns.Qclass q = dns.ClassINET →
  dns.Qtype q = dns.TypeTXT →
  err (lookupTXT maxChain (r s) (dns.Q_Name q)) = None →
  ∃ reply,
    ServeDNS maxChain ParseIP s m = Written reply ∧
    dns.Rcode reply = dns.RcodeSuccess ∧
    dns.Answer reply =
    appendCNAMEs [] (cnames (lookupTXT maxChain (r s) (dns.Q_Name q)))
                 (rname (lookupTXT maxChain (r s) (dns.Q_Name q))) ++
    map (λ txt,
           dns.TXT (hdr (rname (lookupTXT maxChain (r s) (dns.Q_Name q)))
                        dns.TypeTXT)
                   (splitTXT txt))
        (values (lookupTXT maxChain (r s) (dns.Q_Name q))) ∧
    map concatAll
        (map splitTXT (values (lookupTXT maxChain (r s) (dns.Q_Name q)))) =
    values (lookupTXT maxChain (r s) (dns.Q_Name q)).
Proof.
  intros Hop Hq Hclass Hty Herr. unfold ServeDNS, serveQuestion.
  rewrite Hop, Hq, Hclass, Hty. eval_eqb. cbv iota beta. simpl negb.
  cbv iota. unfold serveLookup. rewrite Herr.
  destruct (replyHeader_flags s m) as (_ & _ & Hrc & Hans & _).
  simpl dns.Answer. rewrite Hans.
  rewrite (appendEach_total _
             (λ txt,
                dns.TXT (hdr (rname (lookupTXT maxChain (r s)
                                       (dns.Q_Name q))) dns.TypeTXT)
                        (splitTXT txt)))
    by reflexivity.
  eexists. split; [reflexivity |]. simpl. split; [exact Hrc |].
  split; [reflexivity |].
  rewrite map_map. rewrite <- (map_id (values _)) at 2.
  apply map_ext. intros txt. rewrite splitTXT_pieces.
  apply concat_all_pieces.
Qed.

End MoreHandlerProperties.

(** ** Further properties: the mutators *)

(** Splits on the type tests of the goal. *)
Ltac by_type :=
  repeat match goal with
    | |- context [Z.eqb ?a ?b] =>
        destruct (Z.eqb_spec a b); subst; eval_eqb
    end.

(** X16.  [AppendRR] changes the server only when it returns no error. It
    returns the error "RR type not supported" for every type other than A,
    AAAA, TXT, PTR, CNAME, MX, NS and SRV (SOA among them), and never returns
    an error for the types A, AAAA, TXT, PTR, CNAME and NS, whatever the
    value. *)
Theorem AppendRR_outcomes s name rrType rrData :
  (snd (AppendRR s name rrType rrData) ≠ None →
   fst (AppendRR s name rrType rrData) = s) ∧
  (mutableType rrType = false →
   AppendRR s name rrType rrData =
   (s, Some (ErrString "RR type not supported"))) ∧
  (mutableType rrType = true →
   rrType ≠ dns.TypeMX →
   rrType ≠ dns.TypeSRV →
   snd (AppendRR s name rrType rrData) = None).
Proof.
  unfold mutableType, multiValued, AppendRR, store, reject.
  repeat split.
  - repeat match goal with
      | |- context [if ?b then _ else _] => destruct b
      | |- context [match ?l with [] => _ | _ :: _ => _ end] => destruct l
      | |- context [match ?o with Some _ => _ | None => _ end] => destruct o
      end; simpl; congruence.
  - by_type; simpl; congruence.
  - by_type; simpl; congruence.
Qed.

Lemma recordsOf_zeroZone rrType : recordsOf rrType zeroZone = [].
Proof. unfold recordsOf. by_type; reflexivity. Qed.

Lemma noRecords_recordsOf rrType zone :
  noRecords zone → recordsOf rrType zone = [].
Proof.
  intros (Ha & H6 & Htxt & Hptr & _ & Hmx & Hns & Hsrv & _).
  unfold recordsOf. rewrite Ha, H6, Htxt, Hptr, Hmx, Hns, Hsrv.
  by_type; reflexivity.
Qed.

Lemma recordsOf_clearType rrType other zone :
  recordsOf other (clearType rrType zone) =
  if other =? rrType then [] else recordsOf other zone.
Proof.
  unfold recordsOf, clearType.
  destruct (Z.eqb_spec other rrType) as [-> | Hne]; by_type;
    try reflexivity; congruence.
Qed.

Lemma CNAME_clearType rrType zone :
  CNAME (clearType rrType zone) =
  if rrType =? dns.TypeCNAME then EmptyString else CNAME zone.
Proof. unfold clearType. by_type; try reflexivity; congruence. Qed.

Lemma clearType_idempotent rrType zone :
  clearType rrType (clearType rrType zone) = clearType rrType zone.
Proof. unfold clearType. by_type; reflexivity. Qed.

Lemma isZoneEmpty_clear_zeroZone rrType :
  isZoneEmpty (clearType rrType zeroZone) = true.
Proof. unfold clearType. by_type; reflexivity. Qed.

Lemma zoneAt_RemoveRR s name rrType :
  zoneAt (RemoveRR s name rrType) (dotName name) =
  if isZoneEmpty (clearType rrType (zoneAt s (dotName name)))
  then zeroZone
  else clearType rrType (zoneAt s (dotName name)).
Proof.
  unfold RemoveRR. fold (zoneAt s (dotName name)).
  destruct (isZoneEmpty _); unfold zoneAt; cbn [Zones r setZones].
  - rewrite lookup_delete_eq. reflexivity.
  - rewrite lookup_insert_eq. reflexivity.
Qed.

(** What [RemoveRR] leaves of the record sets under the key. *)
Lemma RemoveRR_records s name rrType other :
  recordsOf other (zoneAt (RemoveRR s name rrType) (dotName name)) =
  if other =? rrType then []
  else recordsOf other (zoneAt s (dotName name)).
Proof.
  rewrite zoneAt_RemoveRR.
  destruct (isZoneEmpty _) eqn:Hempty.
  - rewrite recordsOf_zeroZone.
    apply isZoneEmpty_noRecords in Hempty.
    pose proof (noRecords_recordsOf other _ Hempty) as Hnone.
    rewrite recordsOf_clearType in Hnone.
    destruct (other =? rrType); congruence.
  - apply recordsOf_clearType.
Qed.

(** X18.  [RemoveRR] removes every record of the given type under the name and
    none of another type: the record sets of the other types, and the [CNAME]
    field unless the type is CNAME, read as before, also when the entry was
    deleted. *)
Theorem RemoveRR_clears s name rrType :
  recordsOf rrType (zoneAt (RemoveRR s name rrType) (dotName name)) = [] ∧
  (rrType = dns.TypeCNAME →
   CNAME (zoneAt (RemoveRR s name rrType) (dotName name)) = EmptyString) ∧
  (∀ other,
      other ≠ rrType →
      recordsOf other (zoneAt (RemoveRR s name rrType) (dotName name)) =
      recordsOf other (zoneAt s (dotName name))) ∧
  (rrType ≠ dns.TypeCNAME →
   CNAME (zoneAt (RemoveRR s name rrType) (dotName name)) =
   CNAME (zoneAt s (dotName name))).
Proof.
  assert (Hcname :
    CNAME (zoneAt (RemoveRR s name rrType) (dotName name)) =
    if rrType =? dns.TypeCNAME then EmptyString
    else CNAME (zoneAt s (dotName name))).
  { rewrite zoneAt_RemoveRR. destruct (isZoneEmpty _) eqn:Hempty.
    - apply isZoneEmpty_noRecords in Hempty.
      destruct Hempty as (_ & _ & _ & _ & Hc & _).
      rewrite CNAME_clearType in Hc.
      destruct (rrType =? dns.TypeCNAME); [reflexivity |].
      rewrite Hc. reflexivity.
    - apply CNAME_clearType. }
  repeat split.
  - rewrite RemoveRR_records, Z.eqb_refl. reflexivity.
  - intros ->. exact Hcname.
  - intros other Hne. rewrite RemoveRR_records.
    destruct (Z.eqb_spec other rrType); [contradiction | reflexivity].
  - intros Hne. rewrite Hcname.
    destruct (Z.eqb_spec rrType dns.TypeCNAME); [contradiction | reflexivity].
Qed.

(** X19.  [RemoveRR] is idempotent. *)
Theorem RemoveRR_idempotent s name rrType :
  RemoveRR (RemoveRR s name rrType) name rrType = RemoveRR s name rrType.
Proof.
  unfold RemoveRR at 1. fold (zoneAt (RemoveRR s name rrType) (dotName name)).
  rewrite zoneAt_RemoveRR. unfold RemoveRR.
  fold (zoneAt s (dotName name)).
  destruct (isZoneEmpty (clearType rrType (zoneAt s (dotName name))))
    eqn:Hempty.
  - rewrite isZoneEmpty_clear_zeroZone. unfold setZones.
    cbn [Zones r Authoritative]. rewrite delete_delete_eq. reflexivity.
  - rewrite clearType_idempotent, Hempty. unfold setZones.
    cbn [Zones r Authoritative]. rewrite insert_insert_eq. reflexivity.
Qed.

(** X20.  [RemoveRR] for a name the store has no entry for changes nothing,
    whatever the type. *)
Theorem RemoveRR_absent s name rrType :
  Zones (r s) !! dotName name = None →
  RemoveRR s name rrType = s.
Proof.
  intros Habsent. unfold RemoveRR. rewrite Habsent. simpl default.
  rewrite isZoneEmpty_clear_zeroZone, (delete_id _ _ Habsent).
  destruct s as [[zones] authoritative]. reflexivity.
Qed.

Lemma AppendRR_stored s name rrType rrData s1 :
  AppendRR s name rrType rrData = (s1, None) →
  ∃ zone',
    appended (zoneAt s (dotName name)) rrType zone' ∧
    s1 = setZones (<[dotName name := zone']> (Zones (r s))) s.
Proof.
  unfold AppendRR, store, reject. fold (zoneAt s (dotName name)).
  destruct (Z.eqb_spec rrType dns.TypeA) as [-> | _].
  { intros [= <-]. eexists. split; [constructor | reflexivity]. }
  destruct (Z.eqb_spec rrType dns.TypeAAAA) as [-> | _].
  { intros [= <-]. eexists. split; [constructor | reflexivity]. }
  destruct (Z.eqb_spec rrType dns.TypeTXT) as [-> | _].
  { intros [= <-]. eexists. split; [constructor | reflexivity]. }
  destruct (Z.eqb_spec rrType dns.TypePTR) as [-> | _].
  { intros [= <-]. eexists. split; [constructor | reflexivity]. }
  destruct (Z.eqb_spec rrType dns.TypeCNAME) as [-> | _].
  { intros [= <-]. eexists. split; [constructor | reflexivity]. }
  destruct (Z.eqb_spec rrType dns.TypeMX) as [-> | _].
  { destruct (strs.SplitN rrData " " 2) as [|p0 [|p1 [|]]];
      try discriminate.
    destruct (strs.Atoi p0); [| discriminate].
    intros [= <-]. eexists. split; [constructor | reflexivity]. }
  destruct (Z.eqb_spec rrType dns.TypeNS) as [-> | _].
  { intros [= <-]. eexists. split; [constructor | reflexivity]. }
  destruct (Z.eqb_spec rrType dns.TypeSRV) as [-> | _]; [| discriminate].
  destruct (strs.SplitN rrData " " 4) as [|p0 [|p1 [|p2 [|p3 [|]]]]];
    try discriminate.
  destruct (strs.Atoi p0); [| discriminate].
  destruct (strs.Atoi p1); [| discriminate].
  destruct (strs.Atoi p2); [| discriminate].
  intros [= <-]. eexists. split; [constructor | reflexivity].
Qed.

Lemma appended_frame zone rrType zone' :
  appended zone rrType zone' →
  Err zone' = Err zone ∧
  Misc zone' = Misc zone ∧
  (rrType ≠ dns.TypeCNAME → CNAME zone' = CNAME zone) ∧
  (∀ other, other ≠ rrType → recordsOf other zone' = recordsOf other zone) ∧
  clearType rrType zone' = clearType rrType zone.
Proof.
  intros Happ.
  destruct Happ; (split; [reflexivity |]); (split; [reflexivity |]);
    (split; [first [reflexivity | congruence] |]);
    (split; [| reflexivity]);
    intros other Hne; unfold recordsOf;
    repeat match goal with
      | |- context [Z.eqb other ?t] => destruct (Z.eqb_spec other t)
      end; first [congruence | reflexivity].
Qed.

(** *** What [RemoveRR] prunes *)

Lemma Misc_clearType rrType zone : Misc (clearType rrType zone) = Misc zone.
Proof. unfold clearType. by_type; reflexivity. Qed.

(** The zones with every field empty, by record type. *)
Lemma noRecords_by_type zone :
  noRecords zone ↔
  (∀ rrType, recordsOf rrType zone = []) ∧
  CNAME zone = EmptyString ∧ Misc zone = ∅.
Proof.
  split.
  - intros Hnone. split; [intros rrType; apply noRecords_recordsOf, Hnone |].
    destruct Hnone as (_ & _ & _ & _ & Hc & _ & _ & _ & Hm). auto.
  - intros (Hrec & Hc & Hm).
    pose proof (Hrec dns.TypeA) as Ha.
    pose proof (Hrec dns.TypeAAAA) as H6.
    pose proof (Hrec dns.TypeTXT) as Htxt.
    pose proof (Hrec dns.TypePTR) as Hptr.
    pose proof (Hrec dns.TypeMX) as Hmx.
    pose proof (Hrec dns.TypeNS) as Hns.
    pose proof (Hrec dns.TypeSRV) as Hsrv.
    change (map RText (A zone) = []) in Ha.
    change (map RText (AAAA zone) = []) in H6.
    change (map RText (TXT zone) = []) in Htxt.
    change (map RText (PTR zone) = []) in Hptr.
    change (map RMX (MX zone) = []) in Hmx.
    change (map RNS (NS zone) = []) in Hns.
    change (map RSRV (SRV zone) = []) in Hsrv.
    apply map_eq_nil in Ha, H6, Htxt, Hptr, Hmx, Hns, Hsrv.
    repeat split; assumption.
Qed.

(** When clearing a type leaves a zone with every field empty: the zone
    held records of that type only. *)
Lemma noRecords_clearType rrType zone :
  noRecords (clearType rrType zone) ↔
  (∀ other, other ≠ rrType → recordsOf other zone = []) ∧
  (rrType ≠ dns.TypeCNAME → CNAME zone = EmptyString) ∧
  Misc zone = ∅.
Proof.
  rewrite noRecords_by_type, CNAME_clearType, Misc_clearType.
  split.
  - intros (Hrec & Hc & Hm). repeat split; [| | exact Hm].
    + intros other Hne. specialize (Hrec other).
      rewrite recordsOf_clearType in Hrec.
      destruct (Z.eqb_spec other rrType); [contradiction | exact Hrec].
    + intros Hne.
      destruct (Z.eqb_spec rrType dns.TypeCNAME); [contradiction | exact Hc].
  - intros (Hrec & Hc & Hm). repeat split; [| | exact Hm].
    + intros other. rewrite recordsOf_clearType.
      destruct (Z.eqb_spec other rrType); [reflexivity | auto].
    + destruct (Z.eqb_spec rrType dns.TypeCNAME); [reflexivity | auto].
Qed.

Lemma RemoveRR_pruned s name rrType :
  pruned (Zones (r s)) → pruned (Zones (r (RemoveRR s name rrType))).
Proof.
  intros Hp k zone.
  destruct (decide (k = dotName name)) as [-> | Hne].
  - unfold RemoveRR.
    destruct (isZoneEmpty _) eqn:Hempty; cbn [Zones r setZones].
    + rewrite lookup_delete_eq. discriminate.
    + rewrite lookup_insert_eq. intros [= <-]. exact Hempty.
  - rewrite RemoveRR_other_keys by exact Hne. apply Hp.
Qed.

Lemma appended_not_empty zone rrType zone' :
  appended zone rrType zone' →
  rrType ≠ dns.TypeCNAME →
  isZoneEmpty zone' = false.
Proof.
  intros Happ Hne. apply not_true_iff_false.
  rewrite isZoneEmpty_noRecords. unfold noRecords.
  destruct Happ; cbn [A AAAA TXT PTR CNAME MX NS SRV Misc
                      setA setAAAA setTXT setPTR setCNAME setMX setNS setSRV];
    try contradiction;
    intros (Ha & H6 & Htxt & Hptr & Hc & Hmx & Hns & Hsrv & Hm);
    match goal with
    | H : ?l ++ [_] = [] |- _ => destruct l; discriminate H
    end.
Qed.

Lemma AppendRR_pruned s name rrType rrData s1 :
  pruned (Zones (r s)) →
  AppendRR s name rrType rrData = (s1, None) →
  (rrType = dns.TypeCNAME → rrData ≠ EmptyString) →
  pruned (Zones (r s1)).
Proof.
  intros Hp Happ Hdata.
  assert (Hstored : ∃ zone',
             s1 = setZones (<[dotName name := zone']> (Zones (r s))) s ∧
             isZoneEmpty zone' = false).
  { destruct (Z.eq_dec rrType dns.TypeCNAME) as [-> | Hne].
    - revert Happ. unfold AppendRR, store. eval_eqb. cbv iota.
      intros [= <-]. eexists. split; [reflexivity |].
      apply not_true_iff_false. rewrite isZoneEmpty_noRecords.
      intros (_ & _ & _ & _ & Hc & _). apply (Hdata eq_refl). exact Hc.
    - destruct (AppendRR_stored _ _ _ _ _ Happ) as (zone' & Hzone & ->).
      exists zone'. split; [reflexivity |].
      apply (appended_not_empty _ _ _ Hzone Hne). }
  destruct Hstored as (zone' & -> & Hfull).
  intros k zone. cbn [Zones r setZones].
  destruct (decide (k = dotName name)) as [-> | Hk].
  - rewrite lookup_insert_eq. intros [= <-]. exact Hfull.
  - rewrite lookup_insert_ne by congruence. apply Hp.
Qed.

(** The lookup of a query whose key the store does not hold. *)
Lemma lookupOutcome_gone maxChain s q :
  dns.Qtype q ≠ dns.TypeSOA →
  Zones (r s) !! queryKey q = None →
  lookupOutcome maxChain s q =
  ([], queryKey q, Some (notFound (queryKey q))).
Proof.
  unfold queryKey. intros Hsoa.
  destruct (engineType (dns.Qtype q)) eqn:Hty.
  - apply lookupOutcome_absent. exact Hty.
  - unfold engineType in Hty.
    repeat (apply orb_false_elim in Hty as [Hty ?]).
    unfold lookupOutcome.
    repeat match goal with
      | H : (dns.Qtype q =? _) = false |- _ => rewrite H; clear H
      end.
    destruct (Z.eqb_spec (dns.Qtype q) dns.TypeCNAME) as [_ | _].
    + intros ->. reflexivity.
    + destruct (Z.eqb_spec (dns.Qtype q) dns.TypePTR) as [_ | _];
        [intros ->; reflexivity |].
      destruct (Z.eqb_spec (dns.Qtype q) dns.TypeSOA); [contradiction |].
      intros ->. reflexivity.
Qed.

(** C8, as the code has it.  [RemoveRR] deletes the entry of the name
    exactly when the zone held records of the removed type only: no record
    of another type, an empty [CNAME] field unless CNAME is the type
    removed, and no key in [Misc] ([Err] is not looked at).  An entry that
    stays is the zone with the type cleared and is not empty for
    [isZoneEmpty]; so a store without empty entries stays without them
    under [RemoveRR], and under [AppendRR] unless it stores an empty CNAME
    target.  Once the entry is gone, every lookup of the name, and every
    query other than SOA whose key is the name, ends in NotFound. *)
Theorem RemoveRR_prunes s name rrType :
  (Zones (r (RemoveRR s name rrType)) !! dotName name = None ↔
   (∀ other,
       other ≠ rrType → recordsOf other (zoneAt s (dotName name)) = []) ∧
   (rrType ≠ dns.TypeCNAME →
    CNAME (zoneAt s (dotName name)) = EmptyString) ∧
   Misc (zoneAt s (dotName name)) = ∅) ∧
  (∀ zone,
      Zones (r (RemoveRR s name rrType)) !! dotName name = Some zone →
      zone = clearType rrType (zoneAt s (dotName name)) ∧
      isZoneEmpty zone = false) ∧
  (pruned (Zones (r s)) → pruned (Zones (r (RemoveRR s name rrType)))) ∧
  (∀ other rrData s1,
      pruned (Zones (r s)) →
      AppendRR s name other rrData = (s1, None) →
      (other = dns.TypeCNAME → rrData ≠ EmptyString) →
      pruned (Zones (r s1))) ∧
  (Zones (r (RemoveRR s name rrType)) !! dotName name = None →
   (∀ maxChain (V : Type) (field : Zone → list V) host,
       normalize host = dotName name →
       lookup maxChain field (r (RemoveRR s name rrType)) host =
       failed [] (dotName name) (notFound (dotName name))) ∧
   (∀ maxChain ParseIP m q qs,
       dns.Opcode m = dns.OpcodeQuery →
       dns.Questions m = q :: qs →
       dns.Qclass q = dns.ClassINET →
       dns.Qtype q ≠ dns.TypeSOA →
       queryKey q = dotName name →
       ∃ reply,
         ServeDNS maxChain ParseIP (RemoveRR s name rrType) m =
         Written reply ∧
         isNotFoundReply reply (dotName name))).
Proof.
  split; [| split; [| split; [| split]]].
  - rewrite <- noRecords_clearType, <- isZoneEmpty_noRecords.
    unfold RemoveRR. fold (zoneAt s (dotName name)).
    destruct (isZoneEmpty (clearType rrType (zoneAt s (dotName name))));
      cbn [Zones r setZones].
    + rewrite lookup_delete_eq. tauto.
    + rewrite lookup_insert_eq. split; discriminate.
  - intros zone. unfold RemoveRR. fold (zoneAt s (dotName name)).
    destruct (isZoneEmpty (clearType rrType (zoneAt s (dotName name))))
      eqn:Hempty; cbn [Zones r setZones].
    + rewrite lookup_delete_eq. discriminate.
    + rewrite lookup_insert_eq. intros [= <-]. auto.
  - apply RemoveRR_pruned.
  - intros other rrData s1. apply AppendRR_pruned.
  - intros Hgone. split.
    + intros maxChain V field host Hhost. unfold lookup.
      rewrite Hhost. apply walk_absent. exact Hgone.
    + intros maxChain ParseIP m q qs Hop Hq Hclass Hsoa Hkey.
      rewrite <- Hkey in Hgone |- *.
      pose proof (lookupOutcome_gone maxChain _ q Hsoa Hgone) as Hout.
      destruct (ServeDNS_lookup_error maxChain ParseIP _ m q qs _ _ _
                  Hop Hq Hclass Hout) as [adbit Hw].
      destruct (errorReply_notFound (RemoveRR s name rrType) m adbit []
                  (queryKey q) (notFound (queryKey q)) eq_refl)
        as (d & [= <-] & Hrc & Hns & Hans).
      eexists. split; [exact Hw |]. repeat split; assumption.
Qed.

(** X17.  A successful [AppendRR] touches one field of the zone only: the
    record sets of the other types, the [CNAME] field unless the type is
    CNAME, [Err] and [Misc] of the zone under the key are as before. *)
Theorem AppendRR_frame s name rrType rrData s1 :
  AppendRR s name rrType rrData = (s1, None) →
  (∀ other,
      other ≠ rrType →
      recordsOf other (zoneAt s1 (dotName name)) =
      recordsOf other (zoneAt s (dotName name))) ∧
  (rrType ≠ dns.TypeCNAME →
   CNAME (zoneAt s1 (dotName name)) = CNAME (zoneAt s (dotName name))) ∧
  Err (zoneAt s1 (dotName name)) = Err (zoneAt s (dotName name)) ∧
  Misc (zoneAt s1 (dotName name)) = Misc (zoneAt s (dotName name)).
Proof.
  intros Happ.
  destruct (AppendRR_stored _ _ _ _ _ Happ) as (zone' & Hzone & ->).
  rewrite zoneAt_insert.
  destruct (appended_frame _ _ _ Hzone) as (He & Hm & Hc & Hr & _).
  auto.
Qed.

(** X21.  On a name the store has no entry for, [AppendRR] followed by
    [RemoveRR] of the same type gives back the server as it was. *)
Theorem RemoveRR_AppendRR s name rrType rrData s1 :
  Zones (r s) !! dotName name = None →
  AppendRR s name rrType rrData = (s1, None) →
  RemoveRR s1 name rrType = s.
Proof.
  intros Habsent Happ.
  destruct (AppendRR_stored _ _ _ _ _ Happ) as (zone' & Hzone & ->).
  destruct (appended_frame _ _ _ Hzone) as (_ & _ & _ & _ & Hclear).
  unfold RemoveRR. cbn [Zones r setZones]. rewrite lookup_insert_eq.
  simpl default. rewrite Hclear. unfold zoneAt. rewrite Habsent.
  simpl default. rewrite isZoneEmpty_clear_zeroZone.
  rewrite (delete_insert_id _ _ _ Habsent).
  destruct s as [[zones] authoritative]. reflexivity.
Qed.

(** X22.  After [AppendRR] of a multi-valued type, [RemoveRR] of another type
    keeps the record just added and those before it. *)
Theorem RemoveRR_keeps_other_types s name rrType other rrData s1 :
  multiValued rrType = true →
  AppendRR s name rrType rrData = (s1, None) →
  other ≠ rrType →
  ∃ v,
    parseRData rrType rrData = Some v ∧
    recordsOf rrType (zoneAt (RemoveRR s1 name other) (dotName name)) =
    recordsOf rrType (zoneAt s (dotName name)) ++ [v].
Proof.
  intros Hmv Happ Hne.
  destruct (AppendRR_appends _ _ _ _ _ Hmv Happ) as (v & Hv & _ & Hrec & _).
  exists v. split; [exact Hv |].
  rewrite RemoveRR_records.
  destruct (Z.eqb_spec rrType other); [congruence | exact Hrec].
Qed.

Lemma dotName_idempotent name : dotName (dotName name) = dotName name.
Proof.
  unfold dotName at 1. rewrite HasSuffix_dotName. reflexivity.
Qed.

(** X23.  A name with and without its final dot is the same name to the
    mutators: [AppendRR] and [RemoveRR] do the same for [name] and for the key
    made of it. *)
Theorem mutators_final_dot s name rrType rrData :
  AppendRR s (dotName name) rrType rrData = AppendRR s name rrType rrData ∧
  RemoveRR s (dotName name) rrType = RemoveRR s name rrType.
Proof.
  unfold AppendRR, RemoveRR. rewrite dotName_idempotent. split; reflexivity.
Qed.

(** ** Further properties: the key of the handler and the key of the
    mutators *)

Lemma leadingBackslashes_cons a l :
  dns.leadingBackslashes (a :: l) =
  if Ascii.eqb a backslash then S (dns.leadingBackslashes l) else O.
Proof.
  destruct a as [[] [] [] [] [] [] [] []]; reflexivity.
Qed.

Lemma IsFqdn_rev s :
  dns.IsFqdn s =
  match rev (list_ascii_of_string s) with
  | x :: before => isDot x && Nat.even (dns.leadingBackslashes before)
  | [] => false
  end.
Proof.
  unfold dns.IsFqdn. destruct (rev (list_ascii_of_string s)) as [|x before].
  - reflexivity.
  - destruct x as [[] [] [] [] [] [] [] []]; reflexivity.
Qed.

Lemma hasByte_Forall b s :
  hasByte b s = false →
  Forall (λ a, Ascii.eqb a b = false) (list_ascii_of_string s).
Proof.
  induction s as [|c s IH]; simpl; intros Hno; [constructor |].
  apply orb_false_elim in Hno as [Hc Hno]. constructor; auto.
Qed.

Lemma IsFqdn_last s :
  hasByte backslash s = false →
  dns.IsFqdn s =
  match last (list_ascii_of_string s) with
  | Some x => isDot x
  | None => false
  end.
Proof.
  intros Hno. apply hasByte_Forall in Hno. rewrite IsFqdn_rev.
  destruct (list_ascii_of_string s) as [|a l] using rev_ind;
    [reflexivity |].
  rewrite rev_app_distr, last_snoc. simpl rev. simpl app.
  apply Forall_app in Hno as [Hno _]. apply Forall_rev in Hno.
  destruct (rev l) as [|b before].
  - simpl. apply andb_true_r.
  - rewrite leadingBackslashes_cons.
    apply Forall_cons in Hno as [-> _]. simpl. apply andb_true_r.
Qed.

Lemma HasSuffix_last s :
  strs.HasSuffix s "." =
  match last (list_ascii_of_string s) with
  | Some x => isDot x
  | None => false
  end.
Proof.
  induction s as [|c s IH]; [reflexivity |].
  destruct s as [|c' s].
  - unfold strs.HasSuffix, isDot. simpl.
    destruct (Ascii.eqb c "."); reflexivity.
  - change (last (list_ascii_of_string (String c (String c' s))))
      with (last (list_ascii_of_string (String c' s))).
    rewrite <- IH. unfold strs.HasSuffix. simpl. rewrite Nat.sub_0_r.
    reflexivity.
Qed.

Lemma Fqdn_dotName s :
  hasByte backslash s = false → dns.Fqdn s = dotName s.
Proof.
  intros Hno. unfold dns.Fqdn, dotName.
  rewrite (IsFqdn_last s Hno), HasSuffix_last. reflexivity.
Qed.

Lemma isDot_lowerByte a : isDot (strs.lowerByte a) = isDot a.
Proof. destruct a as [[] [] [] [] [] [] [] []]; reflexivity. Qed.

Lemma list_ToLower s :
  list_ascii_of_string (strs.ToLower s) =
  map strs.lowerByte (list_ascii_of_string s).
Proof. induction s as [|c s IH]; simpl; [| rewrite IH]; reflexivity. Qed.

Lemma HasSuffix_ToLower s :
  strs.HasSuffix (strs.ToLower s) "." = strs.HasSuffix s ".".
Proof.
  rewrite !HasSuffix_last, list_ToLower.
  change (map strs.lowerByte (list_ascii_of_string s))
    with (strs.lowerByte <$> list_ascii_of_string s).
  rewrite fmap_last.
  destruct (last (list_ascii_of_string s)); simpl;
    [apply isDot_lowerByte | reflexivity].
Qed.

Lemma ToLower_append_dot s :
  strs.ToLower (s +:+ ".") = strs.ToLower s +:+ ".".
Proof.
  induction s as [|c s IH]; [reflexivity |].
  change (String (strs.lowerByte c) (strs.ToLower (s +:+ ".")) =
          String (strs.lowerByte c) (strs.ToLower s +:+ ".")).
  rewrite IH. reflexivity.
Qed.

(** For a name without a backslash, the key under which the handler looks
    the name up is the key the mutators make of its lowercase form. *)
Lemma normalize_dotName s :
  hasByte backslash s = false →
  normalize s = dotName (strs.ToLower s).
Proof.
  intros Hno. unfold normalize. rewrite (Fqdn_dotName s Hno).
  unfold dotName. rewrite HasSuffix_ToLower.
  destruct (strs.HasSuffix s "."); [reflexivity |].
  apply ToLower_append_dot.
Qed.

Section KeyProperties.

Variable maxChain : nat.
Variable ParseIP : string → option net.IP.

(** X24.  A target filed with [AppendRR] under the lowercase form of a name
    without a backslash is what a CNAME query of the name, in any letter case
    and with or without the final dot, is answered with. *)
Theorem AppendRR_then_CNAME_query s target m q qs :
  dns.Opcode m = dns.OpcodeQuery →
  dns.Questions m = q :: qs →
  dns.Qclass q = dns.ClassINET →
  dns.Qtype q = dns.TypeCNAME →
  hasByte backslash (dns.Q_Name q) = false →
  target ≠ EmptyString →
  ∃ reply,
    ServeDNS maxChain ParseIP
      (fst (AppendRR s (strs.ToLower (dns.Q_Name q)) dns.TypeCNAME target))
      m = Written reply ∧
    dns.Rcode reply = dns.RcodeSuccess ∧
    dns.Answer reply = [mkCname (normalize (dns.Q_Name q)) target].
Proof.
  intros Hop Hq Hclass Hty Hno Hne.
  destruct (ServeDNS_CNAME_case maxChain ParseIP
              (fst (AppendRR s (strs.ToLower (dns.Q_Name q))
                      dns.TypeCNAME target)) m q qs
              Hop Hq Hclass Hty) as (reply & Hw & Hr).
  exists reply. split; [exact Hw |].
  revert Hr. rewrite (normalize_dotName _ Hno).
  unfold AppendRR, store. eval_eqb. cbv iota.
  cbn [fst Zones r setZones]. rewrite lookup_insert_eq.
  cbn [CNAME setCNAME].
  destruct (String.eqb_spec target EmptyString); [contradiction |]. auto.
Qed.

End KeyProperties.

(** ** Closed instances of the further properties *)

(** C8 fails on the code.  A zone whose [Misc] keeps a type code with no
    record under it holds no record once its A records are removed, and
    its entry stays: a PTR query of the name is then answered with rcode
    success, where the same query of a name without entry is answered with
    name-error.  And the empty entry an [AppendRR] of an empty CNAME target
    made is still there after a [RemoveRR] for another name. *)
Lemma RemoveRR_prunes_counterexample :
  (holdsNoRecord
     (zoneAt (RemoveRR hollowServer "foo.io" dns.TypeA) "foo.io.") ∧
   is_Some
     (Zones (r (RemoveRR hollowServer "foo.io" dns.TypeA)) !! "foo.io.") ∧
   dns.Rcode
     (replyOf (ServeDNS exampleChain ParseIPv4
                 (RemoveRR hollowServer "foo.io" dns.TypeA)
                 (query 1 "foo.io." dns.TypePTR))) = dns.RcodeSuccess ∧
   dns.Answer
     (replyOf (ServeDNS exampleChain ParseIPv4
                 (RemoveRR hollowServer "foo.io" dns.TypeA)
                 (query 1 "foo.io." dns.TypePTR))) = []) ∧
  (Zones (r (RemoveRR blankServer "bar.io" dns.TypeA)) !! "foo.io." =
   Some zeroZone ∧
   isZoneEmpty zeroZone = true ∧
   dns.Rcode
     (replyOf (ServeDNS exampleChain ParseIPv4
                 (RemoveRR blankServer "bar.io" dns.TypeA)
                 (query 2 "foo.io." dns.TypePTR))) = dns.RcodeSuccess) ∧
  dns.Rcode
    (replyOf (ServeDNS exampleChain ParseIPv4 emptyServer
                (query 3 "foo.io." dns.TypePTR))) = dns.RcodeNameError.
Proof.
  split; [| split; [repeat split | reflexivity]].
  split; [| repeat split; eauto].
  change (zoneAt (RemoveRR hollowServer "foo.io" dns.TypeA) "foo.io.")
    with (setA [] hollowZone).
  repeat split.
  intros rrType rrs Hl.
  change (Misc (setA [] hollowZone))
    with (<[52 := []]> (∅ : gmap Z (list dns.RR))) in Hl.
  apply lookup_insert_Some in Hl as [[_ <-] | [_ Hl]]; [reflexivity |].
  rewrite lookup_empty in Hl. discriminate.
Qed.

Lemma RemoveRR_prunes_witness :
  Zones (r oneRecord) !! "foo.io." = Some (setA ["192.168.2.19"] zeroZone) ∧
  Zones (r (RemoveRR oneRecord "foo.io" dns.TypeA)) !! "foo.io." = None ∧
  lookupA exampleChain (r (RemoveRR oneRecord "foo.io" dns.TypeA)) "foo.io" =
  failed [] "foo.io." (notFound "foo.io.") ∧
  ∃ reply,
    ServeDNS exampleChain ParseIPv4 (RemoveRR oneRecord "foo.io" dns.TypeA)
             (query 1 "Foo.io" dns.TypeTXT) = Written reply ∧
    isNotFoundReply reply "foo.io.".
Proof.
  destruct (RemoveRR_prunes oneRecord "foo.io" dns.TypeA)
    as (Hgone & _ & _ & _ & Hlookup).
  assert (Habsent :
    Zones (r (RemoveRR oneRecord "foo.io" dns.TypeA)) !! dotName "foo.io" =
    None).
  { apply Hgone.
    change (zoneAt oneRecord (dotName "foo.io"))
      with (setA ["192.168.2.19"] zeroZone).
    split; [| split; reflexivity].
    intros other Hne. unfold recordsOf.
    destruct (Z.eqb_spec other dns.TypeA); [contradiction |].
    repeat match goal with
      | |- context [if ?b then _ else _] => destruct b
      end; reflexivity. }
  destruct (Hlookup Habsent) as [Hresolver Hwire].
  split; [reflexivity |]. split; [exact Habsent |]. split.
  - apply (Hresolver exampleChain string A "foo.io"). reflexivity.
  - apply (Hwire exampleChain ParseIPv4 (query 1 "Foo.io" dns.TypeTXT)
             (question "Foo.io" dns.TypeTXT) []); try reflexivity.
    discriminate.
Defined.

Lemma ServeDNS_answers_request_witness :
  answers (query 5 "www.example.org." dns.TypeNS)
    (replyOf (ServeDNS exampleChain ParseIPv4 (NewServer danglingZones true)
                (query 5 "www.example.org." dns.TypeNS))) ∧
  (dns.Opcode (query 5 "www.example.org." dns.TypeNS) = dns.OpcodeQuery →
   dns.RecursionDesired
     (replyOf (ServeDNS exampleChain ParseIPv4 (NewServer danglingZones true)
                 (query 5 "www.example.org." dns.TypeNS))) =
   dns.RecursionDesired (query 5 "www.example.org." dns.TypeNS) ∧
   dns.CheckingDisabled
     (replyOf (ServeDNS exampleChain ParseIPv4 (NewServer danglingZones true)
                 (query 5 "www.example.org." dns.TypeNS))) =
   dns.CheckingDisabled (query 5 "www.example.org." dns.TypeNS)).
Proof.
  apply (ServeDNS_answers_request exampleChain ParseIPv4
           (NewServer danglingZones true)
           (query 5 "www.example.org." dns.TypeNS)).
  reflexivity.
Defined.

Lemma ServeDNS_refuses_other_opcodes_witness :
  ∃ reply,
    ServeDNS exampleChain ParseIPv4 (NewServer chainZones true) notifyMsg =
    Written reply ∧
    dns.Rcode reply = dns.RcodeRefused ∧
    dns.Authoritative reply = false ∧
    dns.RecursionAvailable reply = false ∧
    dns.Answer reply = [] ∧ dns.Ns reply = [] ∧ dns.Extra reply = [].
Proof.
  apply (ServeDNS_refuses_other_opcodes exampleChain ParseIPv4
           (NewServer chainZones true) notifyMsg).
  discriminate.
Defined.

Lemma ServeDNS_other_class_witness :
  ∃ reply,
    ServeDNS exampleChain ParseIPv4 (NewServer chainZones true) chaosQuery =
    Written reply ∧
    dns.Rcode reply = dns.RcodeNotImplemented ∧
    dns.Answer reply = [] ∧ dns.Ns reply = [] ∧ dns.Extra reply = [].
Proof.
  apply (ServeDNS_other_class exampleChain ParseIPv4
           (NewServer chainZones true) chaosQuery
           {| dns.Q_Name := "version.bind."; dns.Qtype := dns.TypeTXT;
              dns.Qclass := 3 |} []);
    [reflexivity | reflexivity | discriminate].
Defined.

Lemma ServeDNS_SOA_witness :
  ∃ reply,
    ServeDNS exampleChain ParseIPv4 emptyServer
             (query 4 "Nope.IO" dns.TypeSOA) = Written reply ∧
    dns.Rcode reply = dns.RcodeSuccess ∧
    dns.Answer reply = [mkSOA "Nope.IO"] ∧
    dns.Ns reply = [].
Proof.
  apply (ServeDNS_SOA exampleChain ParseIPv4 emptyServer
           (query 4 "Nope.IO" dns.TypeSOA)
           (question "Nope.IO" dns.TypeSOA) []); reflexivity.
Defined.

Lemma ServeDNS_PTR_witness :
  ∃ reply,
    ServeDNS exampleChain ParseIPv4 ptrServer
             (query 6 "19.2.168.192.in-addr.arpa." dns.TypePTR) =
    Written reply ∧
    dns.Rcode reply = dns.RcodeSuccess ∧
    dns.Answer reply =
    [mkPTR "19.2.168.192.in-addr.arpa." "bar.io.";
     mkPTR "19.2.168.192.in-addr.arpa." "zoom.io."] ∧
    dns.Ns reply = [].
Proof.
  apply (ServeDNS_PTR exampleChain ParseIPv4 ptrServer
           (query 6 "19.2.168.192.in-addr.arpa." dns.TypePTR)
           (question "19.2.168.192.in-addr.arpa." dns.TypePTR) []);
    reflexivity.
Defined.

Lemma ServeDNS_Misc_witness :
  ∃ reply,
    ServeDNS exampleChain ParseIPv4 (NewServer tlsaZones false)
             (query 8 "example.org." 52) = Written reply ∧
    dns.Rcode reply = dns.RcodeSuccess ∧
    dns.Answer reply = [tlsaRecord] ∧
    dns.Ns reply = [].
Proof.
  apply (ServeDNS_Misc exampleChain ParseIPv4 (NewServer tlsaZones false)
           (query 8 "example.org." 52) (question "example.org." 52) []);
    reflexivity.
Defined.

Lemma ServeDNS_sections_witness :
  dns.Extra
    (replyOf (ServeDNS exampleChain ParseIPv4 (NewServer danglingZones true)
                (query 5 "www.example.org." dns.TypeNS))) = [] ∧
  (dns.Rcode
     (replyOf (ServeDNS exampleChain ParseIPv4 (NewServer danglingZones true)
                 (query 5 "www.example.org." dns.TypeNS))) =
   dns.RcodeNameError ∧
   (∃ name,
       dns.Ns
         (replyOf (ServeDNS exampleChain ParseIPv4
                     (NewServer danglingZones true)
                     (query 5 "www.example.org." dns.TypeNS))) =
       [mkSOA name]) ∨
   dns.Rcode
     (replyOf (ServeDNS exampleChain ParseIPv4 (NewServer danglingZones true)
                 (query 5 "www.example.org." dns.TypeNS))) ≠
   dns.RcodeNameError ∧
   dns.Ns
     (replyOf (ServeDNS exampleChain ParseIPv4 (NewServer danglingZones true)
                 (query 5 "www.example.org." dns.TypeNS))) = []).
Proof.
  apply (ServeDNS_sections exampleChain ParseIPv4
           (NewServer danglingZones true)
           (query 5 "www.example.org." dns.TypeNS)).
  reflexivity.
Defined.

Lemma ServeDNS_writes_witness :
  (∃ reply,
      logged.ServeDNS exampleChain ParseIPv4 brokenWriter
        (NewServerWithLogger (<["foo.io." := failingARecord]> ∅) someLogger
           false)
        (query 2 "foo.io" dns.TypeA) = Returns reply) ∧
  logged.ServeDNS exampleChain ParseIPv4 okWriter
    (NewServerWithLogger chainZones nilLogger false)
    (query 7 "foo.io" dns.TypeCNAME) = PanicsUnsent nilDereference.
Proof.
  split.
  - destruct (ServeDNS_writes exampleChain ParseIPv4 brokenWriter
                (NewServerWithLogger (<["foo.io." := failingARecord]> ∅)
                   someLogger false)
                (query 2 "foo.io" dns.TypeA)) as (_ & Hreturns & _).
    apply Hreturns; [reflexivity | discriminate |].
    intros name zone addr Hz Hin.
    change (Zones (r (server (NewServerWithLogger
                                (<["foo.io." := failingARecord]> ∅)
                                someLogger false))))
      with (<["foo.io." := failingARecord]> (∅ : gmap string Zone)) in Hz.
    apply lookup_insert_Some in Hz as [[_ <-] | [_ Hz]];
      [| rewrite lookup_empty in Hz; discriminate].
    destruct Hin as [Hin | Hin].
    + apply list_elem_of_singleton in Hin as ->. vm_compute. eauto.
    + apply elem_of_nil in Hin. contradiction.
  - destruct (ServeDNS_writes exampleChain ParseIPv4 okWriter
                (NewServerWithLogger chainZones nilLogger false)
                (query 7 "foo.io" dns.TypeCNAME)) as (_ & _ & _ & Hpanics).
    apply (Hpanics eq_refl
             (replyOf (ServeDNS exampleChain ParseIPv4
                         (NewServer chainZones false)
                         (query 7 "foo.io" dns.TypeCNAME))));
      [reflexivity | left; reflexivity].
Defined.

Lemma ServeDNS_synthesized_witness :
  ownRecords dns.TypeNS
    (replyOf (ServeDNS exampleChain ParseIPv4 (NewServer danglingZones true)
                (query 5 "www.example.org." dns.TypeNS))).
Proof.
  apply (ServeDNS_synthesized exampleChain ParseIPv4
           (NewServer danglingZones true)
           (query 5 "www.example.org." dns.TypeNS)
           (question "www.example.org." dns.TypeNS) []); reflexivity.
Defined.

Lemma ServeDNS_TXT_answer_witness :
  ∃ reply,
    ServeDNS exampleChain ParseIPv4 (NewServer chainZones false)
             (query 1 "foo.io" dns.TypeTXT) = Written reply ∧
    dns.Rcode reply = dns.RcodeSuccess ∧
    length (dns.Answer reply) = 3%nat ∧
    last (dns.Answer reply) =
    Some (dns.TXT (hdr "example.org." dns.TypeTXT) ["hello"]).
Proof.
  destruct (ServeDNS_TXT_answer exampleChain ParseIPv4
              (NewServer chainZones false) (query 1 "foo.io" dns.TypeTXT)
              (question "foo.io" dns.TypeTXT) []
              eq_refl eq_refl eq_refl eq_refl eq_refl)
    as (reply & Hw & Hrc & Hans & _).
  exists reply. split; [exact Hw |]. split; [exact Hrc |].
  rewrite Hans. split; reflexivity.
Defined.

Lemma Reset_forgets_witness :
  Zones (r (Reset (NewServer chainZones true))) = ∅ ∧
  Authoritative (Reset (NewServer chainZones true)) = true ∧
  ∃ reply name,
    ServeDNS exampleChain ParseIPv4 (Reset (NewServer chainZones true))
             (query 1 "foo.io" dns.TypeTXT) = Written reply ∧
    isNotFoundReply reply name.
Proof.
  apply (Reset_forgets exampleChain ParseIPv4 (NewServer chainZones true)
           (query 1 "foo.io" dns.TypeTXT) (question "foo.io" dns.TypeTXT) []);
    [reflexivity | reflexivity | reflexivity | discriminate].
Defined.

Lemma RemoveRR_drops_Err_witness :
  (∃ reply,
      ServeDNS exampleChain ParseIPv4 failingAServer
               (query 2 "foo.io" dns.TypeA) = Written reply ∧
      dns.Rcode reply = dns.RcodeServerFailure) ∧
  (∃ reply,
      ServeDNS exampleChain ParseIPv4
               (RemoveRR failingAServer "foo.io" dns.TypeA)
               (query 2 "foo.io" dns.TypeA) = Written reply ∧
      dns.Rcode reply = dns.RcodeNameError).
Proof.
  apply (RemoveRR_drops_Err exampleChain ParseIPv4 failingAServer "foo.io"
           dns.TypeA failingARecord boom (query 2 "foo.io" dns.TypeA)
           (question "foo.io" dns.TypeA) []);
    try reflexivity.
  repeat split.
Defined.

Lemma AppendRR_outcomes_witness :
  AppendRR mxTwice "foo.io" dns.TypeSOA "localhost. hostmaster. 1" =
  (mxTwice, Some (ErrString "RR type not supported")) ∧
  fst (AppendRR mxTwice "foo.io" dns.TypeMX "ten bar.io.") = mxTwice ∧
  snd (AppendRR mxTwice "foo.io" dns.TypeNS "not a host name") = None.
Proof.
  destruct (AppendRR_outcomes mxTwice "foo.io" dns.TypeSOA
              "localhost. hostmaster. 1") as (_ & Hsoa & _).
  destruct (AppendRR_outcomes mxTwice "foo.io" dns.TypeMX "ten bar.io.")
    as (Hsame & _ & _).
  destruct (AppendRR_outcomes mxTwice "foo.io" dns.TypeNS "not a host name")
    as (_ & _ & Hns).
  split; [apply Hsoa; reflexivity |].
  split; [apply Hsame; discriminate |].
  apply Hns; [reflexivity | discriminate | discriminate].
Defined.

Lemma RemoveRR_clears_witness :
  recordsOf dns.TypeMX
    (zoneAt (RemoveRR mixedServer "foo.io" dns.TypeMX) "foo.io.") = [] ∧
  recordsOf dns.TypeA
    (zoneAt (RemoveRR mixedServer "foo.io" dns.TypeMX) "foo.io.") =
  [RText "192.168.2.19"].
Proof.
  destruct (RemoveRR_clears mixedServer "foo.io" dns.TypeMX)
    as (Hnone & _ & Hother & _).
  split; [exact Hnone |].
  assert (Hne : dns.TypeA ≠ dns.TypeMX) by discriminate.
  exact (eq_trans (Hother dns.TypeA Hne) eq_refl).
Defined.

Lemma RemoveRR_absent_witness :
  RemoveRR mxTwice "bar.io" dns.TypeMX = mxTwice.
Proof.
  apply (RemoveRR_absent mxTwice "bar.io" dns.TypeMX). reflexivity.
Defined.

Lemma AppendRR_frame_witness :
  recordsOf dns.TypeMX (zoneAt mixedServer "foo.io.") =
  recordsOf dns.TypeMX (zoneAt mxTwice "foo.io.") ∧
  CNAME (zoneAt mixedServer "foo.io.") = CNAME (zoneAt mxTwice "foo.io.").
Proof.
  destruct (AppendRR_frame mxTwice "foo.io" dns.TypeA "192.168.2.19"
              mixedServer eq_refl) as (Hother & Hcname & _).
  split; [apply Hother; discriminate | apply Hcname; discriminate].
Defined.

Lemma RemoveRR_AppendRR_witness :
  RemoveRR oneRecord "foo.io" dns.TypeA = emptyServer.
Proof.
  apply (RemoveRR_AppendRR emptyServer "foo.io" dns.TypeA "192.168.2.19"
           oneRecord); reflexivity.
Defined.

Lemma RemoveRR_keeps_other_types_witness :
  ∃ v,
    parseRData dns.TypeMX "19 bar.io." = Some v ∧
    recordsOf dns.TypeMX
      (zoneAt (RemoveRR mxOnce "foo.io" dns.TypeA) "foo.io.") =
    recordsOf dns.TypeMX (zoneAt emptyServer "foo.io.") ++ [v].
Proof.
  apply (RemoveRR_keeps_other_types emptyServer "foo.io" dns.TypeMX
           dns.TypeA "19 bar.io." mxOnce);
    [reflexivity | reflexivity | discriminate].
Defined.

Lemma AppendRR_then_CNAME_query_witness :
  ∃ reply,
    ServeDNS exampleChain ParseIPv4
      (fst (AppendRR emptyServer "foo.io" dns.TypeCNAME "bar.io."))
      (query 1 "Foo.IO" dns.TypeCNAME) = Written reply ∧
    dns.Rcode reply = dns.RcodeSuccess ∧
    dns.Answer reply = [mkCname "foo.io." "bar.io."].
Proof.
  apply (AppendRR_then_CNAME_query exampleChain ParseIPv4 emptyServer
           "bar.io." (query 1 "Foo.IO" dns.TypeCNAME)
           (cnameQuestion "Foo.IO") []); try reflexivity.
  discriminate.
Defined.
